(** * polly.py: toolchain layout and command composition

    A shallow embedding of [bin/polly.py], the build driver of polly.  The script
    is a straight-line program: it parses its arguments, derives a directory
    layout from the toolchain name, validates a handful of option
    combinations with [sys.exit], composes the [cmake] configure and build
    command lines and hands them to helpers of the [detail] package.

    The embedding keeps that shape.  Parsed arguments are a record, the
    filesystem and platform are an explicit [World], [sys.exit] and Python
    exceptions are the left summand of [Result], and the calls into [detail]
    that act on the outside world are recorded as a list of [Event]s.

    Every call that leaves the file can raise: the helpers of the
    environment tuning (lines 209-241), which run before the first check of
    the script, and each of the recorded calls.  What they raise is read
    from the [World]; a call that raises ends the run there. *)

From Stdlib Require Import String Ascii List ZArith Bool Lia DecimalString.
Import ListNotations.

Open Scope string_scope.
Open Scope list_scope.

Infix "+++" := String.append (right associativity, at level 60).

(** ** Python primitives *)

(** A [string] stands for the Python [str] with the same code points, all
    of them below 256. *)
Module Py.

(** [bool(s)] for a [str]. *)
Definition truthy (s : string) : bool := negb (s =? "")%string.

(** [bool(o)] for a value that is [None] or a [str]. *)
Definition given (o : option string) : bool :=
  match o with
  | Some s => truthy s
  | None => false
  end.

(** [bool(n)] for a value that is [None] or an [int]. *)
Definition given_int (o : option Z) : bool :=
  match o with
  | Some n => negb (n =? 0)%Z
  | None => false
  end.

(** ['{}'.format(n)] for an [int] that [int] below can return. *)
Definition str (n : Z) : string := NilZero.string_of_int (Z.to_int n).

(** [s.startswith(p)] *)
Definition startswith (p s : string) : bool := String.prefix p s.

(** [s.endswith('/')] *)
Fixpoint endswith_sep (s : string) : bool :=
  match s with
  | EmptyString => false
  | String c EmptyString => (c =? "/")%char
  | String _ r => endswith_sep r
  end.

(** One round of the loop of [posixpath.join]. *)
Definition join2 (path b : string) : string :=
  if startswith "/" b then b
  else if negb (truthy path) || endswith_sep path then path +++ b
  else path +++ "/" +++ b.

(** [os.path.join(a, *p)], in its POSIX version. *)
Definition join (a : string) (p : list string) : string := fold_left join2 p a.

(** Characters skipped by [int] around the literal, for a [str] of code
    points below 256: tab to carriage return, the space, and the two
    characters beyond ASCII that [int] turns into a space, NEL and the
    no-break space. *)
Definition is_space (c : ascii) : bool :=
  let n := nat_of_ascii c in
  (((9 <=? n) && (n <=? 13)) || (n =? 32) || (n =? 133) || (n =? 160))%nat.

Definition is_digit (c : ascii) : bool :=
  let n := nat_of_ascii c in ((48 <=? n) && (n <=? 57))%nat.

Fixpoint lstrip (s : string) : string :=
  match s with
  | String c r => if is_space c then lstrip r else s
  | EmptyString => EmptyString
  end.

Fixpoint rstrip (s : string) : string :=
  match s with
  | String c r =>
      let r' := rstrip r in
      if is_space c && negb (truthy r') then EmptyString else String c r'
  | EmptyString => EmptyString
  end.

(** Decimal digits, single underscores allowed between two digits. *)
Fixpoint digits (s : string) (acc : Z) (after_digit : bool) : option Z :=
  match s with
  | EmptyString => if after_digit then Some acc else None
  | String c r =>
      if is_digit c then
        digits r (10 * acc + Z.of_nat (nat_of_ascii c - 48))%Z true
      else if (c =? "_")%char && after_digit then digits r acc false
      else None
  end.

(** [sys.int_info.default_max_str_digits], the longest literal [int]
    converts (CPython 3.11). *)
Definition int_max_str_digits : N := 4300.

Fixpoint count_digits (s : string) : N :=
  match s with
  | EmptyString => 0
  | String c r => ((if is_digit c then 1 else 0) + count_digits r)%N
  end.

(** The literal of [int] once blanks and sign are gone. *)
Definition literal (s : string) : option Z :=
  if (int_max_str_digits <? count_digits s)%N then None
  else digits s 0%Z false.

(** [int(s)] for a [str] of code points below 256, none of which but
    [0]-[9] is a decimal digit; [None] stands for [ValueError]. *)
Definition int (s : string) : option Z :=
  match lstrip (rstrip s) with
  | String "+" r => literal r
  | String "-" r => option_map Z.opp (literal r)
  | t => literal t
  end.

End Py.

(** ** Outcomes *)

(** What ends the script early: [sys.exit(msg)], or an exception;
    [Exception kind msg] is one of a class the file does not name, such as
    the [OSError] of [os.makedirs]. *)
Inductive Raised : Type :=
| SysExit (msg : string)
| ValueError (literal : string)
| ArgumentTypeError (msg : string)
| Exception (kind msg : string).

Definition Result (A : Type) : Type := (Raised + A)%type.

Definition bindR {A B : Type} (m : Result A) (k : A -> Result B) : Result B :=
  match m with
  | inl e => inl e
  | inr x => k x
  end.

Notation "x <-- m ; k" := (bindR m (fun x => k))
  (at level 61, m at next level, right associativity).

(** [if c: sys.exit(msg)] *)
Definition exit_if (c : bool) (msg : string) : Result unit :=
  if c then inl (SysExit msg) else inr tt.

(** ** Command line *)

Inductive Verbosity : Type := silent | normal | full.

(** The namespace returned by [parser.parse_args()]. *)
Record Args : Type := {
  args_toolchain : option string;
  args_config : option string;
  args_home : option string;
  args_output : option string;
  args_test : bool;
  args_test_xml : option string;
  args_pack : option string;
  args_archive : option string;
  args_nobuild : bool;
  args_open : bool;
  args_verbosity : Verbosity;
  args_verbose : bool;
  args_install : bool;
  args_ios_multiarch : bool;
  args_ios_combined : bool;
  args_framework : bool;
  args_framework_device : bool;
  args_strip : bool;
  args_identity : option string;
  args_plist : option string;
  args_clear : bool;
  args_reconfig : bool;
  args_fwd : option (list string);
  args_iossim : bool;
  args_jobs : option Z;
  args_target : option string;
  args_discard : option Z;
  args_tail : option Z;
  args_timeout : option Z
}.

(** [type=int], the converter argparse applies to the value of [--jobs]. *)
Definition jobs_type (s : string) : Result Z :=
  match Py.int s with
  | Some value => inr value
  | None => inl (ValueError s)
  end.

(** The converter of [--discard], [--tail] and [--timeout]. *)
Definition PositiveInt (s : string) : Result Z :=
  match Py.int s with
  | None => inl (ValueError s)
  | Some value =>
      if (0 <? value)%Z then inr value
      else inl (ArgumentTypeError ("Should be greater that zero: " +++ s))
  end.

(** ** Toolchains *)

(** An entry of [detail.toolchain_table], with the attributes the script
    reads. *)
Record Toolchain : Type := {
  name : string;
  generator : string;
  multiconfig : bool;
  is_make : bool;
  is_nmake : bool;
  is_ninja : bool;
  is_xcode : bool;
  is_msvc : bool;
  vs_version : string;
  arch : string;
  ios_version : string;
  osx_version : string;
  xp : bool;
  nocodesign : bool
}.

(** ** Environment tuning (lines 209-241) *)

(** [os.environ], as the mapping the script reads and assigns. *)
Definition Environ : Type := string -> option string.

(** [environ[key] = value] *)
Definition setenv (key value : string) (environ : Environ) : Environ :=
  fun k => if (k =? key)%string then Some value else environ k.

(** ['{}'.format(o)] for a value that is [None] or a [str]. *)
Definition format_opt (o : option string) : string :=
  match o with
  | Some s => s
  | None => "None"
  end.

(** The helpers of [detail] that the tuning calls.  Their bodies are not in
    the file: each is a parameter, and each may raise. *)
Record Helpers : Type := {
  verify_mingw_path : option string -> Result unit;
  verify_msys_path : option string -> Result unit;
  get_nmake_environment : string -> string -> Result Environ;
  ios_dev_root : string -> Result (option string);
  osx_dev_root : string -> Result (option string)
}.

(** "Tune environment": the value of [os.environ] when line 241 is done. *)
Definition tune_environment (hp : Helpers) (polly_root : string)
    (toolchain_entry : Toolchain) (environ : Environ) : Result Environ :=
  environ <--
    (if (name toolchain_entry =? "mingw")%string
        || (name toolchain_entry =? "mingw-c11")%string
     then
       let mingw_path := environ "MINGW_PATH" in
       _ <-- verify_mingw_path hp mingw_path;
       inr (setenv "PATH"
              (format_opt mingw_path +++ ";" +++ format_opt (environ "PATH"))
              environ)
     else inr environ);
  environ <--
    (if (name toolchain_entry =? "msys")%string then
       let msys_path := environ "MSYS_PATH" in
       _ <-- verify_msys_path hp msys_path;
       inr (setenv "PATH"
              (format_opt msys_path +++ ";" +++ format_opt (environ "PATH"))
              environ)
     else inr environ);
  let vs_ninja :=
    is_ninja toolchain_entry && Py.truthy (vs_version toolchain_entry) in
  environ <--
    (if is_nmake toolchain_entry || vs_ninja then
       get_nmake_environment hp (arch toolchain_entry)
         (vs_version toolchain_entry)
     else inr environ);
  environ <--
    (if Py.truthy (ios_version toolchain_entry) then
       root <-- ios_dev_root hp (ios_version toolchain_entry);
       match root with
       | Some dir =>
           inr (if Py.truthy dir then setenv "DEVELOPER_DIR" dir environ
                else environ)
       | None => inr environ
       end
     else inr environ);
  let environ :=
    if nocodesign toolchain_entry then
      setenv "XCODE_XCCONFIG_FILE"
        (Py.join polly_root ["scripts"; "NoCodeSign.xcconfig"]) environ
    else environ in
  if Py.truthy (osx_version toolchain_entry) then
    root <-- osx_dev_root hp (osx_version toolchain_entry);
    match root with
    | Some dir =>
        inr (if Py.truthy dir then setenv "DEVELOPER_DIR" dir environ
             else environ)
    | None => inr environ
    end
  else inr environ.

(** The toolchain replaces the environment by a Visual Studio snapshot. *)
Definition takes_nmake_environment (toolchain_entry : Toolchain) : bool :=
  is_nmake toolchain_entry
  || (is_ninja toolchain_entry && Py.truthy (vs_version toolchain_entry)).

(** The toolchain has its [PATH] prefixed. *)
Definition is_mingw (toolchain_entry : Toolchain) : bool :=
  (name toolchain_entry =? "mingw")%string
  || (name toolchain_entry =? "mingw-c11")%string.

Definition is_msys (toolchain_entry : Toolchain) : bool :=
  (name toolchain_entry =? "msys")%string.

(** ** The outside world *)

(** Calls into [os] and [detail] that act outside the process, in program
    order.  The stopwatch of [detail.timer] and the [print] statements,
    which only report, are not recorded. *)
Inductive Event : Type :=
| Rmtree (path : string)
| Makedirs (path : string)
| Logging (cdir : string) (verbosity : Verbosity) (discard tail : option Z)
    (polly_toolchain : string)
| Call (argv : list string)
| Generate (argv : list string) (build_dir temp_dir : string) (reconfig : bool)
| CreateArchive (install_dir archives_dir archive toolchain : string)
    (config : option string)
| CreateFramework (install_dir framework_dir ios_version polly_root : string)
    (device : bool) (plist identity : option string)
| Chdir (path : string)
| Test (build_dir : string) (config test_xml : option string) (verbose : bool)
    (timeout : option Z)
| Pack (config : option string) (cpack_generator : string)
| OpenProject (toolchain : Toolchain) (build_dir : string).

(** The filesystem as [os.path] and [os.access] see it at one moment. *)
Record FS : Type := {
  fs_exists : string -> bool;
  fs_isdir : string -> bool;
  fs_access_W : string -> bool
}.

(** Everything the script reads from outside its arguments.  The filesystem
    is indexed by the events performed so far, since [rmtree] and [makedirs]
    change it.  [w_raises h ev] is what the call [ev] raises when it is made
    after the calls [h], and [None] when it returns.  [w_target_args] is
    [detail.target.Target.args]. *)
Record World : Type := {
  w_polly_root : string;
  w_getcwd : string;
  w_platform_system : string;
  w_os_name : string;
  w_environ : Environ;
  w_helpers : Helpers;
  w_fs : list Event -> FS;
  w_raises : list Event -> Event -> option Raised;
  w_target_args : list string -> list string
}.

(** The build targets, [detail.target.Target]. *)
Module Target.

Definition t : Type := list string.

Definition new : t := [].

(** Modelled from the spec: [detail.target.Target] is not part of the file.
    The spec describes it as an ordered, deduplicated target list whose
    entries are added by independently evaluated conditions. *)
Definition add (condition : bool) (name : string) (names : t) : t :=
  if condition then
    if in_dec string_dec name names then names else names ++ [name]
  else names.

End Target.

(** ** Layout and validation (lines 203-207 and 243-289) *)

(** "Build directory tag" *)
Definition build_tag (a : Args) (toolchain_entry : Toolchain)
    (polly_toolchain : string) : string :=
  match args_config a with
  | Some config =>
      if Py.truthy config && negb (multiconfig toolchain_entry)
      then polly_toolchain +++ "-" +++ config
      else polly_toolchain
  | None => polly_toolchain
  end.

Definition toolchain_path (polly_root polly_toolchain : string) : string :=
  Py.join polly_root [polly_toolchain +++ ".cmake"].

Definition toolchain_option (fs : FS) (w : World) (polly_toolchain : string)
    : Result string :=
  let path := toolchain_path (w_polly_root w) polly_toolchain in
  _ <-- exit_if (negb (fs_exists fs path)) ("Toolchain file not found: " +++ path);
  inr ("-DCMAKE_TOOLCHAIN_FILE=" +++ path).

Definition cdir (fs : FS) (w : World) (a : Args) : Result string :=
  match args_output a with
  | Some output =>
      if Py.truthy output then
        _ <-- exit_if (negb (fs_isdir fs output))
                ("Specified build directory does not exists: " +++ output);
        _ <-- exit_if (negb (fs_access_W fs output))
                ("Specified build directory is not writeable: " +++ output);
        inr output
      else inr (w_getcwd w)
  | None => inr (w_getcwd w)
  end.

Definition build_dir (cdir build_tag : string) : string :=
  Py.join cdir ["_builds"; build_tag].

Definition install_dir (cdir polly_toolchain : string) : string :=
  Py.join cdir ["_install"; polly_toolchain].

Definition framework_dir (cdir polly_toolchain : string) : string :=
  Py.join cdir ["_framework"; polly_toolchain].

Definition archives_dir (cdir : string) : string :=
  Py.join cdir ["_archives"].

Definition local_install (a : Args) : bool :=
  args_install a || args_strip a || args_framework a
  || args_framework_device a || Py.given (args_archive a).

Definition install_target_name (a : Args) : string :=
  if args_strip a then "install/strip"
  else if local_install a then "install"
  else "".

(** The two [target.add] calls. *)
Definition target (a : Args) : Target.t :=
  let t := Target.new in
  let t := Target.add (local_install a) (install_target_name a) t in
  match args_target a with
  | Some requested => Target.add (Py.truthy requested) requested t
  | None => t
  end.

(** The variables the rest of the script reads once validation is over. *)
Record Layout : Type := {
  lay_build_tag : string;
  lay_toolchain_option : string;
  lay_cdir : string;
  lay_build_dir : string;
  lay_build_dir_option : string;
  lay_install_dir : string;
  lay_local_install : bool;
  lay_target : Target.t;
  lay_install_dir_option : string;
  lay_framework_dir : string;
  lay_archives_dir : string
}.

(** Lines 203-207 and 243-289 in order; every [sys.exit] of the file is
    here. *)
Definition prepare (fs : FS) (w : World) (a : Args) (polly_toolchain : string)
    (toolchain_entry : Toolchain) : Result Layout :=
  let tag := build_tag a toolchain_entry polly_toolchain in
  topt <-- toolchain_option fs w polly_toolchain;
  cd <-- cdir fs w a;
  let bdir := build_dir cd tag in
  let idir := install_dir cd polly_toolchain in
  _ <-- exit_if (args_install a && args_strip a)
          "Both --install and --strip specified";
  let tgt := target a in
  _ <-- exit_if (args_strip a && negb (is_make toolchain_entry))
          "CMake install/strip targets are only supported for the Unix Makefile generator";
  _ <-- exit_if ((args_framework a || args_framework_device a)
                 && negb (w_platform_system w =? "Darwin")%string)
          "Framework creation only for Mac OS X";
  inr {| lay_build_tag := tag;
         lay_toolchain_option := topt;
         lay_cdir := cd;
         lay_build_dir := bdir;
         lay_build_dir_option := "-B" +++ bdir;
         lay_install_dir := idir;
         lay_local_install := local_install a;
         lay_target := tgt;
         lay_install_dir_option := "-DCMAKE_INSTALL_PREFIX=" +++ idir;
         lay_framework_dir := framework_dir cd polly_toolchain;
         lay_archives_dir := archives_dir cd |}.

(** ** The configure command (lines 314-356) *)

(** [if c: cmd.append(t1); cmd.append(t2); ...] *)
Definition append_if (c : bool) (tokens cmd : list string) : list string :=
  if c then fold_left (fun cmd t => cmd ++ [t]) tokens cmd else cmd.

Definition home (a : Args) : string :=
  match args_home a with
  | Some h => if Py.truthy h then h else "."
  | None => "."
  end.

(** [args.verbosity] after [--verbose] has overwritten it. *)
Definition verbosity (a : Args) : Verbosity :=
  if args_verbose a then full else args_verbosity a.

Definition is_full (v : Verbosity) : bool :=
  match v with
  | full => true
  | _ => false
  end.

Definition generate_command (a : Args) (toolchain_entry : Toolchain)
    (lay : Layout) : list string :=
  let cmd := ["cmake"; "-H" +++ home a; lay_build_dir_option lay] in
  let cmd :=
    match args_config a with
    | Some config =>
        append_if (Py.truthy config && negb (multiconfig toolchain_entry))
          ["-DCMAKE_BUILD_TYPE=" +++ config] cmd
    | None => cmd
    end in
  let cmd := append_if (Py.truthy (generator toolchain_entry))
               ["-G" +++ generator toolchain_entry] cmd in
  let cmd := append_if (xp toolchain_entry)
               ["-T" +++ "v" +++ vs_version toolchain_entry +++ "0_xp"] cmd in
  let cmd := append_if (Py.truthy (lay_toolchain_option lay))
               [lay_toolchain_option lay] cmd in
  let cmd := append_if (is_full (verbosity a))
               ["-DCMAKE_VERBOSE_MAKEFILE=ON"; "-DPOLLY_STATUS_DEBUG=ON";
                "-DHUNTER_STATUS_DEBUG=ON"] cmd in
  let cmd := append_if (args_ios_multiarch a)
               ["-DCMAKE_XCODE_ATTRIBUTE_ONLY_ACTIVE_ARCH=NO"] cmd in
  let cmd := append_if (args_ios_combined a)
               ["-DCMAKE_IOS_INSTALL_COMBINED=YES"] cmd in
  let cmd := append_if (lay_local_install lay)
               [lay_install_dir_option lay] cmd in
  let cmd :=
    match args_pack a with
    | Some cpack_generator =>
        append_if (Py.truthy cpack_generator)
          ["-DCPACK_GENERATOR=" +++ cpack_generator] cmd
    | None => cmd
    end in
  match args_fwd a with
  | Some fwd => fold_left (fun cmd x => cmd ++ ["-D" +++ x]) fwd cmd
  | None => cmd
  end.

(** ** The build command (lines 366-395) *)

(** The [--jobs] block; [int(vs_version)] is only evaluated for an MSVC
    entry that is neither Xcode nor Make. *)
Definition append_jobs (jobs : Z) (toolchain_entry : Toolchain)
    (cmd : list string) : Result (list string) :=
  if is_xcode toolchain_entry then
    inr (append_if true ["-jobs"; Py.str jobs] cmd)
  else if is_make toolchain_entry && negb (is_nmake toolchain_entry) then
    inr (append_if true ["-j"; Py.str jobs] cmd)
  else if is_msvc toolchain_entry then
    match Py.int (vs_version toolchain_entry) with
    | Some v =>
        inr (append_if (12 <=? v)%Z ["/maxcpucount:" +++ Py.str jobs] cmd)
    | None => inl (ValueError (vs_version toolchain_entry))
    end
  else inr cmd.

Definition build_command (w : World) (a : Args) (toolchain_entry : Toolchain)
    (lay : Layout) : Result (list string) :=
  let cmd := ["cmake"; "--build"; lay_build_dir lay] in
  let cmd :=
    match args_config a with
    | Some config => append_if (Py.truthy config) ["--config"; config] cmd
    | None => cmd
    end in
  let cmd := cmd ++ w_target_args w (lay_target lay) in
  let cmd := cmd ++ ["--"] in
  let cmd := append_if (args_iossim a)
               ["-arch"; "i386"; "-sdk"; "iphonesimulator"] cmd in
  match args_jobs a with
  | Some jobs =>
      if Py.given_int (Some jobs) then append_jobs jobs toolchain_entry cmd
      else inr cmd
  | None => inr cmd
  end.

(** ** The script as a whole *)

(** A computation reads the events performed so far and returns the events
    it performed itself, with its result. *)
Definition Script (A : Type) : Type := list Event -> list Event * Result A.

Definition ret {A : Type} (x : A) : Script A := fun _ => ([], inr x).

Definition bind {A B : Type} (m : Script A) (k : A -> Script B) : Script B :=
  fun h =>
    match m h with
    | (ev, inl e) => (ev, inl e)
    | (ev, inr x) => let (ev', r) := k x (h ++ ev) in (ev ++ ev', r)
    end.

Notation "x <- m ;; k" := (bind m (fun x => k))
  (at level 61, m at next level, right associativity).
Notation "m ;; k" := (bind m (fun _ => k))
  (at level 61, right associativity).

(** A call that acts outside: it is recorded, and ends the script when it
    raises. *)
Definition emit (w : World) (e : Event) : Script unit :=
  fun h =>
    ([e], match w_raises w h e with
          | Some x => inl x
          | None => inr tt
          end).

(** A step that performs nothing outside and may end the script. *)
Definition check {A : Type} (f : FS -> Result A) (w : World) : Script A :=
  fun h => ([], f (w_fs w h)).

Definition when (c : bool) (m : Script unit) : Script unit :=
  if c then m else ret tt.

(** What a completed run has computed. *)
Record Plan : Type := {
  plan_layout : Layout;
  plan_generate_command : list string;
  plan_build_command : list string
}.

(** Lines 291-312. *)
Definition start (w : World) (a : Args) (polly_toolchain : string)
    (lay : Layout) : Script string :=
  when (args_clear a)
    (emit w (Rmtree (lay_build_dir lay)) ;;
     emit w (Rmtree (lay_install_dir lay)) ;;
     emit w (Rmtree (lay_framework_dir lay))) ;;
  let polly_temp_dir := Py.join (lay_build_dir lay) ["_3rdParty"; "polly"] in
  present <- check (fun fs => inr (fs_exists fs polly_temp_dir)) w ;;
  when (negb present) (emit w (Makedirs polly_temp_dir)) ;;
  emit w (Logging (lay_cdir lay) (verbosity a) (args_discard a) (args_tail a)
          polly_toolchain) ;;
  emit w (Call [if (w_os_name w =? "nt")%string then "where" else "which";
                "cmake"]) ;;
  emit w (Call ["cmake"; "--version"]) ;;
  ret polly_temp_dir.

(** Lines 397-439. *)
Definition finish (w : World) (a : Args) (toolchain_entry : Toolchain)
    (lay : Layout) (build_command : list string) : Script unit :=
  when (negb (args_nobuild a))
    (emit w (Call build_command) ;;
     when (Py.given (args_archive a))
       (emit w (CreateArchive (lay_install_dir lay) (lay_archives_dir lay)
                (match args_archive a with Some n => n | None => "" end)
                (name toolchain_entry) (args_config a))) ;;
     when (args_framework a || args_framework_device a)
       (emit w (CreateFramework (lay_install_dir lay) (lay_framework_dir lay)
                (ios_version toolchain_entry) (w_polly_root w)
                (args_framework_device a) (args_plist a) (args_identity a)))) ;;
  when (negb (args_nobuild a))
    (emit w (Chdir (lay_build_dir lay)) ;;
     when (args_test a || Py.given (args_test_xml a))
       (emit w (Test (lay_build_dir lay) (args_config a) (args_test_xml a)
                (is_full (verbosity a)) (args_timeout a))) ;;
     when (Py.given (args_pack a))
       (emit w (Pack (args_config a)
                (match args_pack a with Some g => g | None => "" end)))) ;;
  when (args_open a) (emit w (OpenProject toolchain_entry (lay_build_dir lay))).

(** The script from line 203 to its end, for parsed arguments [a] and the
    toolchain [detail.toolchain_table.get_by_name] resolved.  The tuned
    environment is assigned to [os.environ], which the file does not read
    again. *)
Definition run (w : World) (a : Args) (polly_toolchain : string)
    (toolchain_entry : Toolchain) : Script Plan :=
  check (fun _ => tune_environment (w_helpers w) (w_polly_root w) toolchain_entry
                    (w_environ w)) w ;;
  lay <- check (fun fs => prepare fs w a polly_toolchain toolchain_entry) w ;;
  polly_temp_dir <- start w a polly_toolchain lay ;;
  let generate := generate_command a toolchain_entry lay in
  emit w (Generate generate (lay_build_dir lay) polly_temp_dir (args_reconfig a)) ;;
  build <- check (fun _ => build_command w a toolchain_entry lay) w ;;
  finish w a toolchain_entry lay build ;;
  ret {| plan_layout := lay;
         plan_generate_command := generate;
         plan_build_command := build |}.

(** ** Sample invocations *)

Module Sample.

(** Arguments with the given options and everything else at its default. *)
Definition args (config output : option string) (install strip : bool)
    (fwd : option (list string)) (jobs : option Z) (target : option string)
    : Args :=
  {| args_toolchain := None; args_config := config; args_home := None;
     args_output := output; args_test := false; args_test_xml := None;
     args_pack := None; args_archive := None; args_nobuild := false;
     args_open := false; args_verbosity := normal; args_verbose := false;
     args_install := install; args_ios_multiarch := false;
     args_ios_combined := false; args_framework := false;
     args_framework_device := false; args_strip := strip;
     args_identity := None; args_plist := None; args_clear := false;
     args_reconfig := false; args_fwd := fwd; args_iossim := false;
     args_jobs := jobs; args_target := target; args_discard := None;
     args_tail := None; args_timeout := None |}.

Definition toolchain (name generator : string)
    (multiconfig is_make is_xcode is_msvc : bool) (vs_version : string)
    : Toolchain :=
  {| name := name; generator := generator; multiconfig := multiconfig;
     is_make := is_make; is_nmake := false; is_ninja := false;
     is_xcode := is_xcode; is_msvc := is_msvc; vs_version := vs_version;
     arch := ""; ios_version := ""; osx_version := ""; xp := false;
     nocodesign := false |}.

Definition ninja := toolchain "ninja" "Ninja" false false false false "".
Definition xcode := toolchain "xcode" "Xcode" true false true false "".
Definition gcc := toolchain "gcc" "Unix Makefiles" false true false false "".
Definition vs12 :=
  toolchain "vs-12-2013" "Visual Studio 12 2013" true false false true "12".

(** A Linux machine on which every path but those under [/nonexistent]
    exists and is a writable directory. *)
Definition fs : FS :=
  let there (p : string) := negb (Py.startswith "/nonexistent" p) in
  {| fs_exists := there; fs_isdir := there; fs_access_W := there |}.

(** Its environment, and helpers that accept what they are given and find
    no developer root. *)
Definition environ : Environ :=
  fun k => if (k =? "PATH")%string then Some "/usr/bin" else None.

Definition helpers : Helpers :=
  {| verify_mingw_path := fun _ => inr tt;
     verify_msys_path := fun _ => inr tt;
     get_nmake_environment := fun _ _ => inr environ;
     ios_dev_root := fun _ => inr None;
     osx_dev_root := fun _ => inr None |}.

(** On this machine every outside call returns. *)
Definition world : World :=
  {| w_polly_root := "/opt/polly"; w_getcwd := "/tmp/proj";
     w_platform_system := "Linux"; w_os_name := "posix";
     w_environ := environ; w_helpers := helpers;
     w_fs := fun _ => fs; w_raises := fun _ _ => None;
     w_target_args := flat_map (fun n => ["--target"; n]) |}.

(** The same machine with polly installed where nothing exists. *)
Definition world_without_toolchains : World :=
  {| w_polly_root := "/nonexistent"; w_getcwd := "/tmp/proj";
     w_platform_system := "Linux"; w_os_name := "posix";
     w_environ := environ; w_helpers := helpers;
     w_fs := fun _ => fs; w_raises := fun _ _ => None;
     w_target_args := flat_map (fun n => ["--target"; n]) |}.

(** The layout the script derives for an invocation on this machine. *)
Definition layout (a : Args) (polly_toolchain : string)
    (toolchain_entry : Toolchain) : Layout :=
  match prepare fs world a polly_toolchain toolchain_entry with
  | inr lay => lay
  | inl _ =>
      {| lay_build_tag := ""; lay_toolchain_option := ""; lay_cdir := "";
         lay_build_dir := ""; lay_build_dir_option := "";
         lay_install_dir := ""; lay_local_install := false;
         lay_target := []; lay_install_dir_option := "";
         lay_framework_dir := ""; lay_archives_dir := "" |}
  end.

End Sample.

(** ** Vocabulary of the statements *)

(** The arguments [a] with [--fwd] taken away. *)
Definition without_fwd (a : Args) : Args :=
  {| args_toolchain := args_toolchain a; args_config := args_config a;
     args_home := args_home a; args_output := args_output a;
     args_test := args_test a; args_test_xml := args_test_xml a;
     args_pack := args_pack a; args_archive := args_archive a;
     args_nobuild := args_nobuild a; args_open := args_open a;
     args_verbosity := args_verbosity a; args_verbose := args_verbose a;
     args_install := args_install a;
     args_ios_multiarch := args_ios_multiarch a;
     args_ios_combined := args_ios_combined a;
     args_framework := args_framework a;
     args_framework_device := args_framework_device a;
     args_strip := args_strip a; args_identity := args_identity a;
     args_plist := args_plist a; args_clear := args_clear a;
     args_reconfig := args_reconfig a; args_fwd := None;
     args_iossim := args_iossim a; args_jobs := args_jobs a;
     args_target := args_target a; args_discard := args_discard a;
     args_tail := args_tail a; args_timeout := args_timeout a |}.

(** The values given to [--fwd], none when the option is absent. *)
Definition forwarded (a : Args) : list string :=
  match args_fwd a with
  | Some fwd => fwd
  | None => []
  end.

(** The value of [--target] when it is given and not empty. *)
Definition requested_target (a : Args) : list string :=
  match args_target a with
  | Some requested => if Py.truthy requested then [requested] else []
  | None => []
  end.

Definition opt_tokens (c : bool) (tokens : list string) : list string :=
  if c then tokens else [].

(** The tokens of the configure command that do not come from [--fwd],
    grouped by the statement of the script that appends them. *)
Definition generate_groups (a : Args) (toolchain_entry : Toolchain)
    (lay : Layout) : list (list string) :=
  [ ["cmake"; "-H" +++ home a; lay_build_dir_option lay];
    match args_config a with
    | Some config =>
        opt_tokens (Py.truthy config && negb (multiconfig toolchain_entry))
          ["-DCMAKE_BUILD_TYPE=" +++ config]
    | None => []
    end;
    opt_tokens (Py.truthy (generator toolchain_entry))
      ["-G" +++ generator toolchain_entry];
    opt_tokens (xp toolchain_entry)
      ["-T" +++ "v" +++ vs_version toolchain_entry +++ "0_xp"];
    opt_tokens (Py.truthy (lay_toolchain_option lay)) [lay_toolchain_option lay];
    opt_tokens (is_full (verbosity a))
      ["-DCMAKE_VERBOSE_MAKEFILE=ON"; "-DPOLLY_STATUS_DEBUG=ON";
       "-DHUNTER_STATUS_DEBUG=ON"];
    opt_tokens (args_ios_multiarch a)
      ["-DCMAKE_XCODE_ATTRIBUTE_ONLY_ACTIVE_ARCH=NO"];
    opt_tokens (args_ios_combined a) ["-DCMAKE_IOS_INSTALL_COMBINED=YES"];
    opt_tokens (lay_local_install lay) [lay_install_dir_option lay];
    match args_pack a with
    | Some cpack_generator =>
        opt_tokens (Py.truthy cpack_generator)
          ["-DCPACK_GENERATOR=" +++ cpack_generator]
    | None => []
    end ].

(** A token that defines [CMAKE_BUILD_TYPE]. *)
Definition is_build_type_flag (token : string) : bool :=
  Py.startswith "-DCMAKE_BUILD_TYPE=" token.

(** A token that defines [CMAKE_INSTALL_PREFIX]. *)
Definition is_install_prefix_flag (token : string) : bool :=
  Py.startswith "-DCMAKE_INSTALL_PREFIX=" token.

(** A path component that [os.path.join] appends rather than restarts from. *)
Definition relative (component : string) : bool :=
  negb (Py.startswith "/" component).

(** The build command as the specification lays it out. *)
Module Spec.

Definition config_tokens (a : Args) : list string :=
  match args_config a with
  | Some config => opt_tokens (Py.truthy config) ["--config"; config]
  | None => []
  end.

Definition iossim_tokens (a : Args) : list string :=
  opt_tokens (args_iossim a) ["-arch"; "i386"; "-sdk"; "iphonesimulator"].

(** Everything up to the parallelism flags. *)
Definition build_head (w : World) (a : Args) (lay : Layout) : list string :=
  ["cmake"; "--build"; lay_build_dir lay]
  ++ config_tokens a
  ++ w_target_args w (lay_target lay)
  ++ ["--"]
  ++ iossim_tokens a.

(** A Make-style driver: Makefiles that are not NMake's. *)
Definition make_style (toolchain_entry : Toolchain) : bool :=
  is_make toolchain_entry && negb (is_nmake toolchain_entry).

(** The oldest Visual Studio whose MSBuild gets [/maxcpucount]. *)
Definition min_vs_version : Z := 12.

End Spec.

(** The configure command of a run: the argument vector handed to
    [detail.generate_command.run]. *)
Definition configures (w : World) (a : Args) (polly_toolchain : string)
    (toolchain_entry : Toolchain) (argv : list string) : Prop :=
  exists build_dir temp_dir reconfig,
    In (Generate argv build_dir temp_dir reconfig)
       (fst (run w a polly_toolchain toolchain_entry [])).

(** The run ends in [sys.exit(msg)] before anything was done outside. *)
Definition exits_at_once (w : World) (a : Args) (polly_toolchain : string)
    (toolchain_entry : Toolchain) (msg : string) : Prop :=
  run w a polly_toolchain toolchain_entry [] = ([], inl (SysExit msg)).

(** [os.environ] when the tuning of lines 209-241 is over, or what one of
    its helpers raised. *)
Definition tuned (w : World) (toolchain_entry : Toolchain) : Result Environ :=
  tune_environment (w_helpers w) (w_polly_root w) toolchain_entry (w_environ w).

(** The run ends in [x] before anything was done outside. *)
Definition ends_at_once (w : World) (a : Args) (polly_toolchain : string)
    (toolchain_entry : Toolchain) (x : Raised) : Prop :=
  run w a polly_toolchain toolchain_entry [] = ([], inl x).

(** The checks on files alone (lines 243-255), in their order. *)
Definition file_checks (fs : FS) (w : World) (a : Args)
    (polly_toolchain : string) : Result unit :=
  _ <-- toolchain_option fs w polly_toolchain;
  _ <-- cdir fs w a;
  inr tt.

(** The error a run ends in when a later check would end it in [x]: that of
    the tuning if a helper raises, else that of the first failing check on
    files, else [x]. *)
Definition first_error (w : World) (a : Args) (polly_toolchain : string)
    (toolchain_entry : Toolchain) (x : Raised) : Raised :=
  match tuned w toolchain_entry with
  | inl y => y
  | inr _ =>
      match file_checks (w_fs w []) w a polly_toolchain with
      | inl y => y
      | inr _ => x
      end
  end.

(** The checks on files pass: the toolchain file is there and the output
    directory, if one is named, is a writable directory. *)
Definition files_ok (fs : FS) (w : World) (a : Args) (polly_toolchain : string)
    : Prop :=
  fs_exists fs (toolchain_path (w_polly_root w) polly_toolchain) = true
  /\ forall output, args_output a = Some output -> Py.truthy output = true ->
       fs_isdir fs output = true /\ fs_access_W fs output = true.

(** The tokens [argv] hold a definition of [CMAKE_BUILD_TYPE] exactly when
    the toolchain is single-config and a configuration is requested. *)
Definition build_type_iff (a : Args) (toolchain_entry : Toolchain)
    (argv : list string) : Prop :=
  (exists token, In token argv /\ is_build_type_flag token = true)
  <-> (multiconfig toolchain_entry = false /\ Py.given (args_config a) = true).

(** The messages of the option checks. *)
Definition both_install_and_strip : string :=
  "Both --install and --strip specified".

Definition strip_needs_make : string :=
  "CMake install/strip targets are only supported for the Unix Makefile generator".

(** ** Vocabulary of the actions of a run *)

Definition events_if (c : bool) (events : list Event) : list Event :=
  if c then events else [].

(** The scratch directory of polly below the build directory. *)
Definition temp_dir (lay : Layout) : string :=
  Py.join (lay_build_dir lay) ["_3rdParty"; "polly"].

Definition clear_events (a : Args) (lay : Layout) : list Event :=
  events_if (args_clear a)
    [Rmtree (lay_build_dir lay); Rmtree (lay_install_dir lay);
     Rmtree (lay_framework_dir lay)].

(** What is done before configuring. *)
Definition start_events (w : World) (a : Args) (polly_toolchain : string)
    (lay : Layout) : list Event :=
  clear_events a lay
  ++ events_if (negb (fs_exists (w_fs w (clear_events a lay)) (temp_dir lay)))
       [Makedirs (temp_dir lay)]
  ++ [Logging (lay_cdir lay) (verbosity a) (args_discard a) (args_tail a)
        polly_toolchain;
      Call [if (w_os_name w =? "nt")%string then "where" else "which"; "cmake"];
      Call ["cmake"; "--version"]].

Definition configure_event (a : Args) (toolchain_entry : Toolchain)
    (lay : Layout) : Event :=
  Generate (generate_command a toolchain_entry lay) (lay_build_dir lay)
    (temp_dir lay) (args_reconfig a).

(** What is done after configuring, for the build command [build]. *)
Definition finish_events (w : World) (a : Args) (toolchain_entry : Toolchain)
    (lay : Layout) (build : list string) : list Event :=
  events_if (negb (args_nobuild a))
    ([Call build]
     ++ events_if (Py.given (args_archive a))
          [CreateArchive (lay_install_dir lay) (lay_archives_dir lay)
             (match args_archive a with Some n => n | None => "" end)
             (name toolchain_entry) (args_config a)]
     ++ events_if (args_framework a || args_framework_device a)
          [CreateFramework (lay_install_dir lay) (lay_framework_dir lay)
             (ios_version toolchain_entry) (w_polly_root w)
             (args_framework_device a) (args_plist a) (args_identity a)]
     ++ [Chdir (lay_build_dir lay)]
     ++ events_if (args_test a || Py.given (args_test_xml a))
          [Test (lay_build_dir lay) (args_config a) (args_test_xml a)
             (is_full (verbosity a)) (args_timeout a)]
     ++ events_if (Py.given (args_pack a))
          [Pack (args_config a)
             (match args_pack a with Some g => g | None => "" end)])
  ++ events_if (args_open a)
       [OpenProject toolchain_entry (lay_build_dir lay)].

(** The calls a run makes when none of them raises. *)
Definition planned_events (w : World) (a : Args) (polly_toolchain : string)
    (toolchain_entry : Toolchain) (lay : Layout) : list Event :=
  start_events w a polly_toolchain lay
  ++ configure_event a toolchain_entry lay
  :: match build_command w a toolchain_entry lay with
     | inr build => finish_events w a toolchain_entry lay build
     | inl _ => []
     end.

(** The calls [events] made in a row after the calls [h]: what was called,
    the call that raised included, and the outcome. *)
Fixpoint perform (w : World) (h events : list Event)
    : list Event * Result unit :=
  match events with
  | [] => ([], inr tt)
  | ev :: rest =>
      match w_raises w h ev with
      | Some x => ([ev], inl x)
      | None => let (tr, r) := perform w (h ++ [ev]) rest in (ev :: tr, r)
      end
  end.

(** Each of the calls [events], made in a row from the start of the run,
    returns. *)
Definition all_return (w : World) (events : list Event) : Prop :=
  snd (perform w [] events) = inr tt.

(** The computation [m] makes the calls [events] in a row, stops at the
    first that raises, and returns [v] otherwise. *)
Definition performs {A : Type} (w : World) (m : Script A)
    (events : list Event) (v : A) : Prop :=
  forall h,
    m h = (fst (perform w h events),
           match snd (perform w h events) with
           | inl x => inl x
           | inr _ => inr v
           end).

(** Every check of lines 243-287 passes. *)
Definition checks_pass (fs : FS) (w : World) (a : Args)
    (polly_toolchain : string) (toolchain_entry : Toolchain) : Prop :=
  files_ok fs w a polly_toolchain
  /\ args_install a && args_strip a = false
  /\ args_strip a && negb (is_make toolchain_entry) = false
  /\ (args_framework a || args_framework_device a)
     && negb (w_platform_system w =? "Darwin")%string = false.

(** The definitions appended under full verbosity. *)
Definition verbose_definitions : list string :=
  ["-DCMAKE_VERBOSE_MAKEFILE=ON"; "-DPOLLY_STATUS_DEBUG=ON";
   "-DHUNTER_STATUS_DEBUG=ON"].

(** Machines for the examples. *)
Module Machine.

(** A Mac with polly under [/opt/polly]. *)
Definition darwin : World :=
  {| w_polly_root := "/opt/polly"; w_getcwd := "/tmp/proj";
     w_platform_system := "Darwin"; w_os_name := "posix";
     w_environ := Sample.environ; w_helpers := Sample.helpers;
     w_fs := fun _ => Sample.fs; w_raises := fun _ _ => None;
     w_target_args := flat_map (fun n => ["--target"; n]) |}.

(** A path is gone once it, or a directory above it, has been removed. *)
Definition removed (h : list Event) (path : string) : bool :=
  existsb (fun ev => match ev with
                     | Rmtree dir =>
                         (path =? dir)%string
                         || Py.startswith (dir +++ "/") path
                     | _ => false
                     end) h.

(** A Linux machine whose filesystem forgets what [rmtree] removed. *)
Definition linux_rmtree : World :=
  {| w_polly_root := "/opt/polly"; w_getcwd := "/tmp/proj";
     w_platform_system := "Linux"; w_os_name := "posix";
     w_environ := Sample.environ; w_helpers := Sample.helpers;
     w_fs := fun h =>
       {| fs_exists := fun p => negb (removed h p);
          fs_isdir := fun p => negb (removed h p);
          fs_access_W := fun p => negb (removed h p) |};
     w_raises := fun _ _ => None;
     w_target_args := flat_map (fun n => ["--target"; n]) |}.

(** The Linux machine of the samples without [cmake]: [which cmake] finds
    nothing and [detail.call.call] ends the script. *)
Definition without_cmake : World :=
  {| w_polly_root := "/opt/polly"; w_getcwd := "/tmp/proj";
     w_platform_system := "Linux"; w_os_name := "posix";
     w_environ := Sample.environ; w_helpers := Sample.helpers;
     w_fs := fun _ => Sample.fs;
     w_raises := fun _ ev =>
       match ev with
       | Call ("which" :: _) => Some (SysExit "which cmake: exit status 1")
       | _ => None
       end;
     w_target_args := flat_map (fun n => ["--target"; n]) |}.

(** The same machine with a build directory that cannot be removed. *)
Definition locked_build_dir : World :=
  {| w_polly_root := "/opt/polly"; w_getcwd := "/tmp/proj";
     w_platform_system := "Linux"; w_os_name := "posix";
     w_environ := Sample.environ; w_helpers := Sample.helpers;
     w_fs := fun _ => Sample.fs;
     w_raises := fun _ ev =>
       match ev with
       | Rmtree path =>
           if Py.startswith "/tmp/proj/_builds" path
           then Some (Exception "OSError" "Permission denied") else None
       | _ => None
       end;
     w_target_args := flat_map (fun n => ["--target"; n]) |}.

(** A machine without [MINGW_PATH], whose verifier rejects that, and
    with polly installed where nothing exists. *)
Definition mingw_unset : World :=
  {| w_polly_root := "/nonexistent"; w_getcwd := "/tmp/proj";
     w_platform_system := "Windows"; w_os_name := "nt";
     w_environ := Sample.environ;
     w_helpers :=
       {| verify_mingw_path := fun path =>
            match path with
            | Some _ => inr tt
            | None => inl (SysExit "MINGW_PATH is not set")
            end;
          verify_msys_path := fun _ => inr tt;
          get_nmake_environment := fun _ _ => inr Sample.environ;
          ios_dev_root := fun _ => inr None;
          osx_dev_root := fun _ => inr None |};
     w_fs := fun _ => Sample.fs; w_raises := fun _ _ => None;
     w_target_args := flat_map (fun n => ["--target"; n]) |}.

(** Arguments of a full pipeline: build, archive, test, pack, clear. *)
Definition pipeline (nobuild clear verbose : bool) : Args :=
  {| args_toolchain := None; args_config := Some "Release"; args_home := None;
     args_output := None; args_test := true; args_test_xml := None;
     args_pack := Some "TGZ"; args_archive := Some "pkg";
     args_nobuild := nobuild; args_open := false; args_verbosity := normal;
     args_verbose := verbose; args_install := false;
     args_ios_multiarch := false; args_ios_combined := false;
     args_framework := false; args_framework_device := false;
     args_strip := false; args_identity := None; args_plist := None;
     args_clear := clear; args_reconfig := false; args_fwd := None;
     args_iossim := false; args_jobs := None; args_target := None;
     args_discard := None; args_tail := None; args_timeout := None |}.

(** Arguments with [--home], [--config Release], [--verbose], [--install],
    [--pack TGZ] and two forwarded definitions. *)
Definition homed (home : string) : Args :=
  {| args_toolchain := None; args_config := Some "Release";
     args_home := Some home; args_output := None; args_test := false;
     args_test_xml := None; args_pack := Some "TGZ"; args_archive := None;
     args_nobuild := false; args_open := false; args_verbosity := normal;
     args_verbose := true; args_install := true;
     args_ios_multiarch := false; args_ios_combined := false;
     args_framework := false; args_framework_device := false;
     args_strip := false; args_identity := None; args_plist := None;
     args_clear := false; args_reconfig := false;
     args_fwd := Some ["A=1"; "B=2"]; args_iossim := false;
     args_jobs := None; args_target := None; args_discard := None;
     args_tail := None; args_timeout := None |}.

(** Arguments that ask for a framework. *)
Definition framework : Args :=
  {| args_toolchain := None; args_config := None; args_home := None;
     args_output := None; args_test := false; args_test_xml := None;
     args_pack := None; args_archive := None; args_nobuild := false;
     args_open := false; args_verbosity := normal; args_verbose := false;
     args_install := false; args_ios_multiarch := false;
     args_ios_combined := false; args_framework := true;
     args_framework_device := false; args_strip := false;
     args_identity := None; args_plist := None; args_clear := false;
     args_reconfig := false; args_fwd := None; args_iossim := false;
     args_jobs := None; args_target := None; args_discard := None;
     args_tail := None; args_timeout := None |}.

(** Helpers that accept everything and find both developer roots. *)
Definition helpers : Helpers :=
  {| verify_mingw_path := fun _ => inr tt;
     verify_msys_path := fun _ => inr tt;
     get_nmake_environment := fun arch vs =>
       inr (fun k => if (k =? "PATH")%string then Some ("C:\VS" +++ vs) else None);
     ios_dev_root := fun v => inr (Some ("/Xcode-ios-" +++ v));
     osx_dev_root := fun v => inr (Some ("/Xcode-osx-" +++ v)) |}.

(** An inherited environment with [PATH] and [MINGW_PATH]. *)
Definition environ : Environ :=
  fun k =>
    if (k =? "PATH")%string then Some "C:\Windows"
    else if (k =? "MINGW_PATH")%string then Some "C:\MinGW"
    else if (k =? "HOME")%string then Some "/home/me"
    else None.

(** A toolchain entry with the traits that matter to the tuning. *)
Definition entry (name : string) (is_nmake nocodesign : bool)
    (ios_version osx_version : string) : Toolchain :=
  {| name := name; generator := ""; multiconfig := false; is_make := false;
     is_nmake := is_nmake; is_ninja := false; is_xcode := false;
     is_msvc := false; vs_version := "12"; arch := "x86";
     ios_version := ios_version; osx_version := osx_version; xp := false;
     nocodesign := nocodesign |}.

End Machine.

(** The two blocks that prefix [PATH], for the toolchains picked by
    [chosen]: [var] is the variable naming the directory. *)
Definition tune_path (chosen : bool) (var : string)
    (verify : option string -> Result unit) (environ : Environ)
    : Result Environ :=
  if chosen then
    _ <-- verify (environ var);
    inr (setenv "PATH"
           (format_opt (environ var) +++ ";" +++ format_opt (environ "PATH"))
           environ)
  else inr environ.

(** The two blocks that set [DEVELOPER_DIR], for an SDK [version] and the
    helper that looks up its root. *)
Definition tune_developer_dir (version : string)
    (lookup : string -> Result (option string)) (environ : Environ)
    : Result Environ :=
  if Py.truthy version then
    root <-- lookup version;
    match root with
    | Some dir =>
        inr (if Py.truthy dir then setenv "DEVELOPER_DIR" dir environ
             else environ)
    | None => inr environ
    end
  else inr environ.

(** The block that sets [XCODE_XCCONFIG_FILE]. *)
Definition tune_codesign (polly_root : string) (toolchain_entry : Toolchain)
    (environ : Environ) : Environ :=
  if nocodesign toolchain_entry then
    setenv "XCODE_XCCONFIG_FILE"
      (Py.join polly_root ["scripts"; "NoCodeSign.xcconfig"]) environ
  else environ.

(** * Properties *)

(** ** Strings and paths *)

Section Strings.

Lemma append_length (s t : string) :
  String.length (s +++ t) = String.length s + String.length t.
Proof. induction s as [|c s IH]; simpl; [reflexivity | now rewrite IH]. Qed.

(** What follows a common beginning is determined by the whole. *)
Lemma append_inv_head (s t u : string) : s +++ t = s +++ u -> t = u.
Proof.
  induction s as [|c s IH]; simpl; intros H; [exact H | ].
  injection H as H. now apply IH.
Qed.

(** What precedes a common ending is determined by the whole. *)
Lemma append_inv_tail (u s t : string) : s +++ u = t +++ u -> s = t.
Proof.
  revert t. induction s as [|c s IH]; intros [|d t] H; simpl in H.
  - reflexivity.
  - apply (f_equal String.length) in H. simpl in H.
    rewrite append_length in H. lia.
  - apply (f_equal String.length) in H. simpl in H.
    rewrite append_length in H. lia.
  - injection H as Hc H. subst d. f_equal. now apply IH.
Qed.

Lemma truthy_true (s : string) : Py.truthy s = true <-> s <> "".
Proof.
  unfold Py.truthy. destruct (String.eqb_spec s ""); simpl; split;
    congruence.
Qed.

Lemma truthy_append_r (s t : string) :
  Py.truthy t = true -> Py.truthy (s +++ t) = true.
Proof.
  intros H. apply truthy_true. apply truthy_true in H.
  destruct s; simpl; [exact H | discriminate].
Qed.

Lemma endswith_sep_append (s t : string) :
  Py.truthy t = true -> Py.endswith_sep (s +++ t) = Py.endswith_sep t.
Proof.
  intros H. induction s as [|c s IH]; simpl; [reflexivity | ].
  rewrite IH. destruct (s +++ t) eqn:E; [ | reflexivity].
  apply truthy_true in H. destruct s; simpl in E; [congruence | discriminate].
Qed.

Lemma startswith_sep_append (s t : string) :
  Py.truthy s = true ->
  Py.startswith "/" (s +++ t) = Py.startswith "/" s.
Proof.
  destruct s as [|c s]; [discriminate | ]. intros _.
  unfold Py.startswith. cbn [String.append String.prefix].
  destruct (Ascii.ascii_dec "/" c); [ | reflexivity].
  destruct (s +++ t); destruct s; reflexivity.
Qed.

(** Joining one component that is not absolute keeps the directory. *)
Lemma join2_relative (dir b : string) :
  relative b = true ->
  exists sep, Py.join2 dir b = dir +++ sep +++ b /\ (sep = "" \/ sep = "/").
Proof.
  unfold relative, Py.join2. intros H.
  destruct (Py.startswith "/" b); [discriminate | ].
  destruct (negb (Py.truthy dir) || Py.endswith_sep dir).
  - exists "". split; [reflexivity | now left].
  - exists "/". split; [reflexivity | now right].
Qed.

(** [os.path.join(root, sub, leaf)] for a subdirectory name that is a
    plain word and a relative leaf. *)
Lemma join_sub_leaf (root sub leaf : string) :
  relative sub = true -> Py.truthy sub = true ->
  Py.endswith_sep sub = false -> relative leaf = true ->
  Py.join root [sub; leaf] = Py.join root [sub] +++ "/" +++ leaf.
Proof.
  intros Hsub Hne Hend Hleaf. unfold Py.join. simpl.
  destruct (join2_relative root sub Hsub) as (sep & -> & Hsep).
  unfold Py.join2 at 1. unfold relative in Hleaf.
  destruct (Py.startswith "/" leaf); [discriminate | ].
  assert (Ht : Py.truthy (sep +++ sub) = true) by now apply truthy_append_r.
  rewrite (truthy_append_r root _ Ht).
  rewrite endswith_sep_append by exact Ht.
  rewrite endswith_sep_append by exact Hne.
  rewrite Hend. reflexivity.
Qed.

(** Below one subdirectory of one root, distinct leaves are distinct
    paths. *)
Lemma join_sub_leaf_inj (root sub leaf1 leaf2 : string) :
  relative sub = true -> Py.truthy sub = true ->
  Py.endswith_sep sub = false ->
  relative leaf1 = true -> relative leaf2 = true ->
  Py.join root [sub; leaf1] = Py.join root [sub; leaf2] -> leaf1 = leaf2.
Proof.
  intros Hsub Hne Hend H1 H2 H.
  rewrite !join_sub_leaf in H by assumption.
  apply append_inv_head in H. now injection H.
Qed.

Lemma append_assoc (s u v : string) : (s +++ u) +++ v = s +++ u +++ v.
Proof. induction s as [|c s IH]; cbn; [reflexivity | now rewrite IH]. Qed.

(** The separator [os.path.join] puts after [dir] depends on [dir] alone. *)
Lemma join2_sep (dir b : string) :
  relative b = true ->
  Py.join2 dir b
  = dir +++ (if negb (Py.truthy dir) || Py.endswith_sep dir then "" else "/")
    +++ b.
Proof.
  unfold relative, Py.join2. intros H.
  destruct (Py.startswith "/" b); [discriminate | ].
  now destruct (negb (Py.truthy dir) || Py.endswith_sep dir).
Qed.

End Strings.

(** ** Appending tokens *)

Section Tokens.

Lemma fold_left_snoc {A : Type} (f : A -> string) (l : list A)
    (cmd : list string) :
  fold_left (fun cmd x => cmd ++ [f x]) l cmd = cmd ++ map f l.
Proof.
  revert cmd. induction l as [|x l IH]; intros cmd; simpl.
  - now rewrite app_nil_r.
  - rewrite IH, <- app_assoc. reflexivity.
Qed.

Lemma append_if_app (c : bool) (tokens cmd : list string) :
  append_if c tokens cmd = cmd ++ opt_tokens c tokens.
Proof.
  unfold append_if, opt_tokens. destruct c.
  - rewrite (fold_left_snoc (fun t => t)), map_id. reflexivity.
  - now rewrite app_nil_r.
Qed.

(** The configure command, as its groups followed by the forwarded
    definitions. *)
Lemma generate_command_groups (a : Args) (e : Toolchain) (lay : Layout) :
  generate_command a e lay
  = concat (generate_groups a e lay) ++ map (String.append "-D") (forwarded a).
Proof.
  unfold generate_command, generate_groups, forwarded.
  assert (Hfwd : forall cmd,
    match args_fwd a with
    | Some fwd => fold_left (fun cmd x => cmd ++ ["-D" +++ x]) fwd cmd
    | None => cmd
    end = cmd ++ map (String.append "-D")
                   match args_fwd a with Some fwd => fwd | None => [] end).
  { intros cmd. destruct (args_fwd a) as [fwd|].
    - apply (fold_left_snoc (String.append "-D")).
    - simpl. now rewrite app_nil_r. }
  rewrite Hfwd. f_equal.
  assert (Hcfg : forall cmd,
    match args_config a with
    | Some config =>
        append_if (Py.truthy config && negb (multiconfig e))
          ["-DCMAKE_BUILD_TYPE=" +++ config] cmd
    | None => cmd
    end = cmd ++ match args_config a with
                 | Some config =>
                     opt_tokens (Py.truthy config && negb (multiconfig e))
                       ["-DCMAKE_BUILD_TYPE=" +++ config]
                 | None => []
                 end).
  { intros cmd. destruct (args_config a).
    - apply append_if_app.
    - now rewrite app_nil_r. }
  assert (Hpack : forall cmd,
    match args_pack a with
    | Some g => append_if (Py.truthy g) ["-DCPACK_GENERATOR=" +++ g] cmd
    | None => cmd
    end = cmd ++ match args_pack a with
                 | Some g => opt_tokens (Py.truthy g) ["-DCPACK_GENERATOR=" +++ g]
                 | None => []
                 end).
  { intros cmd. destruct (args_pack a).
    - apply append_if_app.
    - now rewrite app_nil_r. }
  rewrite Hpack, !append_if_app, Hcfg.
  cbn [concat]. rewrite app_nil_r, <- !app_assoc. reflexivity.
Qed.

End Tokens.

(** ** Validation *)

Section Validation.

Variables (fs : FS) (w : World) (a : Args) (t : string) (e : Toolchain).

Lemma exit_if_inr (c : bool) (msg : string) (u : unit) :
  exit_if c msg = inr u -> c = false.
Proof. unfold exit_if. destruct c; [discriminate | reflexivity]. Qed.

(** The layout of a run that passes validation, and the checks it passed. *)
Lemma prepare_inr (lay : Layout) :
  prepare fs w a t e = inr lay ->
  exists cd,
    fs_exists fs (toolchain_path (w_polly_root w) t) = true
    /\ cdir fs w a = inr cd
    /\ args_install a && args_strip a = false
    /\ args_strip a && negb (is_make e) = false
    /\ (args_framework a || args_framework_device a)
       && negb (w_platform_system w =? "Darwin")%string = false
    /\ lay = {| lay_build_tag := build_tag a e t;
                lay_toolchain_option :=
                  "-DCMAKE_TOOLCHAIN_FILE=" +++ toolchain_path (w_polly_root w) t;
                lay_cdir := cd;
                lay_build_dir := build_dir cd (build_tag a e t);
                lay_build_dir_option := "-B" +++ build_dir cd (build_tag a e t);
                lay_install_dir := install_dir cd t;
                lay_local_install := local_install a;
                lay_target := target a;
                lay_install_dir_option :=
                  "-DCMAKE_INSTALL_PREFIX=" +++ install_dir cd t;
                lay_framework_dir := framework_dir cd t;
                lay_archives_dir := archives_dir cd |}.
Proof.
  unfold prepare, toolchain_option, bindR.
  destruct (exit_if (negb (fs_exists fs _)) _) as [x|[]] eqn:E1; [discriminate | ].
  destruct (cdir fs w a) as [x|cd]; [discriminate | ].
  destruct (exit_if (args_install a && args_strip a) _) as [x|[]] eqn:E2;
    [discriminate | ].
  destruct (exit_if (args_strip a && _) _) as [x|[]] eqn:E3; [discriminate | ].
  destruct (exit_if ((args_framework a || _) && _) _) as [x|[]] eqn:E4;
    [discriminate | ].
  intros H. injection H as <-. exists cd.
  apply exit_if_inr in E1, E2, E3, E4.
  apply negb_false_iff in E1. repeat split; assumption.
Qed.

(** The first check: the toolchain file. *)
Lemma prepare_no_toolchain_file :
  fs_exists fs (toolchain_path (w_polly_root w) t) = false ->
  prepare fs w a t e
  = inl (SysExit ("Toolchain file not found: "
                  +++ toolchain_path (w_polly_root w) t)).
Proof.
  intros H. unfold prepare, toolchain_option. rewrite H. reflexivity.
Qed.

(** Validation either passes or ends in a [sys.exit]. *)
Lemma prepare_cases :
  (exists lay, prepare fs w a t e = inr lay)
  \/ (exists msg, prepare fs w a t e = inl (SysExit msg)).
Proof.
  unfold prepare, toolchain_option, cdir, bindR, exit_if.
  destruct (negb (fs_exists fs _)); [right; eexists; reflexivity | ].
  destruct (args_output a) as [o|].
  - destruct (Py.truthy o).
    + destruct (negb (fs_isdir fs o)); [right; eexists; reflexivity | ].
      destruct (negb (fs_access_W fs o)); [right; eexists; reflexivity | ].
      destruct (args_install a && args_strip a);
        [right; eexists; reflexivity | ].
      destruct (args_strip a && _); [right; eexists; reflexivity | ].
      destruct ((args_framework a || _) && _);
        [right | left]; eexists; reflexivity.
    + destruct (args_install a && args_strip a);
        [right; eexists; reflexivity | ].
      destruct (args_strip a && _); [right; eexists; reflexivity | ].
      destruct ((args_framework a || _) && _);
        [right | left]; eexists; reflexivity.
  - destruct (args_install a && args_strip a);
      [right; eexists; reflexivity | ].
    destruct (args_strip a && _); [right; eexists; reflexivity | ].
    destruct ((args_framework a || _) && _);
      [right | left]; eexists; reflexivity.
Qed.

Lemma files_ok_cdir : files_ok fs w a t -> exists cd, cdir fs w a = inr cd.
Proof.
  intros [_ H]. unfold cdir.
  destruct (args_output a) as [o|]; [ | eexists; reflexivity].
  destruct (Py.truthy o) eqn:Ho; [ | eexists; reflexivity].
  destruct (H o eq_refl Ho) as [-> ->]. eexists; reflexivity.
Qed.

End Validation.

(** ** The run *)

(** Splits membership in a list of actions into one case per action. *)
Ltac each_event H :=
  unfold start_events, finish_events, clear_events, configure_event,
    events_if in H;
  repeat match type of H with
         | In _ (_ ++ _) => apply in_app_or in H; destruct H as [H|H]
         | In _ (if ?c then _ else _) => destruct c eqn:?
         | In _ (_ :: _) => destruct H as [H|H]
         | In _ [] => destruct H
         end;
  try discriminate H.

Section Run.

Variables (w : World) (a : Args) (t : string) (e : Toolchain).

(** *** Calls made in a row *)

Lemma perform_cons (h : list Event) (ev : Event) (l : list Event) :
  perform w h (ev :: l)
  = match w_raises w h ev with
    | Some x => ([ev], inl x)
    | None => (ev :: fst (perform w (h ++ [ev]) l),
               snd (perform w (h ++ [ev]) l))
    end.
Proof.
  cbn [perform]. destruct (w_raises w h ev); [reflexivity | ].
  now destruct (perform w (h ++ [ev]) l).
Qed.

Lemma perform_app (h l1 l2 : list Event) :
  perform w h (l1 ++ l2)
  = match snd (perform w h l1) with
    | inl x => (fst (perform w h l1), inl x)
    | inr _ =>
        (l1 ++ fst (perform w (h ++ l1) l2), snd (perform w (h ++ l1) l2))
    end.
Proof.
  revert h. induction l1 as [|ev l1 IH]; intros h.
  - cbn [perform app snd]. rewrite app_nil_r. now destruct (perform w h l2).
  - cbn [app]. rewrite !perform_cons.
    destruct (w_raises w h ev) as [x|]; [reflexivity | ]. cbn [fst snd].
    rewrite IH. destruct (snd (perform w (h ++ [ev]) l1)); cbn [fst snd].
    + reflexivity.
    + now rewrite <- app_assoc.
Qed.

(** When every call returns, every call was made. *)
Lemma perform_inr (h l : list Event) (u : unit) :
  snd (perform w h l) = inr u -> fst (perform w h l) = l.
Proof.
  revert h. induction l as [|ev l IH]; intros h; [reflexivity | ].
  rewrite perform_cons. destruct (w_raises w h ev); [discriminate | ].
  cbn [fst snd]. intros H. now rewrite (IH _ H).
Qed.

(** The calls made are the first of the calls to make. *)
Lemma perform_prefix (h l : list Event) :
  exists rest, l = fst (perform w h l) ++ rest.
Proof.
  revert h. induction l as [|ev l IH]; intros h; [now exists [] | ].
  rewrite perform_cons. destruct (w_raises w h ev).
  - now exists l.
  - destruct (IH (h ++ [ev])) as (rest & Hr). exists rest. cbn [fst app].
    now rewrite <- Hr.
Qed.

(** The call that raised is the last one made. *)
Lemma perform_inl (h l : list Event) (x : Raised) :
  snd (perform w h l) = inl x ->
  exists pre ev rest,
    l = pre ++ ev :: rest
    /\ fst (perform w h l) = pre ++ [ev]
    /\ snd (perform w h pre) = inr tt
    /\ w_raises w (h ++ pre) ev = Some x.
Proof.
  revert h. induction l as [|ev l IH]; intros h; [discriminate | ].
  rewrite perform_cons. destruct (w_raises w h ev) as [y|] eqn:E.
  - intros H. injection H as ->. exists [], ev, l.
    rewrite app_nil_r. auto.
  - cbn [fst snd]. intros H.
    destruct (IH _ H) as (pre & ev' & rest & -> & Hf & Hs & Hr).
    exists (ev :: pre), ev', rest. rewrite perform_cons, E, Hf, Hs.
    rewrite <- app_assoc in Hr. auto.
Qed.

Lemma performs_eq {A : Type} (m : Script A) (l l' : list Event) (v : A) :
  performs w m l v -> l = l' -> performs w m l' v.
Proof. now intros H <-. Qed.

Lemma performs_ret {A : Type} (v : A) : performs w (ret v) [] v.
Proof. intros h. reflexivity. Qed.

Lemma performs_emit (ev : Event) : performs w (emit w ev) [ev] tt.
Proof.
  intros h. unfold emit. rewrite perform_cons.
  now destruct (w_raises w h ev).
Qed.

Lemma performs_bind {A B : Type} (m : Script A) (k : A -> Script B)
    (l1 l2 : list Event) (v1 : A) (v2 : B) :
  performs w m l1 v1 -> performs w (k v1) l2 v2 ->
  performs w (bind m k) (l1 ++ l2) v2.
Proof.
  intros Hm Hk h. unfold bind. rewrite Hm, perform_app.
  destruct (snd (perform w h l1)) as [x|u] eqn:E; [reflexivity | ].
  rewrite (perform_inr _ _ _ E), Hk. reflexivity.
Qed.

Lemma bind_performs {A B : Type} (m : Script A) (k : A -> Script B)
    (l : list Event) (v : A) (h : list Event) :
  performs w m l v ->
  bind m k h
  = match snd (perform w h l) with
    | inl x => (fst (perform w h l), inl x)
    | inr _ => (l ++ fst (k v (h ++ l)), snd (k v (h ++ l)))
    end.
Proof.
  intros Hm. unfold bind. rewrite Hm.
  destruct (snd (perform w h l)) as [x|u] eqn:E; [reflexivity | ].
  rewrite (perform_inr _ _ _ E). now destruct (k v (h ++ l)).
Qed.

Lemma bind_check {A B : Type} (f : FS -> Result A) (k : A -> Script B)
    (h : list Event) :
  bind (check f w) k h
  = match f (w_fs w h) with
    | inl x => ([], inl x)
    | inr v => k v h
    end.
Proof.
  unfold bind, check. destruct (f (w_fs w h)) as [x|v]; [reflexivity | ].
  rewrite app_nil_r. now destruct (k v h).
Qed.

Lemma performs_when (c : bool) (m : Script unit) (l : list Event) :
  performs w m l tt -> performs w (when c m) (events_if c l) tt.
Proof.
  intros H. destruct c; [exact H | ]. intros h. reflexivity.
Qed.

Ltac performs_steps :=
  repeat first
    [ apply performs_emit
    | apply performs_ret
    | apply performs_when
    | eapply performs_bind; cbv beta ].

(** *** The stages of the script *)

Lemma finish_performs (lay : Layout) (b : list string) :
  performs w (finish w a e lay b) (finish_events w a e lay b) tt.
Proof.
  eapply performs_eq; [unfold finish; performs_steps | ].
  unfold finish_events. destruct (negb (args_nobuild a)); cbn [events_if app];
    repeat first [rewrite <- app_assoc | progress cbn [app]]; reflexivity.
Qed.

Lemma start_perform (lay : Layout) :
  start w a t lay []
  = (fst (perform w [] (start_events w a t lay)),
     match snd (perform w [] (start_events w a t lay)) with
     | inl x => inl x
     | inr _ => inr (temp_dir lay)
     end).
Proof.
  unfold start, start_events.
  assert (Hc : performs w
    (when (args_clear a)
       (emit w (Rmtree (lay_build_dir lay)) ;;
        emit w (Rmtree (lay_install_dir lay)) ;;
        emit w (Rmtree (lay_framework_dir lay))))
    (clear_events a lay) tt).
  { apply performs_when. eapply performs_eq; [performs_steps | reflexivity]. }
  rewrite (bind_performs _ _ _ _ _ Hc), perform_app. cbn [app].
  destruct (snd (perform w [] (clear_events a lay))) as [x|u] eqn:E;
    [reflexivity | ].
  rewrite bind_check. fold (temp_dir lay).
  set (present := fs_exists (w_fs w (clear_events a lay)) (temp_dir lay)).
  assert (Hr : performs w
    (when (negb present) (emit w (Makedirs (temp_dir lay))) ;;
     emit w (Logging (lay_cdir lay) (verbosity a) (args_discard a)
               (args_tail a) t) ;;
     emit w (Call [if (w_os_name w =? "nt")%string then "where" else "which";
                   "cmake"]) ;;
     emit w (Call ["cmake"; "--version"]) ;;
     ret (temp_dir lay))
    (events_if (negb present) [Makedirs (temp_dir lay)]
     ++ [Logging (lay_cdir lay) (verbosity a) (args_discard a) (args_tail a) t;
         Call [if (w_os_name w =? "nt")%string then "where" else "which";
               "cmake"];
         Call ["cmake"; "--version"]])
    (temp_dir lay)).
  { eapply performs_eq; [performs_steps | reflexivity]. }
  rewrite Hr. reflexivity.
Qed.

Lemma bind_start {B : Type} (lay : Layout) (k : string -> Script B) :
  bind (start w a t lay) k []
  = match snd (perform w [] (start_events w a t lay)) with
    | inl x => (fst (perform w [] (start_events w a t lay)), inl x)
    | inr _ =>
        (start_events w a t lay
         ++ fst (k (temp_dir lay) (start_events w a t lay)),
         snd (k (temp_dir lay) (start_events w a t lay)))
    end.
Proof.
  unfold bind. rewrite start_perform.
  destruct (snd (perform w [] (start_events w a t lay))) as [x|u] eqn:E;
    [reflexivity | ].
  rewrite (perform_inr _ _ _ E). cbn [app].
  now destruct (k (temp_dir lay) (start_events w a t lay)).
Qed.

(** A run whose tuning raises ends there. *)
Lemma run_untuned (x : Raised) :
  tuned w e = inl x -> run w a t e [] = ([], inl x).
Proof.
  unfold tuned, run. intros H. rewrite bind_check. cbv beta. now rewrite H.
Qed.

(** The outcome of a run past the tuning, stage by stage. *)
Lemma run_tuned (env : Environ) :
  tuned w e = inr env ->
  run w a t e []
  = match prepare (w_fs w []) w a t e with
    | inl x => ([], inl x)
    | inr lay =>
        let before := start_events w a t lay ++ [configure_event a e lay] in
        match snd (perform w [] before) with
        | inl x => (fst (perform w [] before), inl x)
        | inr _ =>
            match build_command w a e lay with
            | inl x => (before, inl x)
            | inr b =>
                (before ++ fst (perform w before (finish_events w a e lay b)),
                 match snd (perform w before (finish_events w a e lay b)) with
                 | inl x => inl x
                 | inr _ =>
                     inr {| plan_layout := lay;
                            plan_generate_command := generate_command a e lay;
                            plan_build_command := b |}
                 end)
            end
        end
    end.
Proof.
  unfold tuned, run. intros H. rewrite bind_check. cbv beta. rewrite H.
  rewrite bind_check.
  destruct (prepare (w_fs w []) w a t e) as [x|lay]; [reflexivity | ].
  cbv zeta. rewrite bind_start, perform_app.
  destruct (snd (perform w [] (start_events w a t lay))) as [x|u];
    [reflexivity | ].
  cbn [app]. fold (configure_event a e lay).
  rewrite (bind_performs _ _ _ _ _ (performs_emit _)).
  destruct (snd (perform w (start_events w a t lay) [configure_event a e lay]))
    as [x|u']; [reflexivity | ].
  rewrite bind_check.
  destruct (build_command w a e lay) as [x|b]; [reflexivity | ].
  rewrite (bind_performs _ _ _ _ _ (finish_performs lay b)).
  destruct (snd (perform w _ (finish_events w a e lay b))) as [x|u''] eqn:E.
  - cbn [fst snd]. now rewrite <- app_assoc.
  - cbn [ret fst snd]. rewrite (perform_inr _ _ _ E), app_nil_r.
    now rewrite <- app_assoc.
Qed.

(** Before anything is done outside, the run has stopped or passed the
    tuning and the validation. *)
Lemma run_cases :
  (exists x, tuned w e = inl x /\ run w a t e [] = ([], inl x))
  \/ (exists env x,
        tuned w e = inr env /\ prepare (w_fs w []) w a t e = inl x
        /\ run w a t e [] = ([], inl x))
  \/ (exists env lay,
        tuned w e = inr env /\ prepare (w_fs w []) w a t e = inr lay).
Proof.
  destruct (tuned w e) as [x|env] eqn:Ht.
  - left. exists x. split; [reflexivity | now apply run_untuned].
  - right. destruct (prepare (w_fs w []) w a t e) as [x|lay] eqn:Hp.
    + left. exists env, x. rewrite (run_tuned env Ht), Hp. auto.
    + right. now exists env, lay.
Qed.

(** A run that fails validation does nothing outside. *)
Lemma run_rejected (env : Environ) (x : Raised) :
  tuned w e = inr env -> prepare (w_fs w []) w a t e = inl x ->
  run w a t e [] = ([], inl x).
Proof. intros Ht H. now rewrite (run_tuned env Ht), H. Qed.

(** A run that does not pass validation does nothing outside at all. *)
Lemma run_rejected_trace (x : Raised) :
  prepare (w_fs w []) w a t e = inl x -> fst (run w a t e []) = [].
Proof.
  intros H. destruct (tuned w e) as [y|env] eqn:Ht.
  - now rewrite (run_untuned y Ht).
  - now rewrite (run_rejected env x Ht H).
Qed.

(** The calls of a run are the first of the calls planned. *)
Lemma run_prefix (lay : Layout) :
  prepare (w_fs w []) w a t e = inr lay ->
  exists rest, planned_events w a t e lay = fst (run w a t e []) ++ rest.
Proof.
  intros Hp. destruct (tuned w e) as [y|env] eqn:Ht.
  - rewrite (run_untuned y Ht). now eexists.
  - rewrite (run_tuned env Ht), Hp. cbv zeta. unfold planned_events.
    set (before := start_events w a t lay ++ [configure_event a e lay]).
    set (tail := match build_command w a e lay with
                 | inl _ => []
                 | inr build => finish_events w a e lay build
                 end).
    assert (Hb : start_events w a t lay ++ configure_event a e lay :: tail
                 = before ++ tail).
    { unfold before. now rewrite <- app_assoc. }
    rewrite Hb.
    destruct (snd (perform w [] before)) as [x|u].
    + destruct (perform_prefix [] before) as (rest & Hr). cbn [fst].
      exists (rest ++ tail). rewrite app_assoc. now rewrite <- Hr.
    + unfold tail. destruct (build_command w a e lay) as [x|b]; cbn [fst].
      * now exists [].
      * destruct (perform_prefix before (finish_events w a e lay b))
          as (rest & Hr).
        exists rest. rewrite <- app_assoc. now rewrite <- Hr.
Qed.

Lemma run_incl (lay : Layout) (ev : Event) :
  prepare (w_fs w []) w a t e = inr lay ->
  In ev (fst (run w a t e [])) -> In ev (planned_events w a t e lay).
Proof.
  intros Hp H. destruct (run_prefix lay Hp) as (rest & ->).
  apply in_or_app. now left.
Qed.

(** A run that fails validation configures nothing. *)
Lemma run_rejected_configures (x : Raised) (argv : list string) :
  prepare (w_fs w []) w a t e = inl x -> ~ configures w a t e argv.
Proof.
  intros H (bd & td & rc & Hin). now rewrite (run_rejected_trace x H) in Hin.
Qed.

(** A run whose tuning raises configures nothing. *)
Lemma run_untuned_configures (x : Raised) (argv : list string) :
  tuned w e = inl x -> ~ configures w a t e argv.
Proof.
  intros H (bd & td & rc & Hin). now rewrite (run_untuned x H) in Hin.
Qed.

(** The only configure command a run can make is [generate_command]. *)
Lemma run_configures (lay : Layout) (argv : list string) :
  prepare (w_fs w []) w a t e = inr lay ->
  configures w a t e argv -> argv = generate_command a e lay.
Proof.
  intros Hp (bd & td & rc & Hin). apply (run_incl lay _ Hp) in Hin.
  unfold planned_events in Hin. apply in_app_or in Hin.
  destruct Hin as [Hin|[Hin|Hin]].
  - each_event Hin.
  - now injection Hin.
  - destruct (build_command w a e lay); [destruct Hin | each_event Hin].
Qed.

(** What a completed run returns, and what it did. *)
Lemma run_completed (tr : list Event) (plan : Plan) :
  run w a t e [] = (tr, inr plan) ->
  prepare (w_fs w []) w a t e = inr (plan_layout plan)
  /\ plan_generate_command plan = generate_command a e (plan_layout plan)
  /\ build_command w a e (plan_layout plan) = inr (plan_build_command plan).
Proof.
  destruct run_cases as [(x & _ & ->)|[(env & x & _ & _ & ->)|(env & lay & Ht & Hp)]];
    [discriminate | discriminate | ].
  rewrite (run_tuned env Ht), Hp. cbv zeta.
  destruct (snd (perform w [] _)); [discriminate | ].
  destruct (build_command w a e lay) as [x|b] eqn:Hb; [discriminate | ].
  destruct (snd (perform w _ (finish_events w a e lay b))); [discriminate | ].
  intros H. injection H as _ <-. cbn. auto.
Qed.

Lemma completed_trace (tr : list Event) (plan : Plan) :
  run w a t e [] = (tr, inr plan) ->
  prepare (w_fs w []) w a t e = inr (plan_layout plan)
  /\ plan_generate_command plan = generate_command a e (plan_layout plan)
  /\ tr = start_events w a t (plan_layout plan)
          ++ configure_event a e (plan_layout plan)
          :: finish_events w a e (plan_layout plan) (plan_build_command plan).
Proof.
  intros H. destruct (run_completed _ _ H) as (Hp & Hg & Hb).
  split; [exact Hp | split; [exact Hg | ]].
  destruct (tuned w e) as [x|env] eqn:Ht;
    [rewrite (run_untuned x Ht) in H; discriminate H | ].
  rewrite (run_tuned env Ht), Hp, Hb in H. cbv zeta in H.
  destruct (snd (perform w [] _)) as [x|[]]; [discriminate H | ].
  destruct (snd (perform w _ (finish_events _ _ _ _ _))) as [x|[]] eqn:E;
    [discriminate H | ].
  rewrite (perform_inr _ _ _ E) in H. injection H as <- _.
  now rewrite <- app_assoc.
Qed.

(** A completed run that builds hands its build command to
    [detail.call.call]. *)
Lemma run_builds (tr : list Event) (plan : Plan) :
  run w a t e [] = (tr, inr plan) -> args_nobuild a = false ->
  In (Call (plan_build_command plan)) tr.
Proof.
  intros H Hnb. destruct (completed_trace _ _ H) as (_ & _ & ->).
  apply in_or_app. right. right. unfold finish_events. rewrite Hnb.
  cbn [negb events_if app]. now left.
Qed.

(** A completed run passed the tuning, and each of its calls returned. *)
Lemma run_completed_returns (tr : list Event) (plan : Plan) :
  run w a t e [] = (tr, inr plan) ->
  (exists env, tuned w e = inr env) /\ all_return w tr.
Proof.
  intros H. destruct (completed_trace _ _ H) as (Hp & _ & Htr).
  destruct (run_completed _ _ H) as (_ & _ & Hb).
  destruct (tuned w e) as [x|env] eqn:Ht;
    [rewrite (run_untuned x Ht) in H; discriminate H | ].
  split; [now exists env | ].
  rewrite (run_tuned env Ht), Hp, Hb in H. cbv zeta in H.
  destruct (snd (perform w [] _)) as [x|[]] eqn:E1; [discriminate H | ].
  destruct (snd (perform w _ (finish_events _ _ _ _ _))) as [x|[]] eqn:E2;
    [discriminate H | ].
  unfold all_return. rewrite Htr.
  replace (start_events w a t (plan_layout plan)
           ++ configure_event a e (plan_layout plan)
           :: finish_events w a e (plan_layout plan) (plan_build_command plan))
    with ((start_events w a t (plan_layout plan)
           ++ [configure_event a e (plan_layout plan)])
          ++ finish_events w a e (plan_layout plan) (plan_build_command plan))
    by now rewrite <- app_assoc.
  rewrite perform_app, E1. cbn [snd app]. exact E2.
Qed.

(** A run in which a call before the configure command raises stops
    there. *)
Lemma run_before_configure (env : Environ) (lay : Layout) (x : Raised) :
  tuned w e = inr env -> prepare (w_fs w []) w a t e = inr lay ->
  snd (perform w [] (start_events w a t lay)) = inl x ->
  run w a t e [] = (fst (perform w [] (start_events w a t lay)), inl x).
Proof.
  intros Ht Hp E. rewrite (run_tuned env Ht), Hp. cbv zeta.
  rewrite perform_app, E. reflexivity.
Qed.

(** A run in which every call before the configure command returns makes
    these calls and runs the configure command. *)
Lemma run_from_configure (env : Environ) (lay : Layout) :
  tuned w e = inr env -> prepare (w_fs w []) w a t e = inr lay ->
  all_return w (start_events w a t lay) ->
  exists rest,
    fst (run w a t e [])
    = start_events w a t lay ++ configure_event a e lay :: rest.
Proof.
  unfold all_return. intros Ht Hp E. rewrite (run_tuned env Ht), Hp. cbv zeta.
  rewrite perform_app, E, perform_cons. cbn [app].
  destruct (w_raises w (start_events w a t lay) (configure_event a e lay)).
  - now exists [].
  - cbn [perform fst snd].
    destruct (build_command w a e lay) as [x|b]; cbn [fst].
    + now exists [].
    + rewrite <- app_assoc. eexists. reflexivity.
Qed.

(** The configure command is run when the tuning, the validation and every
    call before it return, and only then. *)
Lemma configures_iff (argv : list string) :
  configures w a t e argv
  <-> exists env lay,
        tuned w e = inr env /\ prepare (w_fs w []) w a t e = inr lay
        /\ all_return w (start_events w a t lay)
        /\ argv = generate_command a e lay.
Proof.
  split.
  - intros H.
    destruct run_cases
      as [(x & Ht & Hr)|[(env & x & Ht & Hp & Hr)|(env & lay & Ht & Hp)]].
    + now apply (run_untuned_configures x argv Ht) in H.
    + now apply (run_rejected_configures x argv Hp) in H.
    + exists env, lay. split; [exact Ht | split; [exact Hp | ]].
      split; [ | now apply run_configures].
      unfold all_return.
      destruct (snd (perform w [] (start_events w a t lay))) as [x|[]] eqn:E;
        [ | reflexivity].
      destruct H as (bd & td & rc & Hin).
      rewrite (run_before_configure env lay x Ht Hp E) in Hin. cbn [fst] in Hin.
      destruct (perform_prefix [] (start_events w a t lay)) as (rest & Hr).
      assert (Hs : In (Generate argv bd td rc) (start_events w a t lay)).
      { rewrite Hr. apply in_or_app. now left. }
      each_event Hs.
  - intros (env & lay & Ht & Hp & Hall & ->).
    destruct (run_from_configure env lay Ht Hp Hall) as (rest & Hr).
    exists (lay_build_dir lay), (temp_dir lay), (args_reconfig a).
    rewrite Hr. apply in_or_app. right. now left.
Qed.

End Run.

(** ** Scenarios *)

(** Toolchain [ninja], [--config Release], run from [/tmp/proj]. *)
Example scenario_ninja_release :
  exists tr lay build,
    run Sample.world
      (Sample.args (Some "Release") None false false None None None)
      "ninja" Sample.ninja []
    = (tr, inr {| plan_layout := lay;
                  plan_generate_command :=
                    ["cmake"; "-H."; "-B/tmp/proj/_builds/ninja-Release";
                     "-DCMAKE_BUILD_TYPE=Release"; "-GNinja";
                     "-DCMAKE_TOOLCHAIN_FILE=/opt/polly/ninja.cmake"];
                  plan_build_command := build |})
    /\ lay_build_tag lay = "ninja-Release"
    /\ lay_build_dir lay = "/tmp/proj/_builds/ninja-Release".
Proof. do 3 eexists. split; [vm_compute; reflexivity | split; reflexivity]. Qed.

(** Toolchain [vs-12-2013] with [--jobs 8] and [--target foo]. *)
Example scenario_vs12_jobs :
  build_command Sample.world
    (Sample.args (Some "Debug") None false false None (Some 8%Z) (Some "foo"))
    Sample.vs12
    (Sample.layout
       (Sample.args (Some "Debug") None false false None (Some 8%Z) (Some "foo"))
       "vs-12-2013" Sample.vs12)
  = inr ["cmake"; "--build"; "/tmp/proj/_builds/vs-12-2013"; "--config"; "Debug";
         "--target"; "foo"; "--"; "/maxcpucount:8"].
Proof. reflexivity. Qed.

(** Without [cmake], the run ends when [which cmake] fails: the log was
    opened, and nothing is configured. *)
Example scenario_without_cmake :
  run Machine.without_cmake
    (Sample.args (Some "Release") None false false None None None)
    "gcc" Sample.gcc []
  = ([Logging "/tmp/proj" normal None None "gcc"; Call ["which"; "cmake"]],
     inl (SysExit "which cmake: exit status 1")).
Proof. reflexivity. Qed.

(** With [--clear] and a build directory that cannot be removed, the run
    ends at the first removal. *)
Example scenario_locked_build_dir :
  run Machine.locked_build_dir (Machine.pipeline false true false)
    "gcc" Sample.gcc []
  = ([Rmtree "/tmp/proj/_builds/gcc-Release"],
     inl (Exception "OSError" "Permission denied")).
Proof. reflexivity. Qed.

(** [int] reads blanks and underscores as Python does, and stops at 4300
    digits. *)
Example scenario_int :
  Py.int " 12 " = Some 12%Z /\ Py.int "1_0" = Some 10%Z
  /\ Py.int "-007" = Some (-7)%Z /\ Py.int "+5" = Some 5%Z
  /\ Py.int "1__0" = None /\ Py.int "_1" = None /\ Py.int "1_" = None
  /\ Py.int "+ 5" = None /\ Py.int "" = None /\ Py.int "12a" = None
  /\ Py.int (String (ascii_of_nat 28) "5") = None
  /\ Py.int (String (ascii_of_nat 160) "5") = Some 5%Z
  /\ Py.int (string_of_list_ascii (repeat "1"%char 4300)) <> None
  /\ Py.int (string_of_list_ascii (repeat "1"%char 4301)) = None
  /\ Py.int (string_of_list_ascii (repeat "0"%char 4301)) = None.
Proof.
  repeat split; try reflexivity; vm_compute; discriminate.
Qed.

(** ** The build directory tag *)

(** C1. The build directory tag is the toolchain name followed by a dash and
    the configuration when a (non-empty) configuration is given and the
    toolchain is not multiconfig, and the toolchain name alone in every
    other case; it is the tag of every layout and names the build
    directory. *)
Theorem build_tag_derivation (a : Args) (e : Toolchain) (t : string) :
  (forall config,
     args_config a = Some config -> config <> "" -> multiconfig e = false ->
     build_tag a e t = t +++ "-" +++ config)
  /\ (Py.given (args_config a) = false \/ multiconfig e = true ->
      build_tag a e t = t)
  /\ (forall fs w lay,
        prepare fs w a t e = inr lay ->
        lay_build_tag lay = build_tag a e t
        /\ lay_build_dir lay = Py.join (lay_cdir lay) ["_builds"; build_tag a e t]).
Proof.
  unfold build_tag. split; [ | split].
  - intros config -> Hne Hmc. apply truthy_true in Hne.
    now rewrite Hne, Hmc.
  - intros [H|H].
    + destruct (args_config a) as [config|]; [ | reflexivity].
      simpl in H. now rewrite H.
    + destruct (args_config a) as [config|]; [ | reflexivity].
      rewrite H. now rewrite andb_false_r.
  - intros fs w lay H.
    destruct (prepare_inr _ _ _ _ _ _ H) as (cd & _ & _ & _ & _ & _ & ->).
    split; reflexivity.
Qed.

Lemma build_tag_derivation_witness :
  build_tag (Sample.args (Some "Release") None false false None None None)
    Sample.ninja "ninja" = "ninja-Release"
  /\ build_tag (Sample.args (Some "Debug") None false false None None None)
       Sample.xcode "xcode" = "xcode"
  /\ lay_build_dir
       (Sample.layout (Sample.args (Some "Release") None false false None None None)
          "ninja" Sample.ninja)
     = "/tmp/proj/_builds/ninja-Release".
Proof.
  split; [ | split].
  - exact (proj1 (build_tag_derivation
                    (Sample.args (Some "Release") None false false None None None)
                    Sample.ninja "ninja")
             "Release" eq_refl ltac:(discriminate) eq_refl).
  - exact (proj1 (proj2 (build_tag_derivation
                    (Sample.args (Some "Debug") None false false None None None)
                    Sample.xcode "xcode"))
             (or_intror eq_refl)).
  - apply (proj2 (proj2 (build_tag_derivation
             (Sample.args (Some "Release") None false false None None None)
             Sample.ninja "ninja")) Sample.fs Sample.world).
    reflexivity.
Defined.

(** ** The build command *)

Lemma build_command_head (w : World) (a : Args) (e : Toolchain) (lay : Layout) :
  build_command w a e lay
  = match args_jobs a with
    | Some jobs =>
        if Py.given_int (Some jobs)
        then append_jobs jobs e (Spec.build_head w a lay)
        else inr (Spec.build_head w a lay)
    | None => inr (Spec.build_head w a lay)
    end.
Proof.
  unfold build_command, Spec.build_head, Spec.config_tokens, Spec.iossim_tokens.
  cbn zeta. rewrite append_if_app.
  assert (Hcfg :
    match args_config a with
    | Some config =>
        append_if (Py.truthy config) ["--config"; config]
          ["cmake"; "--build"; lay_build_dir lay]
    | None => ["cmake"; "--build"; lay_build_dir lay]
    end
    = ["cmake"; "--build"; lay_build_dir lay]
      ++ match args_config a with
         | Some config => opt_tokens (Py.truthy config) ["--config"; config]
         | None => []
         end).
  { destruct (args_config a); [apply append_if_app | reflexivity]. }
  rewrite Hcfg, <- !app_assoc. reflexivity.
Qed.

(** C2. The build command is [cmake --build <build dir>], then [--config]
    and the configuration exactly when a (non-empty) configuration is
    given, whatever the toolchain, then the target arguments, then [--],
    then the simulator flags under [--iossim], then the parallelism flags:
    [-jobs N] for Xcode, [-j N] for a Make-style driver,
    [/maxcpucount:N] for MSVC from version 12 on, and nothing for any other
    driver. *)
Theorem build_command_layout (w : World) (a : Args) (e : Toolchain)
    (lay : Layout) :
  let head :=
    ["cmake"; "--build"; lay_build_dir lay]
    ++ Spec.config_tokens a
    ++ w_target_args w (lay_target lay)
    ++ ["--"]
    ++ Spec.iossim_tokens a in
  (forall config,
     args_config a = Some config -> config <> "" ->
     Spec.config_tokens a = ["--config"; config])
  /\ (Py.given (args_config a) = false -> Spec.config_tokens a = [])
  /\ (args_iossim a = true ->
      Spec.iossim_tokens a = ["-arch"; "i386"; "-sdk"; "iphonesimulator"])
  /\ (args_iossim a = false -> Spec.iossim_tokens a = [])
  /\ (Py.given_int (args_jobs a) = false -> build_command w a e lay = inr head)
  /\ (forall n,
        args_jobs a = Some n -> n <> 0%Z ->
        (is_xcode e = true ->
         build_command w a e lay = inr (head ++ ["-jobs"; Py.str n]))
        /\ (is_xcode e = false -> Spec.make_style e = true ->
            build_command w a e lay = inr (head ++ ["-j"; Py.str n]))
        /\ (is_xcode e = false -> Spec.make_style e = false ->
            is_msvc e = true ->
            forall v, Py.int (vs_version e) = Some v ->
              ((Spec.min_vs_version <= v)%Z ->
               build_command w a e lay
               = inr (head ++ ["/maxcpucount:" +++ Py.str n]))
              /\ ((v < Spec.min_vs_version)%Z ->
                  build_command w a e lay = inr head))
        /\ (is_xcode e = false -> Spec.make_style e = false ->
            is_msvc e = true -> Py.int (vs_version e) = None ->
            build_command w a e lay = inl (ValueError (vs_version e)))
        /\ (is_xcode e = false -> Spec.make_style e = false ->
            is_msvc e = false ->
            build_command w a e lay = inr head))
  /\ (forall t tr plan,
        run w a t e [] = (tr, inr plan) -> plan_layout plan = lay ->
        build_command w a e lay = inr (plan_build_command plan)
        /\ (args_nobuild a = false -> In (Call (plan_build_command plan)) tr)).
Proof.
  cbn zeta. fold (Spec.build_head w a lay).
  split; [ | split; [ | split; [ | split; [ | split; [ | split]]]]].
  - intros config Hc Hne. unfold Spec.config_tokens. rewrite Hc.
    apply truthy_true in Hne. now rewrite Hne.
  - unfold Spec.config_tokens, Py.given.
    destruct (args_config a); [intros -> | ]; reflexivity.
  - unfold Spec.iossim_tokens. now intros ->.
  - unfold Spec.iossim_tokens. now intros ->.
  - intros H. rewrite build_command_head.
    destruct (args_jobs a) as [n|]; [ | reflexivity]. now rewrite H.
  - intros n Hn Hne. rewrite build_command_head, Hn.
    assert (Hg : Py.given_int (Some n) = true).
    { simpl. now apply negb_true_iff, Z.eqb_neq. }
    rewrite Hg. unfold append_jobs, Spec.make_style.
    split; [ | split; [ | split; [ | split]]].
    + intros ->. now rewrite append_if_app.
    + intros -> ->. now rewrite append_if_app.
    + intros -> -> -> v ->. rewrite append_if_app.
      unfold Spec.min_vs_version. split; intros Hv.
      * apply Z.leb_le in Hv. now rewrite Hv.
      * apply Z.leb_gt in Hv. rewrite Hv. simpl. now rewrite app_nil_r.
    + now intros -> -> -> ->.
    + now intros -> -> ->.
  - intros t tr plan Hrun <-. split.
    + now destruct (run_completed _ _ _ _ _ _ Hrun) as (_ & _ & Hb).
    + now apply (run_builds _ _ _ _ _ _ Hrun).
Qed.

Lemma build_command_layout_witness :
  build_command Sample.world
    (Sample.args (Some "Debug") None false false None (Some 4%Z) None)
    Sample.xcode
    (Sample.layout (Sample.args (Some "Debug") None false false None (Some 4%Z) None)
       "xcode" Sample.xcode)
  = inr ["cmake"; "--build"; "/tmp/proj/_builds/xcode"; "--config"; "Debug";
         "--"; "-jobs"; "4"].
Proof.
  apply (proj1 (proj1 (proj2 (proj2 (proj2 (proj2 (proj2
           (build_command_layout Sample.world
              (Sample.args (Some "Debug") None false false None (Some 4%Z) None)
              Sample.xcode
              (Sample.layout
                 (Sample.args (Some "Debug") None false false None (Some 4%Z) None)
                 "xcode" Sample.xcode))))))) 4%Z eq_refl ltac:(discriminate))).
  reflexivity.
Defined.

(** ** The configure command *)

Section Configure.

Variables (w : World) (a : Args) (t : string) (e : Toolchain).

(** Whatever is configured comes from a layout that passed validation. *)
Lemma configures_layout (argv : list string) :
  configures w a t e argv ->
  exists lay,
    prepare (w_fs w []) w a t e = inr lay /\ argv = generate_command a e lay.
Proof.
  intros H. destruct (prepare (w_fs w []) w a t e) as [x|lay] eqn:Hp.
  - now apply (run_rejected_configures _ _ _ _ _ _ Hp) in H.
  - exists lay. split; [reflexivity | ].
    now apply (run_configures _ _ _ _ lay argv Hp).
Qed.

Lemma generate_command_without_fwd (lay : Layout) :
  generate_command (without_fwd a) e lay = concat (generate_groups a e lay).
Proof.
  rewrite generate_command_groups. unfold forwarded. cbn.
  now rewrite app_nil_r.
Qed.

End Configure.

(** C9. The definitions given to [--fwd] are the last tokens of the
    configure command, each prefixed with [-D], in the order given and with
    nothing removed or merged; what precedes them is the command of the same
    invocation without [--fwd]. *)
Theorem forwarded_definitions_last (a : Args) (e : Toolchain) :
  (forall lay,
     generate_command a e lay
     = generate_command (without_fwd a) e lay
       ++ map (String.append "-D") (forwarded a))
  /\ (forall w t argv,
        configures w a t e argv ->
        exists lay,
          prepare (w_fs w []) w (without_fwd a) t e = inr lay
          /\ argv = generate_command (without_fwd a) e lay
                    ++ map (String.append "-D") (forwarded a)).
Proof.
  assert (H1 : forall lay,
    generate_command a e lay
    = generate_command (without_fwd a) e lay
      ++ map (String.append "-D") (forwarded a)).
  { intros lay. rewrite generate_command_without_fwd.
    apply generate_command_groups. }
  split; [exact H1 | ].
  intros w t argv H.
  destruct (configures_layout _ _ _ _ _ H) as (lay & Hp & ->).
  exists lay. split; [exact Hp | apply H1].
Qed.

Lemma forwarded_definitions_last_witness :
  exists lay,
    prepare Sample.fs Sample.world
      (without_fwd
         (Sample.args None None false false (Some ["A=1"; "B=2"; "A=3"]) None None))
      "gcc" Sample.gcc = inr lay
    /\ ["cmake"; "-H."; "-B/tmp/proj/_builds/gcc"; "-GUnix Makefiles";
        "-DCMAKE_TOOLCHAIN_FILE=/opt/polly/gcc.cmake";
        "-DA=1"; "-DB=2"; "-DA=3"]
       = generate_command
           (without_fwd
              (Sample.args None None false false (Some ["A=1"; "B=2"; "A=3"])
                 None None))
           Sample.gcc lay
         ++ map (String.append "-D") ["A=1"; "B=2"; "A=3"].
Proof.
  apply (proj2 (forwarded_definitions_last
                  (Sample.args None None false false (Some ["A=1"; "B=2"; "A=3"])
                     None None)
                  Sample.gcc) Sample.world "gcc").
  do 3 eexists. vm_compute. right. right. right. left. reflexivity.
Defined.

(** ** Definitions the script itself adds *)

Section Groups.

Variables (fs : FS) (w : World) (a : Args) (t : string) (e : Toolchain).
Variable lay : Layout.
Hypothesis Hlay : prepare fs w a t e = inr lay.

(** Splits membership in the groups of the configure command into one
    case per token. *)
Ltac each_token H :=
  cbn [concat] in H;
  repeat (apply in_app_or in H; destruct H as [H|H]);
  repeat match type of H with
         | In _ (match ?o with Some _ => _ | None => _ end) =>
             destruct o eqn:?
         | In _ (opt_tokens ?c _) =>
             unfold opt_tokens in H; destruct c eqn:?
         end;
  cbn [In] in H;
  repeat match type of H with
         | _ \/ _ => destruct H as [H|H]
         | False => contradiction
         end;
  subst.

Lemma layout_options :
  lay_toolchain_option lay
    = "-DCMAKE_TOOLCHAIN_FILE=" +++ toolchain_path (w_polly_root w) t
  /\ lay_build_dir_option lay = "-B" +++ lay_build_dir lay
  /\ lay_install_dir_option lay = "-DCMAKE_INSTALL_PREFIX=" +++ lay_install_dir lay
  /\ lay_local_install lay = local_install a
  /\ lay_install_dir lay = install_dir (lay_cdir lay) t
  /\ lay_target lay = target a.
Proof.
  destruct (prepare_inr _ _ _ _ _ _ Hlay) as (cd & _ & _ & _ & _ & _ & ->).
  cbn. repeat split; reflexivity.
Qed.

(** The only build-type definition among the groups is the one the
    script appends for [--config]. *)
Lemma groups_build_type (token : string) :
  In token (concat (generate_groups a e lay)) ->
  is_build_type_flag token = true ->
  exists config,
    args_config a = Some config /\ token = "-DCMAKE_BUILD_TYPE=" +++ config
    /\ Py.truthy config = true /\ multiconfig e = false.
Proof.
  destruct layout_options as (Ht & Hb & Hi & _).
  intros H Hflag. unfold generate_groups in H. rewrite Ht, Hb, Hi in H.
  each_token H; try discriminate Hflag.
  match goal with
  | Hc : _ && _ = true |- _ => apply andb_true_iff in Hc; destruct Hc as [Hc Hm]
  end.
  apply negb_true_iff in Hm. eexists. repeat split; eassumption.
Qed.

(** The only install-prefix definition among the groups is the one the
    script appends in local-install mode. *)
Lemma groups_install_prefix (token : string) :
  In token (concat (generate_groups a e lay)) ->
  is_install_prefix_flag token = true ->
  local_install a = true
  /\ token = "-DCMAKE_INSTALL_PREFIX=" +++ install_dir (lay_cdir lay) t.
Proof.
  destruct layout_options as (Ht & Hb & Hi & Hl & Hd & _).
  intros H Hflag. unfold generate_groups in H.
  rewrite Ht, Hb, Hi, Hl, Hd in H.
  each_token H; try discriminate Hflag.
  split; reflexivity.
Qed.

Lemma groups_fixed :
  In ("-H" +++ home a) (concat (generate_groups a e lay))
  /\ In ("-B" +++ lay_build_dir lay) (concat (generate_groups a e lay))
  /\ In ("-DCMAKE_TOOLCHAIN_FILE=" +++ toolchain_path (w_polly_root w) t)
       (concat (generate_groups a e lay)).
Proof.
  destruct layout_options as (Ht & Hb & _).
  unfold generate_groups. cbn [concat]. rewrite Ht, Hb.
  split; [ | split].
  - right. left. reflexivity.
  - right. right. left. reflexivity.
  - apply in_or_app. right. apply in_or_app. right.
    apply in_or_app. right. apply in_or_app. right.
    apply in_or_app. left. left. reflexivity.
Qed.

Lemma groups_build_type_present (config : string) :
  args_config a = Some config -> Py.truthy config = true ->
  multiconfig e = false ->
  In ("-DCMAKE_BUILD_TYPE=" +++ config) (concat (generate_groups a e lay)).
Proof.
  intros Hc Hn Hm. unfold generate_groups. cbn [concat].
  rewrite Hc, Hn, Hm. apply in_or_app. right. left. reflexivity.
Qed.

Lemma groups_install_prefix_present :
  local_install a = true ->
  In ("-DCMAKE_INSTALL_PREFIX=" +++ install_dir (lay_cdir lay) t)
    (concat (generate_groups a e lay)).
Proof.
  destruct layout_options as (_ & _ & Hi & Hl & Hd & _).
  intros H. unfold generate_groups. cbn [concat].
  rewrite Hi, Hl, Hd, H.
  do 8 (apply in_or_app; right). apply in_or_app. left. left. reflexivity.
Qed.

End Groups.

(** ** The build type *)

Lemma startswith_append (p s : string) : Py.startswith p (p +++ s) = true.
Proof.
  unfold Py.startswith. induction p as [|c p IH]; cbn [String.append String.prefix].
  - now destruct s.
  - destruct (Ascii.ascii_dec c c); [exact IH | congruence].
Qed.

Lemma forwarded_build_type (x : string) :
  is_build_type_flag ("-D" +++ x) = Py.startswith "CMAKE_BUILD_TYPE=" x.
Proof. reflexivity. Qed.

(** C3, as stated, fails: on a multiconfig toolchain and without
    [--config], [--fwd CMAKE_BUILD_TYPE=Debug] puts a build-type definition
    into the configure command. *)
Lemma build_type_forwarded_counterexample :
  exists argv,
    configures Sample.world
      (Sample.args None None false false (Some ["CMAKE_BUILD_TYPE=Debug"]) None None)
      "xcode" Sample.xcode argv
    /\ In "-DCMAKE_BUILD_TYPE=Debug" argv
    /\ ~ build_type_iff
           (Sample.args None None false false (Some ["CMAKE_BUILD_TYPE=Debug"])
              None None)
           Sample.xcode argv.
Proof.
  exists ["cmake"; "-H."; "-B/tmp/proj/_builds/xcode"; "-GXcode";
          "-DCMAKE_TOOLCHAIN_FILE=/opt/polly/xcode.cmake";
          "-DCMAKE_BUILD_TYPE=Debug"].
  split; [ | split].
  - do 3 eexists. vm_compute. right. right. right. left. reflexivity.
  - cbn. tauto.
  - intros [H _].
    assert (Hm : multiconfig Sample.xcode = false).
    { apply H. exists "-DCMAKE_BUILD_TYPE=Debug". split; [cbn; tauto | reflexivity]. }
    discriminate Hm.
Qed.

(** C3, amended.  The configure command of every run that gets to compose
    it holds the source-directory flag and the build-directory flag.
    Leaving aside the definitions forwarded by [--fwd], it holds a
    definition of [CMAKE_BUILD_TYPE] exactly when the toolchain is
    single-config and a (non-empty) configuration is requested, and then it
    is the definition of that configuration; with no forwarded definition of
    [CMAKE_BUILD_TYPE] this is so for the whole command. *)
Theorem build_type_flag_rule (w : World) (a : Args) (t : string)
    (e : Toolchain) (argv : list string) :
  configures w a t e argv ->
  exists lay,
    prepare (w_fs w []) w a t e = inr lay
    /\ argv = generate_command (without_fwd a) e lay
              ++ map (String.append "-D") (forwarded a)
    /\ In ("-H" +++ home a) argv
    /\ In ("-B" +++ lay_build_dir lay) argv
    /\ build_type_iff a e (generate_command (without_fwd a) e lay)
    /\ (forall config,
          args_config a = Some config -> config <> "" ->
          multiconfig e = false ->
          In ("-DCMAKE_BUILD_TYPE=" +++ config) argv)
    /\ (forallb (fun x => negb (Py.startswith "CMAKE_BUILD_TYPE=" x))
          (forwarded a) = true ->
        build_type_iff a e argv).
Proof.
  intros H. destruct (configures_layout _ _ _ _ _ H) as (lay & Hp & ->).
  exists lay. split; [exact Hp | ].
  rewrite generate_command_without_fwd, generate_command_groups.
  destruct (groups_fixed _ _ _ _ _ _ Hp) as (Hh & Hb & _).
  assert (Hhead : build_type_iff a e (concat (generate_groups a e lay))).
  { split.
    - intros (token & Hin & Hflag).
      destruct (groups_build_type _ _ _ _ _ _ Hp _ Hin Hflag)
        as (config & Hc & _ & Hn & Hm).
      split; [exact Hm | ]. now rewrite Hc.
    - intros [Hm Hg]. unfold Py.given in Hg.
      destruct (args_config a) as [config|] eqn:Hc; [ | discriminate].
      exists ("-DCMAKE_BUILD_TYPE=" +++ config).
      split; [ | apply startswith_append].
      now apply groups_build_type_present. }
  split; [reflexivity | ].
  split; [apply in_or_app; now left | ].
  split; [apply in_or_app; now left | ].
  split; [exact Hhead | ].
  split.
  - intros config Hc Hne Hm. apply in_or_app. left.
    apply groups_build_type_present; try assumption.
    now apply truthy_true.
  - intros Hfwd. split.
    + intros (token & Hin & Hflag). apply Hhead. exists token.
      split; [ | exact Hflag].
      apply in_app_or in Hin. destruct Hin as [Hin|Hin]; [exact Hin | ].
      apply in_map_iff in Hin. destruct Hin as (x & <- & Hx).
      rewrite forwarded_build_type in Hflag.
      rewrite forallb_forall in Hfwd. apply Hfwd in Hx.
      rewrite Hflag in Hx. discriminate Hx.
    + intros Hc. destruct (proj2 Hhead Hc) as (token & Hin & Hflag).
      exists token. split; [ | exact Hflag]. apply in_or_app. now left.
Qed.

Lemma build_type_flag_rule_witness :
  exists lay,
    prepare Sample.fs Sample.world
      (Sample.args (Some "Release") None false false None None None)
      "ninja" Sample.ninja = inr lay
    /\ In "-DCMAKE_BUILD_TYPE=Release"
         ["cmake"; "-H."; "-B/tmp/proj/_builds/ninja-Release";
          "-DCMAKE_BUILD_TYPE=Release"; "-GNinja";
          "-DCMAKE_TOOLCHAIN_FILE=/opt/polly/ninja.cmake"].
Proof.
  destruct (build_type_flag_rule Sample.world
              (Sample.args (Some "Release") None false false None None None)
              "ninja" Sample.ninja
              ["cmake"; "-H."; "-B/tmp/proj/_builds/ninja-Release";
               "-DCMAKE_BUILD_TYPE=Release"; "-GNinja";
               "-DCMAKE_TOOLCHAIN_FILE=/opt/polly/ninja.cmake"])
    as (lay & Hp & _ & _ & _ & _ & Hin & _).
  - do 3 eexists. vm_compute. right. right. right. left. reflexivity.
  - exists lay. split; [exact Hp | ].
    exact (Hin "Release" eq_refl ltac:(discriminate) eq_refl).
Defined.

(** ** Fatal checks *)

Section Checks.

Variables (w : World) (a : Args) (t : string) (e : Toolchain).

(** A run whose tuning raises stops with that error, having done and
    configured nothing. *)
Lemma untuned (x : Raised) :
  tuned w e = inl x ->
  ends_at_once w a t e x /\ forall argv, ~ configures w a t e argv.
Proof.
  intros H. split.
  - now apply run_untuned.
  - intros argv. now apply (run_untuned_configures _ _ _ _ _ _ H).
Qed.

(** A run past the tuning that fails validation stops with that error,
    having done and configured nothing. *)
Lemma rejected (env : Environ) (x : Raised) :
  tuned w e = inr env -> prepare (w_fs w []) w a t e = inl x ->
  ends_at_once w a t e x /\ forall argv, ~ configures w a t e argv.
Proof.
  intros Ht H. split.
  - now apply (run_rejected _ _ _ _ env).
  - intros argv. now apply (run_rejected_configures _ _ _ _ _ _ H).
Qed.

(** Validation starts with the checks on files. *)
Lemma prepare_file_checks (fs : FS) (x : Raised) :
  file_checks fs w a t = inl x -> prepare fs w a t e = inl x.
Proof.
  unfold file_checks, prepare, bindR.
  destruct (toolchain_option fs w t) as [y|topt]; [now intros [= ->] | ].
  destruct (cdir fs w a) as [y|cd]; [now intros [= ->] | discriminate].
Qed.

Lemma file_checks_ok (fs : FS) :
  file_checks fs w a t = inr tt <-> files_ok fs w a t.
Proof.
  unfold file_checks, files_ok, toolchain_option, cdir, bindR, exit_if.
  destruct (fs_exists fs _); cbn [negb];
    [ | split; [discriminate | intros [H _]; discriminate H]].
  destruct (args_output a) as [o|];
    [ | split; [intros _; split; [reflexivity | discriminate] | reflexivity]].
  destruct (Py.truthy o) eqn:Ho.
  - destruct (fs_isdir fs o) eqn:Hd; cbn [negb].
    + destruct (fs_access_W fs o) eqn:Hw; cbn [negb].
      * split; [ | reflexivity]. intros _. split; [reflexivity | ].
        intros o' H _. injection H as <-. auto.
      * split; [discriminate | ]. intros [_ H].
        destruct (H o eq_refl Ho) as [_ H']. congruence.
    + split; [discriminate | ]. intros [_ H].
      destruct (H o eq_refl Ho) as [H' _]. congruence.
  - split; [ | reflexivity]. intros _. split; [reflexivity | ].
    intros o' H Ht. injection H as <-. rewrite Ho in Ht. discriminate Ht.
Qed.

(** Past the checks on files, validation is the three option checks. *)
Lemma prepare_files_ok :
  files_ok (w_fs w []) w a t ->
  exists lay,
    prepare (w_fs w []) w a t e
    = (_ <-- exit_if (args_install a && args_strip a) both_install_and_strip;
       _ <-- exit_if (args_strip a && negb (is_make e)) strip_needs_make;
       _ <-- exit_if ((args_framework a || args_framework_device a)
                      && negb (w_platform_system w =? "Darwin")%string)
               "Framework creation only for Mac OS X";
       inr lay).
Proof.
  intros Hok. destruct (files_ok_cdir _ _ _ _ Hok) as (cd & Hcd).
  destruct Hok as [Hex _]. eexists.
  unfold prepare, toolchain_option. rewrite Hex, Hcd. cbn [negb exit_if bindR].
  reflexivity.
Qed.

(** A run that validation ends in [x] once the files are in order ends in
    the first error on its way there. *)
Lemma ends_in_first_error (x : Raised) :
  (files_ok (w_fs w []) w a t -> prepare (w_fs w []) w a t e = inl x) ->
  ends_at_once w a t e (first_error w a t e x)
  /\ forall argv, ~ configures w a t e argv.
Proof.
  intros H. unfold first_error.
  destruct (tuned w e) as [y|env] eqn:Ht; [now apply untuned | ].
  destruct (file_checks (w_fs w []) w a t) as [y|[]] eqn:Hf.
  - apply (rejected env _ Ht). now apply prepare_file_checks.
  - apply (rejected env _ Ht). apply H. now apply file_checks_ok.
Qed.

Lemma first_error_ok (env : Environ) (x : Raised) :
  tuned w e = inr env -> files_ok (w_fs w []) w a t ->
  first_error w a t e x = x.
Proof.
  intros Ht Hok. unfold first_error. rewrite Ht.
  apply file_checks_ok in Hok. now rewrite Hok.
Qed.

End Checks.

(** C5, as stated, fails: on a machine without [MINGW_PATH] whose verifier
    rejects that, the toolchain [mingw] without its file [mingw.cmake] ends
    in the error of the verifier (line 212), not in the one about the
    toolchain file (line 245). *)
Lemma toolchain_file_counterexample :
  fs_exists (w_fs Machine.mingw_unset [])
    (toolchain_path (w_polly_root Machine.mingw_unset) "mingw") = false
  /\ run Machine.mingw_unset
       (Sample.args None None false false None None None)
       "mingw" (Machine.entry "mingw" false false "" "") []
     = ([], inl (SysExit "MINGW_PATH is not set"))
  /\ ~ exits_at_once Machine.mingw_unset
         (Sample.args None None false false None None None)
         "mingw" (Machine.entry "mingw" false false "" "")
         ("Toolchain file not found: "
          +++ toolchain_path (w_polly_root Machine.mingw_unset) "mingw").
Proof.
  split; [reflexivity | split; [reflexivity | ]].
  unfold exits_at_once. vm_compute. discriminate.
Qed.

(** C5, amended.  When the file [<toolchain>.cmake] under the polly root
    does not exist, the run stops before anything is done outside and no
    configure command is run: with "Toolchain file not found" when the
    environment tuning returns, with the error of the tuning when one of its
    helpers raises.  Every configure command that is run holds the
    toolchain-file flag of a file that exists. *)
Theorem toolchain_file_required (w : World) (a : Args) (t : string)
    (e : Toolchain) :
  toolchain_path (w_polly_root w) t = Py.join (w_polly_root w) [t +++ ".cmake"]
  /\ (fs_exists (w_fs w []) (toolchain_path (w_polly_root w) t) = false ->
      (forall env,
         tuned w e = inr env ->
         exits_at_once w a t e
           ("Toolchain file not found: " +++ toolchain_path (w_polly_root w) t))
      /\ (forall x, tuned w e = inl x -> ends_at_once w a t e x)
      /\ (exists x, ends_at_once w a t e x)
      /\ forall argv, ~ configures w a t e argv)
  /\ (forall argv,
        configures w a t e argv ->
        fs_exists (w_fs w []) (toolchain_path (w_polly_root w) t) = true
        /\ In ("-DCMAKE_TOOLCHAIN_FILE=" +++ toolchain_path (w_polly_root w) t)
             argv).
Proof.
  split; [reflexivity | split].
  - intros H.
    pose proof (prepare_no_toolchain_file (w_fs w []) w a t e H) as Hp.
    split; [ | split; [ | split]].
    + intros env Ht. now apply (rejected _ _ _ _ env).
    + intros x Ht. now apply untuned.
    + destruct (tuned w e) as [x|env] eqn:Ht.
      * exists x. now apply untuned.
      * eexists. now apply (rejected _ _ _ _ env _ Ht Hp).
    + intros argv. now apply (run_rejected_configures _ _ _ _ _ _ Hp).
  - intros argv H. destruct (configures_layout _ _ _ _ _ H) as (lay & Hp & ->).
    split.
    + now destruct (prepare_inr _ _ _ _ _ _ Hp) as (cd & Hex & _).
    + rewrite generate_command_groups. apply in_or_app. left.
      now destruct (groups_fixed _ _ _ _ _ _ Hp) as (_ & _ & Ht).
Qed.

Lemma toolchain_file_required_witness :
  run Sample.world_without_toolchains
    (Sample.args (Some "Release") None true false None None None)
    "gcc" Sample.gcc []
  = ([], inl (SysExit "Toolchain file not found: /nonexistent/gcc.cmake")).
Proof.
  exact (proj1 (proj1 (proj2 (toolchain_file_required
           Sample.world_without_toolchains
           (Sample.args (Some "Release") None true false None None None)
           "gcc" Sample.gcc)) eq_refl) Sample.environ eq_refl).
Defined.

(** C6, as stated, fails: with [--output] naming a directory that does not
    exist, [--install --strip] ends in the message about the build
    directory, not in the one about the two options. *)
Lemma install_strip_counterexample :
  args_install (Sample.args None (Some "/nonexistent") true true None None None)
  = true
  /\ args_strip (Sample.args None (Some "/nonexistent") true true None None None)
     = true
  /\ exits_at_once Sample.world
       (Sample.args None (Some "/nonexistent") true true None None None)
       "gcc" Sample.gcc
       "Specified build directory does not exists: /nonexistent"
  /\ ~ exits_at_once Sample.world
         (Sample.args None (Some "/nonexistent") true true None None None)
         "gcc" Sample.gcc both_install_and_strip.
Proof.
  split; [reflexivity | split; [reflexivity | split]].
  - reflexivity.
  - unfold exits_at_once. vm_compute. discriminate.
Qed.

(** C6, amended.  With both [--install] and [--strip] the run stops before
    anything is done outside, whatever the toolchain and the other options,
    and nothing is configured or built.  It ends in the first error on its
    way: that of the environment tuning if one of its helpers raises, else
    that of the first failing check on files (toolchain file, then output
    directory), else "Both --install and --strip specified"; so the message
    is the latter when the tuning returns, the toolchain file exists and the
    output directory, if one is named, is a writable directory. *)
Theorem install_strip_conflict (w : World) (a : Args) (t : string)
    (e : Toolchain) :
  args_install a = true -> args_strip a = true ->
  ends_at_once w a t e (first_error w a t e (SysExit both_install_and_strip))
  /\ (forall argv, ~ configures w a t e argv)
  /\ (forall env,
        tuned w e = inr env -> files_ok (w_fs w []) w a t ->
        exits_at_once w a t e both_install_and_strip).
Proof.
  intros Hi Hs.
  assert (H : files_ok (w_fs w []) w a t ->
              prepare (w_fs w []) w a t e = inl (SysExit both_install_and_strip)).
  { intros Hok. destruct (prepare_files_ok w a t e Hok) as (lay & ->).
    now rewrite Hi, Hs. }
  destruct (ends_in_first_error w a t e _ H) as [Hend Hno].
  split; [exact Hend | split; [exact Hno | ]].
  intros env Ht Hok. unfold exits_at_once.
  now rewrite <- (first_error_ok w a t e env _ Ht Hok).
Qed.

Lemma install_strip_conflict_witness :
  run Sample.world (Sample.args None None true true None None None)
    "xcode" Sample.xcode []
  = ([], inl (SysExit "Both --install and --strip specified")).
Proof.
  refine (proj2 (proj2 (install_strip_conflict Sample.world
            (Sample.args None None true true None None None)
            "xcode" Sample.xcode eq_refl eq_refl)) Sample.environ eq_refl _).
  split; [reflexivity | ]. intros output H. discriminate H.
Defined.

(** ** Targets *)

Lemma target_local (a : Args) :
  local_install a = true ->
  exists rest,
    target a = install_target_name a :: rest
    /\ forall x, In x rest -> requested_target a = [x].
Proof.
  intros H. unfold target, requested_target, Target.add, Target.new.
  rewrite H.
  destruct (in_dec string_dec (install_target_name a) []) as [[]|_].
  cbn [app].
  destruct (args_target a) as [r|]; [ | exists []; split; [reflexivity | intros x []]].
  destruct (Py.truthy r); [ | exists []; split; [reflexivity | intros x []]].
  destruct (in_dec string_dec r [install_target_name a]).
  - exists []. split; [reflexivity | intros x []].
  - exists [r]. split; [reflexivity | ]. intros x [<-|[]]. reflexivity.
Qed.

Lemma target_not_local (a : Args) :
  local_install a = false -> target a = requested_target a.
Proof.
  intros H. unfold target, requested_target, Target.add, Target.new.
  rewrite H. destruct (args_target a) as [r|]; [ | reflexivity].
  now destruct (Py.truthy r).
Qed.

(** C7, as stated, fails: on a toolchain that is not Makefile-based,
    [--strip] together with [--install] ends in the message about the two
    options, not in the one about the generator. *)
Lemma strip_counterexample :
  is_make Sample.xcode = false
  /\ args_strip (Sample.args None None true true None None None) = true
  /\ exits_at_once Sample.world (Sample.args None None true true None None None)
       "xcode" Sample.xcode both_install_and_strip
  /\ ~ exits_at_once Sample.world
         (Sample.args None None true true None None None)
         "xcode" Sample.xcode strip_needs_make.
Proof.
  split; [reflexivity | split; [reflexivity | split]].
  - reflexivity.
  - unfold exits_at_once. vm_compute. discriminate.
Qed.

(** C7, amended.  With [--strip] on a toolchain that is not Makefile-based
    the run stops before anything is done outside and nothing is
    configured.  It ends in the first error on its way: that of the
    environment tuning if one of its helpers raises, else that of the first
    failing check on files, else the message about the two options if
    [--install] is given too, else the one about the Unix Makefile
    generator; so the message is the latter when the tuning returns, the
    toolchain file exists, the output directory, if one is named, is a
    writable directory, and [--install] is not given.  On a Makefile-based toolchain
    [--strip] makes [install/strip] the install target, first in the target
    list, and [install] is only there if [--target install] asks for it. *)
Theorem strip_needs_makefiles (w : World) (a : Args) (t : string)
    (e : Toolchain) :
  args_strip a = true ->
  (is_make e = false ->
   ends_at_once w a t e
     (first_error w a t e
        (SysExit (if args_install a then both_install_and_strip
                  else strip_needs_make)))
   /\ (forall argv, ~ configures w a t e argv)
   /\ (forall env,
         tuned w e = inr env -> files_ok (w_fs w []) w a t ->
         args_install a = false ->
         exits_at_once w a t e strip_needs_make))
  /\ (forall lay,
        prepare (w_fs w []) w a t e = inr lay ->
        is_make e = true
        /\ install_target_name a = "install/strip"
        /\ hd_error (lay_target lay) = Some "install/strip"
        /\ (In "install" (lay_target lay) -> args_target a = Some "install"))
  /\ (is_make e = true -> files_ok (w_fs w []) w a t ->
      args_install a = false ->
      args_framework a || args_framework_device a = false ->
      exists lay, prepare (w_fs w []) w a t e = inr lay).
Proof.
  intros Hs. split; [ | split].
  - intros Hm.
    assert (H : files_ok (w_fs w []) w a t ->
                prepare (w_fs w []) w a t e
                = inl (SysExit (if args_install a then both_install_and_strip
                                else strip_needs_make))).
    { intros Hok. destruct (prepare_files_ok w a t e Hok) as (lay & ->).
      rewrite Hs, Hm. now destruct (args_install a). }
    destruct (ends_in_first_error w a t e _ H) as [Hend Hno].
    split; [exact Hend | split; [exact Hno | ]].
    intros env Ht Hok Hi. unfold exits_at_once.
    rewrite <- (first_error_ok w a t e env (SysExit strip_needs_make) Ht Hok).
    rewrite Hi in Hend. exact Hend.
  - intros lay Hp.
    destruct (layout_options _ _ _ _ _ _ Hp) as (_ & _ & _ & _ & _ & Htgt).
    destruct (prepare_inr _ _ _ _ _ _ Hp) as (cd & _ & _ & _ & Hstrip & _).
    rewrite Hs in Hstrip. cbn in Hstrip. apply negb_false_iff in Hstrip.
    assert (Hname : install_target_name a = "install/strip").
    { unfold install_target_name. now rewrite Hs. }
    assert (Hl : local_install a = true).
    { unfold local_install. rewrite Hs. now rewrite orb_true_r. }
    destruct (target_local a Hl) as (rest & Hrest & Hreq).
    rewrite Htgt, Hrest, Hname. repeat split; try assumption.
    intros [H|H]; [discriminate H | ].
    apply Hreq in H. unfold requested_target in H.
    destruct (args_target a) as [r|]; [ | discriminate H].
    destruct (Py.truthy r); [ | discriminate H]. now injection H as ->.
  - intros Hm Hok Hi Hf.
    destruct (prepare_files_ok w a t e Hok) as (lay & ->).
    rewrite Hi, Hs, Hm, Hf. exists lay. reflexivity.
Qed.

Lemma strip_needs_makefiles_witness :
  run Sample.world (Sample.args None None false true None None None)
    "xcode" Sample.xcode []
  = ([], inl (SysExit strip_needs_make))
  /\ hd_error
       (lay_target
          (Sample.layout (Sample.args None None false true None None None)
             "gcc" Sample.gcc))
     = Some "install/strip".
Proof.
  split.
  - refine (proj2 (proj2 (proj1 (strip_needs_makefiles Sample.world
              (Sample.args None None false true None None None)
              "xcode" Sample.xcode eq_refl) eq_refl))
              Sample.environ eq_refl _ eq_refl).
    split; [reflexivity | ]. intros output H. discriminate H.
  - refine (proj1 (proj2 (proj2 (proj1 (proj2 (strip_needs_makefiles
              Sample.world (Sample.args None None false true None None None)
              "gcc" Sample.gcc eq_refl)) _ eq_refl)))).
Defined.

(** ** Local install *)

Lemma local_install_iff (a : Args) :
  local_install a = true
  <-> (args_install a = true \/ args_strip a = true \/ args_framework a = true
       \/ args_framework_device a = true \/ Py.given (args_archive a) = true).
Proof.
  unfold local_install. rewrite !orb_true_iff. tauto.
Qed.

Lemma build_command_targets (w : World) (a : Args) (e : Toolchain)
    (lay : Layout) (cmd : list string) :
  build_command w a e lay = inr cmd ->
  exists pre post, cmd = pre ++ w_target_args w (lay_target lay) ++ post.
Proof.
  rewrite build_command_head.
  assert (Hhead : forall jobs_tokens,
    exists pre post,
      Spec.build_head w a lay ++ jobs_tokens
      = pre ++ w_target_args w (lay_target lay) ++ post).
  { intros j. unfold Spec.build_head.
    exists (["cmake"; "--build"; lay_build_dir lay] ++ Spec.config_tokens a).
    exists (["--"] ++ Spec.iossim_tokens a ++ j).
    now rewrite <- !app_assoc. }
  assert (Hnone : @inr Raised _ (Spec.build_head w a lay) = inr cmd ->
    exists pre post, cmd = pre ++ w_target_args w (lay_target lay) ++ post).
  { intros H. injection H as <-. specialize (Hhead []).
    now rewrite app_nil_r in Hhead. }
  destruct (args_jobs a) as [n|]; [ | exact Hnone].
  destruct (Py.given_int (Some n)); [ | exact Hnone].
  unfold append_jobs. rewrite !append_if_app.
  destruct (is_xcode e); [intros H; injection H as <-; apply Hhead | ].
  destruct (is_make e && negb (is_nmake e));
    [intros H; injection H as <-; apply Hhead | ].
  destruct (is_msvc e); [ | exact Hnone].
  destruct (Py.int (vs_version e)); [ | discriminate].
  rewrite append_if_app. intros H; injection H as <-; apply Hhead.
Qed.

(** C10, as stated, fails: with none of the five options given,
    [--fwd CMAKE_INSTALL_PREFIX=/usr/local] puts an install-prefix
    definition into the configure command. *)
Lemma install_prefix_forwarded_counterexample :
  exists argv,
    configures Sample.world
      (Sample.args None None false false (Some ["CMAKE_INSTALL_PREFIX=/usr/local"])
         None None)
      "gcc" Sample.gcc argv
    /\ local_install
         (Sample.args None None false false
            (Some ["CMAKE_INSTALL_PREFIX=/usr/local"]) None None) = false
    /\ In "-DCMAKE_INSTALL_PREFIX=/usr/local" argv
    /\ is_install_prefix_flag "-DCMAKE_INSTALL_PREFIX=/usr/local" = true.
Proof.
  exists ["cmake"; "-H."; "-B/tmp/proj/_builds/gcc"; "-GUnix Makefiles";
          "-DCMAKE_TOOLCHAIN_FILE=/opt/polly/gcc.cmake";
          "-DCMAKE_INSTALL_PREFIX=/usr/local"].
  split; [ | split; [reflexivity | split; [cbn; tauto | reflexivity]]].
  do 3 eexists. vm_compute. right. right. right. left. reflexivity.
Qed.

(** C10, amended.  In every run that gets to compose its commands,
    local-install mode is on exactly when one of [--install], [--strip],
    [--framework], [--framework-device] is given or [--archive] has a
    non-empty value.  When it is on, the install target ([install/strip]
    under [--strip], [install] otherwise) is the first entry of the target
    list and the configure command defines [CMAKE_INSTALL_PREFIX] as the
    install directory of the toolchain.  When it is off, the target list
    holds nothing but the target asked for by [--target], and the only
    install-prefix definitions in the configure command are those forwarded
    by [--fwd].  The build command carries the arguments of that target
    list. *)
Theorem local_install_mode (w : World) (a : Args) (t : string)
    (e : Toolchain) (argv : list string) :
  configures w a t e argv ->
  exists lay,
    prepare (w_fs w []) w a t e = inr lay
    /\ (local_install a = true
        <-> (args_install a = true \/ args_strip a = true
             \/ args_framework a = true \/ args_framework_device a = true
             \/ Py.given (args_archive a) = true))
    /\ (local_install a = true ->
        hd_error (lay_target lay)
        = Some (if args_strip a then "install/strip" else "install")
        /\ In ("-DCMAKE_INSTALL_PREFIX="
               +++ Py.join (lay_cdir lay) ["_install"; t]) argv)
    /\ (local_install a = false ->
        lay_target lay = requested_target a
        /\ forall token,
             In token argv -> is_install_prefix_flag token = true ->
             exists x, In x (forwarded a) /\ token = "-D" +++ x)
    /\ (forall cmd,
          build_command w a e lay = inr cmd ->
          exists pre post, cmd = pre ++ w_target_args w (lay_target lay) ++ post).
Proof.
  intros H. destruct (configures_layout _ _ _ _ _ H) as (lay & Hp & ->).
  exists lay. split; [exact Hp | ].
  destruct (layout_options _ _ _ _ _ _ Hp) as (_ & _ & _ & _ & _ & Htgt).
  split; [apply local_install_iff | ].
  rewrite generate_command_groups. split; [ | split].
  - intros Hl. split.
    + destruct (target_local a Hl) as (rest & Hrest & _).
      rewrite Htgt, Hrest. unfold install_target_name. now rewrite Hl.
    + apply in_or_app. left.
      now apply (groups_install_prefix_present _ _ _ _ _ _ Hp).
  - intros Hl. split.
    + rewrite Htgt. now apply target_not_local.
    + intros token Hin Hflag. apply in_app_or in Hin.
      destruct Hin as [Hin|Hin].
      * destruct (groups_install_prefix _ _ _ _ _ _ Hp _ Hin Hflag) as [Hl' _].
        rewrite Hl in Hl'. discriminate Hl'.
      * apply in_map_iff in Hin. destruct Hin as (x & <- & Hx).
        exists x. split; [exact Hx | reflexivity].
  - intros cmd. apply build_command_targets.
Qed.

Lemma local_install_mode_witness :
  exists lay,
    prepare Sample.fs Sample.world
      (Sample.args None None true false None None (Some "foo"))
      "gcc" Sample.gcc = inr lay
    /\ hd_error (lay_target lay) = Some "install"
    /\ In ("-DCMAKE_INSTALL_PREFIX=" +++ Py.join (lay_cdir lay) ["_install"; "gcc"])
         ["cmake"; "-H."; "-B/tmp/proj/_builds/gcc"; "-GUnix Makefiles";
          "-DCMAKE_TOOLCHAIN_FILE=/opt/polly/gcc.cmake";
          "-DCMAKE_INSTALL_PREFIX=/tmp/proj/_install/gcc"].
Proof.
  destruct (local_install_mode Sample.world
              (Sample.args None None true false None None (Some "foo"))
              "gcc" Sample.gcc
              ["cmake"; "-H."; "-B/tmp/proj/_builds/gcc"; "-GUnix Makefiles";
               "-DCMAKE_TOOLCHAIN_FILE=/opt/polly/gcc.cmake";
               "-DCMAKE_INSTALL_PREFIX=/tmp/proj/_install/gcc"])
    as (lay & Hp & _ & Hon & _).
  - do 3 eexists. vm_compute. right. right. right. left. reflexivity.
  - exists lay. split; [exact Hp | ]. exact (Hon eq_refl).
Defined.

(** ** Directories *)

Section Directories.

Lemma build_tag_relative (a : Args) (e : Toolchain) (t : string) :
  relative t = true -> relative (build_tag a e t) = true.
Proof.
  intros H. unfold build_tag.
  destruct (args_config a) as [config|]; [ | exact H].
  destruct (Py.truthy config && negb (multiconfig e)); [ | exact H].
  unfold relative in *. destruct (Py.truthy t) eqn:Ht.
  - now rewrite startswith_sep_append.
  - unfold Py.truthy in Ht. apply negb_false_iff in Ht.
    apply String.eqb_eq in Ht. subst t. reflexivity.
Qed.

(** Two toolchains of the same kind get the same tag under one
    configuration only if they have the same name. *)
Lemma build_tag_inj (a1 a2 : Args) (e1 e2 : Toolchain) (t1 t2 : string) :
  multiconfig e1 = multiconfig e2 -> args_config a1 = args_config a2 ->
  build_tag a1 e1 t1 = build_tag a2 e2 t2 -> t1 = t2.
Proof.
  unfold build_tag. intros <- <-.
  destruct (args_config a1) as [config|]; [ | trivial].
  destruct (Py.truthy config && negb (multiconfig e1)); [ | trivial].
  apply append_inv_tail.
Qed.

(** The tag of a multiconfig toolchain, and of any toolchain when no
    configuration is asked for, is its name. *)
Lemma build_tag_name (a : Args) (e : Toolchain) (t : string) :
  multiconfig e = true \/ Py.given (args_config a) = false ->
  build_tag a e t = t.
Proof.
  unfold build_tag, Py.given. intros H.
  destruct (args_config a) as [config|]; [ | reflexivity].
  destruct H as [-> | ->]; [ | reflexivity].
  now rewrite andb_false_r.
Qed.

End Directories.

(** C4, as stated, fails: the archives directory is the same for the
    toolchains [gcc] and [ninja]. *)
Lemma archives_dir_shared_counterexample :
  "gcc" <> "ninja"
  /\ lay_archives_dir
       (Sample.layout (Sample.args None None false false None None None)
          "gcc" Sample.gcc)
     = "/tmp/proj/_archives"
  /\ lay_archives_dir
       (Sample.layout (Sample.args None None false false None None None)
          "ninja" Sample.ninja)
     = "/tmp/proj/_archives".
Proof. split; [discriminate | split; reflexivity]. Qed.

(** The build directory is shared as soon as the tags agree, which two
    names of toolchains of different kinds can bring about. *)
Lemma build_dir_shared_by_tag :
  "ninja-Release" <> "ninja"
  /\ lay_build_dir
       (Sample.layout (Sample.args (Some "Release") None false false None None None)
          "ninja-Release"
          (Sample.toolchain "ninja-Release" "Xcode" true false true false ""))
     = lay_build_dir
         (Sample.layout
            (Sample.args (Some "Release") None false false None None None)
            "ninja" Sample.ninja).
Proof. split; [discriminate | reflexivity]. Qed.

(** So can two single-config toolchains under two configurations: [gcc]
    with [--config 4-8-Release] and [gcc-4-8] with [--config Release] both
    build in [_builds/gcc-4-8-Release]. *)
Lemma build_dir_shared_by_config :
  "gcc" <> "gcc-4-8"
  /\ multiconfig Sample.gcc = false
  /\ multiconfig
       (Sample.toolchain "gcc-4-8" "Unix Makefiles" false true false false "")
     = false
  /\ lay_build_dir
       (Sample.layout
          (Sample.args (Some "4-8-Release") None false false None None None)
          "gcc" Sample.gcc)
     = "/tmp/proj/_builds/gcc-4-8-Release"
  /\ lay_build_dir
       (Sample.layout
          (Sample.args (Some "Release") None false false None None None)
          "gcc-4-8"
          (Sample.toolchain "gcc-4-8" "Unix Makefiles" false true false false ""))
     = "/tmp/proj/_builds/gcc-4-8-Release".
Proof.
  split; [discriminate | ]. split; [reflexivity | ]. split; [reflexivity | ].
  split; reflexivity.
Qed.

(** C4, amended.  Take two invocations whose layouts have the same root,
    for two distinct toolchain names, both relative path components, and
    compare paths as the strings the script computes.  The root is the
    value of [--output], or the working directory; the install and
    framework directories are [<root>/_install/<name>] and
    [<root>/_framework/<name>] and differ between the two; the build
    directory is [<root>/_builds/<tag>] and differs whenever the tags
    differ, as they do when both toolchains are multiconfig, when neither
    invocation asks for a configuration, and when both toolchains are
    single-config and the two invocations ask for the same configuration;
    the archives directory is [<root>/_archives] for both. *)
Theorem layout_namespaced (fs : FS) (w : World) (a1 a2 : Args)
    (t1 t2 : string) (e1 e2 : Toolchain) (lay1 lay2 : Layout) :
  prepare fs w a1 t1 e1 = inr lay1 -> prepare fs w a2 t2 e2 = inr lay2 ->
  lay_cdir lay1 = lay_cdir lay2 ->
  t1 <> t2 -> relative t1 = true -> relative t2 = true ->
  (forall output,
     args_output a1 = Some output -> output <> "" -> lay_cdir lay1 = output)
  /\ (Py.given (args_output a1) = false -> lay_cdir lay1 = w_getcwd w)
  /\ lay_install_dir lay1 = Py.join (lay_cdir lay1) ["_install"] +++ "/" +++ t1
  /\ lay_framework_dir lay1
     = Py.join (lay_cdir lay1) ["_framework"] +++ "/" +++ t1
  /\ lay_build_dir lay1
     = Py.join (lay_cdir lay1) ["_builds"] +++ "/" +++ lay_build_tag lay1
  /\ lay_install_dir lay1 <> lay_install_dir lay2
  /\ lay_framework_dir lay1 <> lay_framework_dir lay2
  /\ (lay_build_tag lay1 <> lay_build_tag lay2 ->
      lay_build_dir lay1 <> lay_build_dir lay2)
  /\ (multiconfig e1 = true -> multiconfig e2 = true ->
      lay_build_dir lay1 <> lay_build_dir lay2)
  /\ (Py.given (args_config a1) = false -> Py.given (args_config a2) = false ->
      lay_build_dir lay1 <> lay_build_dir lay2)
  /\ (multiconfig e1 = multiconfig e2 -> args_config a1 = args_config a2 ->
      lay_build_dir lay1 <> lay_build_dir lay2)
  /\ lay_archives_dir lay1 = Py.join (lay_cdir lay1) ["_archives"]
  /\ lay_archives_dir lay2 = lay_archives_dir lay1.
Proof.
  intros H1 H2 Hroot Hne Hr1 Hr2.
  destruct (prepare_inr _ _ _ _ _ _ H1) as (cd & _ & Hcd & _ & _ & _ & ->).
  destruct (prepare_inr _ _ _ _ _ _ H2) as (cd' & _ & Hcd' & _ & _ & _ & ->).
  cbn [lay_cdir] in Hroot. subst cd'.
  cbn [lay_cdir lay_install_dir lay_framework_dir lay_build_dir lay_build_tag
       lay_archives_dir].
  unfold install_dir, framework_dir, build_dir, archives_dir.
  pose proof (build_tag_relative a1 e1 t1 Hr1) as Hg1.
  pose proof (build_tag_relative a2 e2 t2 Hr2) as Hg2.
  assert (Hbuild : build_tag a1 e1 t1 <> build_tag a2 e2 t2 ->
                   Py.join cd ["_builds"; build_tag a1 e1 t1]
                   <> Py.join cd ["_builds"; build_tag a2 e2 t2]).
  { intros Htag Heq. apply Htag.
    now apply (join_sub_leaf_inj cd "_builds"). }
  split.
  { intros output Ho Hn. unfold cdir in Hcd. rewrite Ho in Hcd.
    apply truthy_true in Hn. rewrite Hn in Hcd.
    destruct (exit_if (negb (fs_isdir fs output)) _); [discriminate | ].
    destruct (exit_if (negb (fs_access_W fs output)) _); [discriminate | ].
    cbn in Hcd. now injection Hcd. }
  split.
  { intros Hn. unfold cdir in Hcd. unfold Py.given in Hn.
    destruct (args_output a1) as [output|]; [rewrite Hn in Hcd | ];
      now injection Hcd. }
  split; [now apply join_sub_leaf | ].
  split; [now apply join_sub_leaf | ].
  split; [now apply join_sub_leaf | ].
  split.
  { intros Heq. apply Hne. now apply (join_sub_leaf_inj cd "_install"). }
  split.
  { intros Heq. apply Hne. now apply (join_sub_leaf_inj cd "_framework"). }
  split; [exact Hbuild | ].
  split.
  { intros Hm1 Hm2. apply Hbuild.
    rewrite !build_tag_name by now left. exact Hne. }
  split.
  { intros Hc1 Hc2. apply Hbuild.
    rewrite !build_tag_name by now right. exact Hne. }
  split; [ | split; reflexivity].
  intros Hm Hc. apply Hbuild. intros Htag. apply Hne.
  now apply (build_tag_inj a1 a2 e1 e2).
Qed.

Lemma layout_namespaced_witness :
  lay_install_dir
    (Sample.layout (Sample.args (Some "Release") None false false None None None)
       "gcc" Sample.gcc)
  <> lay_install_dir
       (Sample.layout (Sample.args (Some "Debug") None false false None None None)
          "ninja" Sample.ninja).
Proof.
  refine (proj1 (proj2 (proj2 (proj2 (proj2 (proj2
    (layout_namespaced Sample.fs Sample.world
       (Sample.args (Some "Release") None false false None None None)
       (Sample.args (Some "Debug") None false false None None None)
       "gcc" "ninja" Sample.gcc Sample.ninja _ _ eq_refl eq_refl eq_refl _
       eq_refl eq_refl))))))).
  discriminate.
Defined.

(** ** The value of [--jobs] *)

(** C8.  The converter of [--jobs] is [int]: it accepts [-3] and [0], which
    [PositiveInt], the converter of [--discard], [--tail] and [--timeout],
    rejects; [-3] then reaches the build command of a Makefile
    toolchain as [-j -3], and [0] is dropped without a word. *)
Theorem jobs_accepts_nonpositive :
  jobs_type "-3" = inr (-3)%Z
  /\ jobs_type "0" = inr 0%Z
  /\ PositiveInt "-3" = inl (ArgumentTypeError "Should be greater that zero: -3")
  /\ PositiveInt "0" = inl (ArgumentTypeError "Should be greater that zero: 0")
  /\ build_command Sample.world
       (Sample.args None None false false None (Some (-3)%Z) None) Sample.gcc
       (Sample.layout (Sample.args None None false false None (Some (-3)%Z) None)
          "gcc" Sample.gcc)
     = inr ["cmake"; "--build"; "/tmp/proj/_builds/gcc"; "--"; "-j"; "-3"]
  /\ build_command Sample.world
       (Sample.args None None false false None (Some 0%Z) None) Sample.gcc
       (Sample.layout (Sample.args None None false false None (Some 0%Z) None)
          "gcc" Sample.gcc)
     = inr ["cmake"; "--build"; "/tmp/proj/_builds/gcc"; "--"].
Proof. repeat split. Qed.

(** * Further properties of the script *)

(** ** Validation as a whole *)

Section Passing.

Variables (w : World) (a : Args) (t : string) (e : Toolchain).

Lemma cdir_inr (fs : FS) (cd : string) :
  cdir fs w a = inr cd ->
  forall output,
    args_output a = Some output -> Py.truthy output = true ->
    fs_isdir fs output = true /\ fs_access_W fs output = true /\ cd = output.
Proof.
  unfold cdir. intros H output Ho Ht. rewrite Ho, Ht in H.
  unfold exit_if, bindR in H.
  destruct (fs_isdir fs output); [ | discriminate H].
  destruct (fs_access_W fs output); [ | discriminate H].
  cbn in H. injection H as ->. auto.
Qed.

Lemma prepare_checks_pass (lay : Layout) :
  prepare (w_fs w []) w a t e = inr lay -> checks_pass (w_fs w []) w a t e.
Proof.
  intros H.
  destruct (prepare_inr _ _ _ _ _ _ H) as (cd & Hex & Hcd & Hi & Hs & Hf & _).
  repeat split; try assumption;
    now destruct (cdir_inr _ _ Hcd output H0 H1) as (? & ? & _).
Qed.

Lemma checks_pass_prepare :
  checks_pass (w_fs w []) w a t e ->
  exists lay, prepare (w_fs w []) w a t e = inr lay.
Proof.
  intros (Hok & Hi & Hs & Hf).
  destruct (prepare_files_ok w a t e Hok) as (lay & ->).
  rewrite Hi, Hs, Hf. exists lay. reflexivity.
Qed.

(** The build command fails only in [int(vs_version)]. *)
Lemma build_command_inl (lay : Layout) (x : Raised) :
  build_command w a e lay = inl x ->
  x = ValueError (vs_version e)
  /\ Py.given_int (args_jobs a) = true
  /\ is_xcode e = false /\ Spec.make_style e = false /\ is_msvc e = true
  /\ Py.int (vs_version e) = None.
Proof.
  rewrite build_command_head. unfold Spec.make_style.
  destruct (args_jobs a) as [n|]; [ | discriminate].
  destruct (Py.given_int (Some n)) eqn:Hn; [ | discriminate].
  unfold append_jobs.
  destruct (is_xcode e); [discriminate | ].
  destruct (is_make e && negb (is_nmake e)); [discriminate | ].
  destruct (is_msvc e); [ | discriminate].
  destruct (Py.int (vs_version e)); [discriminate | ].
  intros H. injection H as <-. repeat split; assumption.
Qed.

End Passing.

(** X3.  Validation passes exactly when the toolchain file exists, the
    output directory, if one is named, is a writable directory,
    [--install] and [--strip] are not both given, [--strip] is only given
    for a Makefile generator and a framework is only asked for on Darwin.
    The configure command is run exactly when, besides, the environment
    tuning returns and so does every call made before the configure
    command: the removals of [--clear], [os.makedirs], the opening of the
    log, [which cmake] and [cmake --version]. *)
Theorem validation_passes_iff (w : World) (a : Args) (t : string)
    (e : Toolchain) :
  ((exists lay, prepare (w_fs w []) w a t e = inr lay)
   <-> checks_pass (w_fs w []) w a t e)
  /\ ((exists argv, configures w a t e argv)
      <-> checks_pass (w_fs w []) w a t e
          /\ (exists env, tuned w e = inr env)
          /\ forall lay,
               prepare (w_fs w []) w a t e = inr lay ->
               all_return w (start_events w a t lay)).
Proof.
  split; split.
  - intros (lay & H). now apply (prepare_checks_pass _ _ _ _ lay).
  - apply checks_pass_prepare.
  - intros (argv & H).
    apply configures_iff in H. destruct H as (env & lay & Ht & Hp & Hall & _).
    split; [now apply (prepare_checks_pass _ _ _ _ lay) | ].
    split; [now exists env | ].
    intros lay' Hp'. rewrite Hp in Hp'. now injection Hp' as <-.
  - intros (H & (env & Ht) & Hall).
    destruct (checks_pass_prepare _ _ _ _ H) as (lay & Hp).
    exists (generate_command a e lay). apply configures_iff.
    exists env, lay. auto.
Qed.

Lemma validation_passes_iff_witness :
  exists argv,
    configures Sample.world
      (Sample.args (Some "Release") None false true None None None)
      "gcc" Sample.gcc argv.
Proof.
  apply (proj2 (proj2 (validation_passes_iff Sample.world
                  (Sample.args (Some "Release") None false true None None None)
                  "gcc" Sample.gcc))).
  split; [ | split].
  - split; [split; [reflexivity | intros output H; discriminate H] | ].
    repeat split.
  - exists Sample.environ. reflexivity.
  - intros lay H. vm_compute in H. injection H as <-. reflexivity.
Defined.

(** X1.  When the environment tuning returns, [--output] names a directory
    and the toolchain file exists, the run stops at once if the directory
    does not exist, and if it cannot be written to; a run that passes
    validation has the named directory as the root of its layout. *)
Theorem output_directory_checked (w : World) (a : Args) (t : string)
    (e : Toolchain) (output : string) (env : Environ) :
  tuned w e = inr env ->
  args_output a = Some output -> output <> "" ->
  fs_exists (w_fs w []) (toolchain_path (w_polly_root w) t) = true ->
  (fs_isdir (w_fs w []) output = false ->
   exits_at_once w a t e
     ("Specified build directory does not exists: " +++ output))
  /\ (fs_isdir (w_fs w []) output = true ->
      fs_access_W (w_fs w []) output = false ->
      exits_at_once w a t e
        ("Specified build directory is not writeable: " +++ output))
  /\ (forall lay,
        prepare (w_fs w []) w a t e = inr lay ->
        fs_isdir (w_fs w []) output = true
        /\ fs_access_W (w_fs w []) output = true
        /\ lay_cdir lay = output
        /\ lay_build_dir lay = Py.join output ["_builds"; build_tag a e t]).
Proof.
  intros Ht Ho Hne Hex. apply truthy_true in Hne. split; [ | split].
  - intros Hd. apply (rejected _ _ _ _ env _ Ht).
    unfold prepare, toolchain_option, cdir.
    now rewrite Hex, Ho, Hne, Hd.
  - intros Hd Hw. apply (rejected _ _ _ _ env _ Ht).
    unfold prepare, toolchain_option, cdir.
    now rewrite Hex, Ho, Hne, Hd, Hw.
  - intros lay H.
    destruct (prepare_inr _ _ _ _ _ _ H) as (cd & _ & Hcd & _ & _ & _ & ->).
    destruct (cdir_inr _ _ _ _ Hcd output Ho Hne) as (Hd & Hw & ->).
    repeat split; assumption.
Qed.

Lemma output_directory_checked_witness :
  run Sample.world
    (Sample.args None (Some "/nonexistent/out") false false None None None)
    "gcc" Sample.gcc []
  = ([], inl (SysExit
                "Specified build directory does not exists: /nonexistent/out")).
Proof.
  exact (proj1 (output_directory_checked Sample.world
                  (Sample.args None (Some "/nonexistent/out") false false None
                     None None)
                  "gcc" Sample.gcc "/nonexistent/out" Sample.environ eq_refl
                  eq_refl ltac:(discriminate) eq_refl) eq_refl).
Defined.

(** X2.  Asking for a framework on a platform other than Darwin stops the
    run before anything is done outside, with nothing configured.  The run
    ends in the first error on its way: that of the environment tuning,
    else that of the first failing check on files, else the message of the
    check on [--install] and [--strip] or of the one on [--strip] and the
    generator if one of them fails, else "Framework creation only for Mac
    OS X". *)
Theorem framework_needs_darwin (w : World) (a : Args) (t : string)
    (e : Toolchain) :
  args_framework a = true \/ args_framework_device a = true ->
  w_platform_system w <> "Darwin" ->
  ends_at_once w a t e
    (first_error w a t e
       (SysExit
          (if args_install a && args_strip a then both_install_and_strip
           else if args_strip a && negb (is_make e) then strip_needs_make
           else "Framework creation only for Mac OS X")))
  /\ (forall argv, ~ configures w a t e argv)
  /\ (forall env,
        tuned w e = inr env -> files_ok (w_fs w []) w a t ->
        args_install a && args_strip a = false ->
        args_strip a && negb (is_make e) = false ->
        exits_at_once w a t e "Framework creation only for Mac OS X").
Proof.
  intros Hf Hp.
  assert (Hc : (args_framework a || args_framework_device a)
               && negb (w_platform_system w =? "Darwin")%string = true).
  { apply andb_true_iff. split.
    - apply orb_true_iff. exact Hf.
    - apply negb_true_iff. now apply String.eqb_neq. }
  assert (H : files_ok (w_fs w []) w a t ->
              prepare (w_fs w []) w a t e
              = inl (SysExit
                       (if args_install a && args_strip a
                        then both_install_and_strip
                        else if args_strip a && negb (is_make e)
                             then strip_needs_make
                             else "Framework creation only for Mac OS X"))).
  { intros Hok. destruct (prepare_files_ok w a t e Hok) as (lay & ->).
    rewrite Hc. destruct (args_install a && args_strip a); [reflexivity | ].
    now destruct (args_strip a && negb (is_make e)). }
  destruct (ends_in_first_error w a t e _ H) as [Hend Hno].
  split; [exact Hend | split; [exact Hno | ]].
  intros env Ht Hok Hi Hs. unfold exits_at_once.
  rewrite <- (first_error_ok w a t e env
                (SysExit "Framework creation only for Mac OS X") Ht Hok).
  rewrite Hi, Hs in Hend. exact Hend.
Qed.

Lemma framework_needs_darwin_witness :
  run Sample.world Machine.framework "xcode" Sample.xcode []
  = ([], inl (SysExit "Framework creation only for Mac OS X")).
Proof.
  refine (proj2 (proj2 (framework_needs_darwin Sample.world Machine.framework
            "xcode" Sample.xcode (or_introl eq_refl) ltac:(discriminate)))
            Sample.environ eq_refl _ eq_refl eq_refl).
  split; [reflexivity | ]. intros output H. discriminate H.
Defined.

(** X4.  A run that does not complete stopped in one of four ways: in the
    environment tuning, or in a [sys.exit] of the validation, having done
    nothing outside in both cases; or at a call that raised, which is the
    last call it made, after the planned calls before it, in their order;
    or with the [ValueError] of [int(vs_version)] while composing the
    parallelism flag of an MSVC toolchain, after the configure command
    returned and before anything was built. *)
Theorem fail_fast (w : World) (a : Args) (t : string) (e : Toolchain)
    (tr : list Event) (x : Raised) :
  run w a t e [] = (tr, inl x) ->
  (tr = [] /\ tuned w e = inl x)
  \/ (exists env msg,
        tr = [] /\ tuned w e = inr env /\ x = SysExit msg
        /\ prepare (w_fs w []) w a t e = inl (SysExit msg))
  \/ (exists lay pre ev rest,
        prepare (w_fs w []) w a t e = inr lay
        /\ planned_events w a t e lay = pre ++ ev :: rest
        /\ tr = pre ++ [ev]
        /\ all_return w pre
        /\ w_raises w pre ev = Some x)
  \/ (exists lay,
        prepare (w_fs w []) w a t e = inr lay
        /\ x = ValueError (vs_version e)
        /\ tr = start_events w a t lay ++ [configure_event a e lay]
        /\ all_return w tr
        /\ Py.given_int (args_jobs a) = true
        /\ is_msvc e = true
        /\ Py.int (vs_version e) = None).
Proof.
  intros H.
  destruct (run_cases w a t e)
    as [(y & Ht & Hr)|[(env & y & Ht & Hp & Hr)|(env & lay & Ht & Hp)]].
  - left. rewrite Hr in H. injection H as <- <-. auto.
  - right. left. rewrite Hr in H. injection H as <- <-.
    destruct (prepare_cases (w_fs w []) w a t e) as [(lay & Hl)|(msg & Hm)];
      [rewrite Hp in Hl; discriminate Hl | ].
    exists env, msg. rewrite Hp in Hm. injection Hm as ->. auto.
  - right. right. rewrite (run_tuned _ _ _ _ env Ht), Hp in H. cbv zeta in H.
    set (before := start_events w a t lay ++ [configure_event a e lay]) in *.
    assert (Hb : forall tail,
      start_events w a t lay ++ configure_event a e lay :: tail
      = before ++ tail).
    { intros tail. unfold before. now rewrite <- app_assoc. }
    destruct (snd (perform w [] before)) as [y|[]] eqn:E1.
    + left. injection H as <- <-.
      destruct (perform_inl _ _ _ _ E1) as (pre & ev & rest & Hl & Hf & Hs & Hr).
      rewrite Hf. cbn [app] in Hr.
      exists lay, pre, ev,
        (rest ++ match build_command w a e lay with
                 | inr b => finish_events w a e lay b
                 | inl _ => []
                 end).
      unfold planned_events. rewrite Hb, Hl, <- app_assoc.
      repeat split; assumption.
    + destruct (build_command w a e lay) as [y|b] eqn:Hbc.
      * right. injection H as <- <-.
        destruct (build_command_inl _ _ _ _ _ Hbc) as (-> & Hj & _ & _ & Hm & Hv).
        exists lay. repeat split; assumption.
      * left.
        destruct (snd (perform w before (finish_events w a e lay b)))
          as [y|[]] eqn:E2; [ | discriminate H].
        injection H as <- <-.
        destruct (perform_inl _ _ _ _ E2)
          as (pre & ev & rest & Hl & Hf & Hs & Hr).
        rewrite Hf.
        exists lay, (before ++ pre), ev, rest.
        unfold planned_events. rewrite Hb, Hbc, Hl, <- !app_assoc.
        repeat split; try assumption.
        unfold all_return. rewrite perform_app, E1. exact Hs.
Qed.

Lemma fail_fast_witness :
  (@nil Event = [] /\ tuned Sample.world Sample.gcc
                    = inl (SysExit "Both --install and --strip specified"))
  \/ (exists env msg,
        @nil Event = [] /\ tuned Sample.world Sample.gcc = inr env
        /\ SysExit "Both --install and --strip specified" = SysExit msg
        /\ prepare (w_fs Sample.world []) Sample.world
             (Sample.args None None true true None None None) "gcc" Sample.gcc
           = inl (SysExit msg))
  \/ (exists lay pre ev rest,
        prepare (w_fs Sample.world []) Sample.world
          (Sample.args None None true true None None None) "gcc" Sample.gcc
        = inr lay
        /\ planned_events Sample.world
             (Sample.args None None true true None None None) "gcc" Sample.gcc
             lay
           = pre ++ ev :: rest
        /\ [] = pre ++ [ev]
        /\ all_return Sample.world pre
        /\ w_raises Sample.world pre ev
           = Some (SysExit "Both --install and --strip specified"))
  \/ (exists lay,
        prepare (w_fs Sample.world []) Sample.world
          (Sample.args None None true true None None None) "gcc" Sample.gcc
        = inr lay
        /\ SysExit "Both --install and --strip specified"
           = ValueError (vs_version Sample.gcc)
        /\ [] = start_events Sample.world
                  (Sample.args None None true true None None None) "gcc" lay
                ++ [configure_event
                      (Sample.args None None true true None None None)
                      Sample.gcc lay]
        /\ all_return Sample.world []
        /\ Py.given_int
             (args_jobs (Sample.args None None true true None None None))
           = true
        /\ is_msvc Sample.gcc = true
        /\ Py.int (vs_version Sample.gcc) = None).
Proof.
  exact (fail_fast Sample.world (Sample.args None None true true None None None)
           "gcc" Sample.gcc [] (SysExit "Both --install and --strip specified")
           eq_refl).
Defined.

(** ** What a run does, and in which order *)

(** X8.  A run that completes has done, in this order: the removals of
    [--clear], the creation of the scratch directory if it was missing,
    the opening of the log, [which cmake] (or [where cmake]),
    [cmake --version], the configure command, then unless [--nobuild] the
    build command, the archive, the framework, the change to the build
    directory, the tests and the packing, and at last the opening of the
    project; and what it returns is the layout and the two commands it
    used. *)
Theorem run_actions (w : World) (a : Args) (t : string) (e : Toolchain)
    (tr : list Event) (plan : Plan) :
  run w a t e [] = (tr, inr plan) ->
  tr = start_events w a t (plan_layout plan)
       ++ configure_event a e (plan_layout plan)
       :: finish_events w a e (plan_layout plan) (plan_build_command plan)
  /\ prepare (w_fs w []) w a t e = inr (plan_layout plan)
  /\ plan_generate_command plan = generate_command a e (plan_layout plan)
  /\ build_command w a e (plan_layout plan) = inr (plan_build_command plan).
Proof.
  intros H. destruct (run_completed _ _ _ _ _ _ H) as (Hp & Hg & Hb).
  destruct (completed_trace _ _ _ _ _ _ H) as (_ & _ & Htr).
  repeat split; assumption.
Qed.

Lemma run_actions_witness :
  [Rmtree "/tmp/proj/_builds/gcc-Release"; Rmtree "/tmp/proj/_install/gcc";
   Rmtree "/tmp/proj/_framework/gcc";
   Logging "/tmp/proj" normal None None "gcc";
   Call ["which"; "cmake"]; Call ["cmake"; "--version"];
   Generate
     ["cmake"; "-H."; "-B/tmp/proj/_builds/gcc-Release";
      "-DCMAKE_BUILD_TYPE=Release"; "-GUnix Makefiles";
      "-DCMAKE_TOOLCHAIN_FILE=/opt/polly/gcc.cmake";
      "-DCMAKE_INSTALL_PREFIX=/tmp/proj/_install/gcc"; "-DCPACK_GENERATOR=TGZ"]
     "/tmp/proj/_builds/gcc-Release"
     "/tmp/proj/_builds/gcc-Release/_3rdParty/polly" false;
   Call ["cmake"; "--build"; "/tmp/proj/_builds/gcc-Release"; "--config";
         "Release"; "--target"; "install"; "--"];
   CreateArchive "/tmp/proj/_install/gcc" "/tmp/proj/_archives" "pkg" "gcc"
     (Some "Release");
   Chdir "/tmp/proj/_builds/gcc-Release";
   Test "/tmp/proj/_builds/gcc-Release" (Some "Release") None false None;
   Pack (Some "Release") "TGZ"]
  = start_events Sample.world (Machine.pipeline false true false) "gcc"
      (Sample.layout (Machine.pipeline false true false) "gcc" Sample.gcc)
    ++ configure_event (Machine.pipeline false true false) Sample.gcc
         (Sample.layout (Machine.pipeline false true false) "gcc" Sample.gcc)
    :: finish_events Sample.world (Machine.pipeline false true false)
         Sample.gcc
         (Sample.layout (Machine.pipeline false true false) "gcc" Sample.gcc)
         ["cmake"; "--build"; "/tmp/proj/_builds/gcc-Release"; "--config";
          "Release"; "--target"; "install"; "--"].
Proof.
  exact (proj1 (run_actions Sample.world (Machine.pipeline false true false)
                  "gcc" Sample.gcc _
                  {| plan_layout :=
                       Sample.layout (Machine.pipeline false true false)
                         "gcc" Sample.gcc;
                     plan_generate_command :=
                       generate_command (Machine.pipeline false true false)
                         Sample.gcc
                         (Sample.layout (Machine.pipeline false true false)
                            "gcc" Sample.gcc);
                     plan_build_command :=
                       ["cmake"; "--build"; "/tmp/proj/_builds/gcc-Release";
                        "--config"; "Release"; "--target"; "install"; "--"] |}
                  eq_refl)).
Defined.





Lemma build_command_starts (w : World) (a : Args) (e : Toolchain)
    (lay : Layout) (b : list string) :
  build_command w a e lay = inr b ->
  exists rest, b = "cmake" :: "--build" :: rest.
Proof.
  rewrite build_command_head.
  assert (Hhead : forall tokens,
    exists rest, Spec.build_head w a lay ++ tokens = "cmake" :: "--build" :: rest).
  { intros tokens. unfold Spec.build_head. eexists. reflexivity. }
  assert (Hnone : @inr Raised _ (Spec.build_head w a lay) = inr b ->
    exists rest, b = "cmake" :: "--build" :: rest).
  { intros H. injection H as <-. destruct (Hhead []) as (rest & Hr).
    rewrite app_nil_r in Hr. now exists rest. }
  destruct (args_jobs a) as [n|]; [ | exact Hnone].
  destruct (Py.given_int (Some n)); [ | exact Hnone].
  unfold append_jobs.
  destruct (is_xcode e);
    [rewrite append_if_app; intros H; injection H as <-; apply Hhead | ].
  destruct (is_make e && negb (is_nmake e));
    [rewrite append_if_app; intros H; injection H as <-; apply Hhead | ].
  destruct (is_msvc e); [ | exact Hnone].
  destruct (Py.int (vs_version e)); [ | discriminate].
  rewrite append_if_app. intros H; injection H as <-; apply Hhead.
Qed.

(** X6.  With [--nobuild], a run that passes validation does nothing after
    the configure command but open the project under [--open]: its calls
    are the first of the calls before the configure command, the configure
    command and the opening of the project, all of them when it completes;
    the build command, though composed, is not run, and there is no
    archive, no framework, no test and no packing. *)
Theorem nobuild_stops_after_configure (w : World) (a : Args) (t : string)
    (e : Toolchain) (lay : Layout) (b : list string) :
  prepare (w_fs w []) w a t e = inr lay ->
  build_command w a e lay = inr b ->
  args_nobuild a = true ->
  (exists rest,
     start_events w a t lay
     ++ configure_event a e lay
     :: events_if (args_open a) [OpenProject e (lay_build_dir lay)]
     = fst (run w a t e []) ++ rest)
  /\ (forall tr plan,
        run w a t e [] = (tr, inr plan) ->
        tr = start_events w a t lay
             ++ configure_event a e lay
             :: events_if (args_open a) [OpenProject e (lay_build_dir lay)])
  /\ ~ In (Call b) (fst (run w a t e [])).
Proof.
  intros Hp Hb Hn.
  assert (Hplan : planned_events w a t e lay
                  = start_events w a t lay
                    ++ configure_event a e lay
                    :: events_if (args_open a)
                         [OpenProject e (lay_build_dir lay)]).
  { unfold planned_events. rewrite Hb. unfold finish_events. now rewrite Hn. }
  rewrite <- Hplan. split; [now apply run_prefix | split].
  - intros tr plan H.
    destruct (completed_trace _ _ _ _ _ _ H) as (Hp' & _ & ->).
    destruct (run_completed _ _ _ _ _ _ H) as (_ & _ & Hb').
    assert (El : plan_layout plan = lay) by congruence.
    rewrite El in *.
    assert (Eb : plan_build_command plan = b) by congruence.
    rewrite Eb. unfold planned_events. now rewrite Hb.
  - intros H. apply (run_incl _ _ _ _ lay _ Hp) in H. rewrite Hplan in H.
    destruct (build_command_starts _ _ _ _ _ Hb) as (rest & ->).
    apply in_app_or in H. destruct H as [H|H].
    + each_event H; injection H as H1 H2; discriminate.
    + each_event H.
Qed.

Lemma nobuild_stops_after_configure_witness :
  [Logging "/tmp/proj" normal None None "gcc";
   Call ["which"; "cmake"]; Call ["cmake"; "--version"];
   Generate
     ["cmake"; "-H."; "-B/tmp/proj/_builds/gcc-Release";
      "-DCMAKE_BUILD_TYPE=Release"; "-GUnix Makefiles";
      "-DCMAKE_TOOLCHAIN_FILE=/opt/polly/gcc.cmake";
      "-DCMAKE_INSTALL_PREFIX=/tmp/proj/_install/gcc"; "-DCPACK_GENERATOR=TGZ"]
     "/tmp/proj/_builds/gcc-Release"
     "/tmp/proj/_builds/gcc-Release/_3rdParty/polly" false]
  = start_events Sample.world (Machine.pipeline true false false) "gcc"
      (Sample.layout (Machine.pipeline true false false) "gcc" Sample.gcc)
    ++ configure_event (Machine.pipeline true false false) Sample.gcc
         (Sample.layout (Machine.pipeline true false false) "gcc" Sample.gcc)
    :: events_if (args_open (Machine.pipeline true false false))
         [OpenProject Sample.gcc
            (lay_build_dir
               (Sample.layout (Machine.pipeline true false false)
                  "gcc" Sample.gcc))]
  /\ ~ In (Call ["cmake"; "--build"; "/tmp/proj/_builds/gcc-Release";
                 "--config"; "Release"; "--target"; "install"; "--"])
          (fst (run Sample.world (Machine.pipeline true false false) "gcc"
                  Sample.gcc [])).
Proof.
  pose proof (nobuild_stops_after_configure Sample.world
                (Machine.pipeline true false false) "gcc" Sample.gcc
                (Sample.layout (Machine.pipeline true false false)
                   "gcc" Sample.gcc)
                ["cmake"; "--build"; "/tmp/proj/_builds/gcc-Release";
                 "--config"; "Release"; "--target"; "install"; "--"]
                eq_refl eq_refl eq_refl) as H.
  split.
  - exact (proj1 (proj2 H) _
             {| plan_layout :=
                  Sample.layout (Machine.pipeline true false false)
                    "gcc" Sample.gcc;
                plan_generate_command :=
                  generate_command (Machine.pipeline true false false)
                    Sample.gcc
                    (Sample.layout (Machine.pipeline true false false)
                       "gcc" Sample.gcc);
                plan_build_command :=
                  ["cmake"; "--build"; "/tmp/proj/_builds/gcc-Release";
                   "--config"; "Release"; "--target"; "install"; "--"] |}
             eq_refl).
  - exact (proj2 (proj2 H)).
Defined.

(** ** Calls that raise *)

(** X20.  Past the tuning and the validation, a run makes its planned calls
    in order up to the first that raises, and none after it: a removal,
    [os.makedirs], the configure or the build command that fails skips
    everything planned after it, and the run ends in what that call
    raised.  When every planned call returns the run completes, unless the
    build command could not be composed. *)
Theorem calls_are_fatal (w : World) (a : Args) (t : string) (e : Toolchain)
    (env : Environ) (lay : Layout) :
  tuned w e = inr env -> prepare (w_fs w []) w a t e = inr lay ->
  run w a t e []
  = (fst (perform w [] (planned_events w a t e lay)),
     match snd (perform w [] (planned_events w a t e lay)) with
     | inl x => inl x
     | inr _ =>
         match build_command w a e lay with
         | inl x => inl x
         | inr b =>
             inr {| plan_layout := lay;
                    plan_generate_command := generate_command a e lay;
                    plan_build_command := b |}
         end
     end)
  /\ (forall pre ev post x,
        planned_events w a t e lay = pre ++ ev :: post ->
        all_return w pre -> w_raises w pre ev = Some x ->
        run w a t e [] = (pre ++ [ev], inl x)).
Proof.
  intros Ht Hp.
  assert (Hrun : run w a t e []
    = (fst (perform w [] (planned_events w a t e lay)),
       match snd (perform w [] (planned_events w a t e lay)) with
       | inl x => inl x
       | inr _ =>
           match build_command w a e lay with
           | inl x => inl x
           | inr b =>
               inr {| plan_layout := lay;
                      plan_generate_command := generate_command a e lay;
                      plan_build_command := b |}
           end
       end)).
  { rewrite (run_tuned _ _ _ _ env Ht), Hp. cbv zeta. unfold planned_events.
    set (before := start_events w a t lay ++ [configure_event a e lay]).
    assert (Hb : forall tail,
      start_events w a t lay ++ configure_event a e lay :: tail
      = before ++ tail).
    { intros tail. unfold before. now rewrite <- app_assoc. }
    rewrite Hb, perform_app.
    destruct (snd (perform w [] before)) as [x|[]] eqn:E1; [reflexivity | ].
    cbn [app fst snd].
    destruct (build_command w a e lay) as [x|b].
    - cbn [perform fst snd]. now rewrite app_nil_r.
    - reflexivity. }
  split; [exact Hrun | ].
  intros pre ev post x Hl Hall Hr. rewrite Hrun, Hl, perform_app.
  unfold all_return in Hall. rewrite Hall, perform_cons. cbn [app].
  now rewrite Hr.
Qed.

Lemma calls_are_fatal_witness :
  run Machine.without_cmake
    (Sample.args (Some "Release") None false false None None None)
    "gcc" Sample.gcc []
  = ([Logging "/tmp/proj" normal None None "gcc"] ++ [Call ["which"; "cmake"]],
     inl (SysExit "which cmake: exit status 1")).
Proof.
  exact (proj2 (calls_are_fatal Machine.without_cmake
                  (Sample.args (Some "Release") None false false None None None)
                  "gcc" Sample.gcc Sample.environ
                  (Sample.layout
                     (Sample.args (Some "Release") None false false None None
                        None)
                     "gcc" Sample.gcc)
                  eq_refl eq_refl)
           [Logging "/tmp/proj" normal None None "gcc"]
           (Call ["which"; "cmake"]) _ _ eq_refl eq_refl eq_refl).
Defined.

(** ** Tests, packing, archives and frameworks *)

(** Finds an action in a list of actions whose conditions are decided. *)
Ltac find_event :=
  repeat first [rewrite in_app_iff | progress cbn [In app]]; auto 40.


(** X16.  In a run that completes, the tests are run exactly when the
    build is not skipped and [--test] or [--test-xml] is given, with the
    build directory, the configuration, the XML path, full verbosity or
    not, and the timeout of the invocation; the packing is run exactly when
    the build is not skipped and [--pack] has a non-empty generator, and
    then the configure command of the same run defined [CPACK_GENERATOR]
    as that generator. *)
Theorem test_and_pack (w : World) (a : Args) (t : string) (e : Toolchain)
    (tr : list Event) (plan : Plan) :
  run w a t e [] = (tr, inr plan) ->
  (forall bd cfg xml v timeout,
     In (Test bd cfg xml v timeout) tr
     <-> (args_nobuild a = false
          /\ args_test a || Py.given (args_test_xml a) = true
          /\ bd = lay_build_dir (plan_layout plan) /\ cfg = args_config a
          /\ xml = args_test_xml a /\ v = is_full (verbosity a)
          /\ timeout = args_timeout a))
  /\ (forall cfg g,
        In (Pack cfg g) tr
        <-> (args_nobuild a = false /\ args_pack a = Some g /\ g <> ""
             /\ cfg = args_config a))
  /\ (forall cfg g,
        In (Pack cfg g) tr ->
        In ("-DCPACK_GENERATOR=" +++ g) (plan_generate_command plan)).
Proof.
  intros H. destruct (completed_trace _ _ _ _ _ _ H) as (Hp & Hg & ->).
  set (lay := plan_layout plan) in *. set (b := plan_build_command plan).
  assert (Hpack : forall cfg g,
    In (Pack cfg g)
       (start_events w a t lay
        ++ configure_event a e lay :: finish_events w a e lay b) ->
    args_nobuild a = false /\ args_pack a = Some g /\ g <> ""
    /\ cfg = args_config a).
  { intros cfg g Hin. each_event Hin. injection Hin as <- <-.
    match goal with
    | Hn : negb (args_nobuild a) = true |- _ => apply negb_true_iff in Hn
    end.
    unfold Py.given in *. destruct (args_pack a) as [g|]; [ | discriminate].
    repeat split; try assumption. now apply truthy_true. }
  split; [ | split].
  - intros bd cfg xml v timeout. split.
    + intros Hin. each_event Hin. injection Hin as <- <- <- <- <-.
      match goal with
      | Hn : negb (args_nobuild a) = true |- _ => apply negb_true_iff in Hn
      end.
      repeat split; assumption.
    + intros (Hn & Ht & -> & -> & -> & -> & ->).
      unfold finish_events, events_if. rewrite Hn, Ht. cbn [negb].
      find_event.
  - intros cfg g. split; [apply Hpack | ].
    intros (Hn & Hg' & Hne & ->). apply truthy_true in Hne.
    unfold finish_events, events_if, Py.given. rewrite Hn, Hg', Hne.
    cbn [negb]. find_event.
  - intros cfg g Hin. destruct (Hpack cfg g Hin) as (_ & Hg' & Hne & _).
    apply truthy_true in Hne.
    rewrite Hg, generate_command_groups. apply in_or_app. left.
    unfold generate_groups. cbn [concat]. rewrite Hg', Hne.
    unfold opt_tokens at 9. find_event.
Qed.

Lemma test_and_pack_witness :
  In "-DCPACK_GENERATOR=TGZ"
    (generate_command (Machine.pipeline false false false) Sample.gcc
       (Sample.layout (Machine.pipeline false false false) "gcc" Sample.gcc)).
Proof.
  refine (proj2 (proj2 (test_and_pack Sample.world
            (Machine.pipeline false false false) "gcc" Sample.gcc _
            {| plan_layout :=
                 Sample.layout (Machine.pipeline false false false)
                   "gcc" Sample.gcc;
               plan_generate_command :=
                 generate_command (Machine.pipeline false false false)
                   Sample.gcc
                   (Sample.layout (Machine.pipeline false false false)
                      "gcc" Sample.gcc);
               plan_build_command :=
                 ["cmake"; "--build"; "/tmp/proj/_builds/gcc-Release";
                  "--config"; "Release"; "--target"; "install"; "--"] |}
            eq_refl)) (Some "Release") "TGZ" _).
  vm_compute. do 8 right. left. reflexivity.
Defined.

(** X17.  In a run that completes, an archive is created exactly when the
    build is not skipped and [--archive] has a non-empty name, from the
    install directory of the layout into its archives directory, and the
    configure command of the same run defined [CMAKE_INSTALL_PREFIX] as
    that install directory; a framework is created only on Darwin, only
    when the build is not skipped, and likewise from the install directory
    that the configure command was given. *)
Theorem archive_and_framework (w : World) (a : Args) (t : string)
    (e : Toolchain) (tr : list Event) (plan : Plan) :
  run w a t e [] = (tr, inr plan) ->
  (forall idir adir n tc cfg,
     In (CreateArchive idir adir n tc cfg) tr
     <-> (args_nobuild a = false /\ args_archive a = Some n /\ n <> ""
          /\ idir = lay_install_dir (plan_layout plan)
          /\ adir = lay_archives_dir (plan_layout plan)
          /\ tc = name e /\ cfg = args_config a))
  /\ (forall idir adir n tc cfg,
        In (CreateArchive idir adir n tc cfg) tr ->
        In ("-DCMAKE_INSTALL_PREFIX=" +++ idir) (plan_generate_command plan))
  /\ (forall idir fdir ios root device plist identity,
        In (CreateFramework idir fdir ios root device plist identity) tr ->
        w_platform_system w = "Darwin"
        /\ args_nobuild a = false
        /\ (args_framework a = true \/ args_framework_device a = true)
        /\ idir = lay_install_dir (plan_layout plan)
        /\ fdir = lay_framework_dir (plan_layout plan)
        /\ device = args_framework_device a
        /\ In ("-DCMAKE_INSTALL_PREFIX=" +++ idir)
             (plan_generate_command plan)).
Proof.
  intros H. destruct (completed_trace _ _ _ _ _ _ H) as (Hp & Hg & ->).
  set (lay := plan_layout plan) in *. set (b := plan_build_command plan).
  destruct (layout_options _ _ _ _ _ _ Hp) as (_ & _ & _ & _ & Hd & _).
  assert (Hprefix : local_install a = true ->
    In ("-DCMAKE_INSTALL_PREFIX=" +++ lay_install_dir lay)
       (plan_generate_command plan)).
  { intros Hl. rewrite Hg, generate_command_groups. apply in_or_app. left.
    fold lay in Hd. rewrite Hd.
    now apply (groups_install_prefix_present _ _ _ _ _ _ Hp). }
  assert (Harch : forall idir adir n tc cfg,
    In (CreateArchive idir adir n tc cfg)
       (start_events w a t lay
        ++ configure_event a e lay :: finish_events w a e lay b) ->
    args_nobuild a = false /\ args_archive a = Some n /\ n <> ""
    /\ idir = lay_install_dir lay /\ adir = lay_archives_dir lay
    /\ tc = name e /\ cfg = args_config a).
  { intros idir adir n tc cfg Hin. each_event Hin.
    injection Hin as <- <- <- <- <-.
    match goal with
    | Hn : negb (args_nobuild a) = true |- _ => apply negb_true_iff in Hn
    end.
    unfold Py.given in *. destruct (args_archive a) as [n|]; [ | discriminate].
    repeat split; try assumption. now apply truthy_true. }
  split; [ | split].
  - intros idir adir n tc cfg. split; [apply Harch | ].
    intros (Hn & Ha & Hne & -> & -> & -> & ->). apply truthy_true in Hne.
    unfold finish_events, events_if, Py.given. rewrite Hn, Ha, Hne.
    cbn [negb]. find_event.
  - intros idir adir n tc cfg Hin.
    destruct (Harch _ _ _ _ _ Hin) as (_ & Ha & Hne & -> & _).
    apply Hprefix. unfold local_install, Py.given. rewrite Ha.
    apply truthy_true in Hne. rewrite Hne. now rewrite !orb_true_r.
  - intros idir fdir ios root device plist identity Hin. each_event Hin.
    injection Hin as <- <- _ _ <- _ _.
    match goal with
    | Hn : negb (args_nobuild a) = true |- _ => apply negb_true_iff in Hn
    end.
    match goal with
    | Hf : args_framework a || args_framework_device a = true |- _ =>
        rename Hf into Hfw
    end.
    destruct (prepare_inr _ _ _ _ _ _ Hp) as (cd & _ & _ & _ & _ & Hdar & _).
    rewrite Hfw in Hdar. cbn [andb] in Hdar. apply negb_false_iff in Hdar.
    apply String.eqb_eq in Hdar.
    repeat split; try assumption; try reflexivity.
    + now apply orb_true_iff.
    + apply Hprefix. unfold local_install.
      apply orb_true_iff in Hfw. destruct Hfw as [-> | ->];
        now rewrite ?orb_true_r.
Qed.

Lemma archive_and_framework_witness :
  In "-DCMAKE_INSTALL_PREFIX=/tmp/proj/_install/gcc"
    (generate_command (Machine.pipeline false false false) Sample.gcc
       (Sample.layout (Machine.pipeline false false false) "gcc" Sample.gcc)).
Proof.
  refine (proj1 (proj2 (archive_and_framework Sample.world
            (Machine.pipeline false false false) "gcc" Sample.gcc _
            {| plan_layout :=
                 Sample.layout (Machine.pipeline false false false)
                   "gcc" Sample.gcc;
               plan_generate_command :=
                 generate_command (Machine.pipeline false false false)
                   Sample.gcc
                   (Sample.layout (Machine.pipeline false false false)
                      "gcc" Sample.gcc);
               plan_build_command :=
                 ["cmake"; "--build"; "/tmp/proj/_builds/gcc-Release";
                  "--config"; "Release"; "--target"; "install"; "--"] |}
            eq_refl)) "/tmp/proj/_install/gcc" "/tmp/proj/_archives" "pkg"
            "gcc" (Some "Release") _).
  vm_compute. do 5 right. left. reflexivity.
Defined.

(** ** The scratch directory *)

(** The only directory a run can create is the scratch directory, and it
    goes without when the directory is there after the removals. *)
Lemma run_makedirs (w : World) (a : Args) (t : string) (e : Toolchain)
    (lay : Layout) (path : string) :
  prepare (w_fs w []) w a t e = inr lay ->
  In (Makedirs path) (fst (run w a t e [])) ->
  path = temp_dir lay
  /\ fs_exists (w_fs w (clear_events a lay)) (temp_dir lay) = false.
Proof.
  intros Hp H. apply (run_incl _ _ _ _ lay _ Hp) in H.
  unfold planned_events in H. apply in_app_or in H.
  destruct H as [H|[H|H]].
  - unfold start_events in H. apply in_app_or in H. destruct H as [H|H];
      [each_event H | ].
    apply in_app_or in H. destruct H as [H|H]; [ | each_event H].
    destruct (fs_exists (w_fs w (clear_events a lay)) (temp_dir lay));
      [destruct H | ].
    destruct H as [H|[]]. injection H as <-. auto.
  - discriminate H.
  - destruct (build_command w a e lay); [destruct H | each_event H].
Qed.

(** A run past the tuning and the validation whose removals return looks
    for the scratch directory, and creates it right away if it is not
    there. *)
Lemma run_creates (w : World) (a : Args) (t : string) (e : Toolchain)
    (env : Environ) (lay : Layout) :
  tuned w e = inr env -> prepare (w_fs w []) w a t e = inr lay ->
  all_return w (clear_events a lay) ->
  fs_exists (w_fs w (clear_events a lay)) (temp_dir lay) = false ->
  exists rest,
    fst (run w a t e [])
    = clear_events a lay ++ Makedirs (temp_dir lay) :: rest.
Proof.
  unfold all_return. intros Ht Hp Hc Hgone.
  assert (Hs : exists rest,
    fst (perform w [] (start_events w a t lay))
    = clear_events a lay ++ Makedirs (temp_dir lay) :: rest).
  { unfold start_events. rewrite Hgone. cbn [negb events_if app].
    rewrite perform_app, Hc, perform_cons. cbn [fst app].
    destruct (w_raises w (clear_events a lay) (Makedirs (temp_dir lay)));
      eexists; reflexivity. }
  destruct Hs as (rest & Hs).
  destruct (snd (perform w [] (start_events w a t lay))) as [x|[]] eqn:E.
  - rewrite (run_before_configure _ _ _ _ env lay x Ht Hp E). cbn [fst].
    now exists rest.
  - destruct (run_from_configure _ _ _ _ env lay Ht Hp E) as (rest' & ->).
    rewrite <- (perform_inr _ _ _ _ E), Hs, <- app_assoc. cbn [app].
    eexists. reflexivity.
Qed.

(** X18.  The scratch directory [<build dir>/_3rdParty/polly] is looked for
    after the removals of [--clear], not before.  A run that passes
    validation calls [os.makedirs] exactly when the environment tuning
    returns, the removals return and the scratch directory does not exist
    at that moment; the call is then the first after the removals, and the
    scratch directory is the only directory a run creates.  So a run with
    [--clear] creates the directory anew when removing the build directory
    took it away. *)
Theorem clear_recreates_temp_dir (w : World) (a : Args) (t : string)
    (e : Toolchain) (lay : Layout) :
  prepare (w_fs w []) w a t e = inr lay ->
  ((exists path, In (Makedirs path) (fst (run w a t e [])))
   <-> (exists env, tuned w e = inr env)
       /\ all_return w (clear_events a lay)
       /\ fs_exists (w_fs w (clear_events a lay)) (temp_dir lay) = false)
  /\ (forall path,
        In (Makedirs path) (fst (run w a t e [])) ->
        path = Py.join (lay_build_dir lay) ["_3rdParty"; "polly"]
        /\ exists rest,
             fst (run w a t e [])
             = clear_events a lay ++ Makedirs path :: rest).
Proof.
  intros Hp.
  assert (Hback : forall path,
    In (Makedirs path) (fst (run w a t e [])) ->
    (exists env, tuned w e = inr env)
    /\ all_return w (clear_events a lay)
    /\ fs_exists (w_fs w (clear_events a lay)) (temp_dir lay) = false).
  { intros path H.
    destruct (run_makedirs _ _ _ _ _ _ Hp H) as (-> & Hgone).
    destruct (tuned w e) as [x|env] eqn:Ht;
      [now rewrite (run_untuned _ _ _ _ x Ht) in H | ].
    split; [now exists env | split; [ | exact Hgone]].
    unfold all_return.
    destruct (snd (perform w [] (clear_events a lay))) as [x|[]] eqn:Ec;
      [ | reflexivity].
    assert (Es : perform w [] (start_events w a t lay)
                 = (fst (perform w [] (clear_events a lay)), inl x)).
    { unfold start_events. now rewrite perform_app, Ec. }
    rewrite (run_before_configure _ _ _ _ env lay x Ht Hp) in H
      by now rewrite Es.
    rewrite Es in H. cbn [fst] in H.
    destruct (perform_prefix w [] (clear_events a lay)) as (rest & Hr).
    assert (Hin : In (Makedirs (temp_dir lay)) (clear_events a lay)).
    { rewrite Hr. apply in_or_app. now left. }
    each_event Hin. }
  split; [split | ].
  - intros (path & H). now apply (Hback path).
  - intros ((env & Ht) & Hc & Hgone).
    destruct (run_creates _ _ _ _ env lay Ht Hp Hc Hgone) as (rest & Hr).
    exists (temp_dir lay). rewrite Hr. apply in_or_app. right. now left.
  - intros path H. destruct (Hback path H) as ((env & Ht) & Hc & Hgone).
    destruct (run_makedirs _ _ _ _ _ _ Hp H) as (-> & _).
    split; [reflexivity | ].
    now apply (run_creates _ _ _ _ env).
Qed.

Lemma clear_recreates_temp_dir_witness :
  exists path,
    In (Makedirs path)
       (fst (run Machine.linux_rmtree (Machine.pipeline false true false)
               "gcc" Sample.gcc [])).
Proof.
  refine (proj2 (proj1 (clear_recreates_temp_dir Machine.linux_rmtree
            (Machine.pipeline false true false) "gcc" Sample.gcc
            (Sample.layout (Machine.pipeline false true false) "gcc" Sample.gcc)
            eq_refl)) _).
  split; [exists Sample.environ; reflexivity | split; reflexivity].
Defined.

(** ** Directories of different kinds *)

(** X10.  Under one root and for relative names, the build, install and
    framework directories of any toolchains are pairwise different paths,
    and none of them is the archives directory. *)
Theorem directories_distinct (root x y : string) :
  relative x = true -> relative y = true ->
  build_dir root x <> install_dir root y
  /\ build_dir root x <> framework_dir root y
  /\ install_dir root x <> framework_dir root y
  /\ archives_dir root <> build_dir root x
  /\ archives_dir root <> install_dir root x
  /\ archives_dir root <> framework_dir root x.
Proof.
  intros Hx Hy. unfold build_dir, install_dir, framework_dir, archives_dir.
  rewrite !join_sub_leaf by (assumption || reflexivity).
  unfold Py.join. cbn [fold_left]. rewrite !join2_sep by reflexivity.
  rewrite !append_assoc.
  repeat split; intros H; do 2 apply append_inv_head in H; discriminate H.
Qed.

Lemma directories_distinct_witness :
  build_dir "/tmp/proj" "gcc" <> install_dir "/tmp/proj" "gcc".
Proof.
  exact (proj1 (directories_distinct "/tmp/proj" "gcc" "gcc" eq_refl eq_refl)).
Defined.

(** ** Verbosity *)

(** X7.  [--verbose] forces the full verbosity level.  The three debug
    definitions are appended to the configure command, next to each other
    and in one order, exactly at that level ([--fwd] left aside, which can
    always pass them through), and the log is opened at that level. *)
Theorem verbose_forces_full (w : World) (a : Args) (t : string)
    (e : Toolchain) (lay : Layout) :
  prepare (w_fs w []) w a t e = inr lay ->
  (verbosity a = full <-> args_verbose a = true \/ args_verbosity a = full)
  /\ (forall d,
        In d verbose_definitions ->
        In d (generate_command (without_fwd a) e lay) <-> verbosity a = full)
  /\ (verbosity a = full ->
      exists pre post,
        generate_command a e lay = pre ++ verbose_definitions ++ post)
  /\ (forall c v discard tail tc,
        In (Logging c v discard tail tc) (fst (run w a t e [])) ->
        v = verbosity a).
Proof.
  intros Hp. split; [ | split; [ | split]].
  - unfold verbosity. destruct (args_verbose a); [intuition | ].
    split; [now right | intros [H|H]; [discriminate H | exact H]].
  - intros d Hd. rewrite generate_command_without_fwd.
    destruct (layout_options _ _ _ _ _ _ Hp) as (Ht & Hb & Hi & _).
    split.
    + intros H. unfold generate_groups in H. rewrite Ht, Hb, Hi in H.
      cbn [concat] in H.
      repeat (apply in_app_or in H; destruct H as [H|H]);
        repeat match type of H with
               | In _ (match ?o with Some _ => _ | None => _ end) =>
                   destruct o eqn:?
               | In _ (opt_tokens ?c _) =>
                   unfold opt_tokens in H; destruct c eqn:?
               end;
        cbn [In] in H;
        repeat match type of H with
               | _ \/ _ => destruct H as [H|H]
               | False => contradiction
               end;
        try (now destruct (verbosity a));
        subst d; cbn [verbose_definitions In] in Hd;
        repeat match type of Hd with
               | _ \/ _ => destruct Hd as [Hd|Hd]
               | False => contradiction
               end;
        cbn [String.append] in Hd; discriminate Hd.
    + intros Hv. unfold generate_groups. rewrite Hv. cbn [concat].
      apply in_or_app. right. apply in_or_app. right.
      apply in_or_app. right. apply in_or_app. right.
      apply in_or_app. right. apply in_or_app. left. exact Hd.
  - intros Hv. rewrite generate_command_groups. unfold generate_groups.
    exists (concat (firstn 5 (generate_groups a e lay))).
    exists (concat (skipn 6 (generate_groups a e lay))
            ++ map (String.append "-D") (forwarded a)).
    unfold generate_groups. rewrite Hv.
    cbn [firstn skipn concat is_full opt_tokens].
    rewrite <- !app_assoc. reflexivity.
  - intros c v discard tail tc H. apply (run_incl _ _ _ _ lay _ Hp) in H.
    unfold planned_events in H. apply in_app_or in H.
    destruct H as [H|[H|H]].
    + each_event H. now injection H.
    + discriminate H.
    + destruct (build_command w a e lay); [destruct H | each_event H].
Qed.

Lemma verbose_forces_full_witness :
  exists pre post,
    generate_command (Machine.pipeline false false true) Sample.gcc
      (Sample.layout (Machine.pipeline false false true) "gcc" Sample.gcc)
    = pre ++ verbose_definitions ++ post.
Proof.
  exact (proj1 (proj2 (proj2 (verbose_forces_full Sample.world
           (Machine.pipeline false false true) "gcc" Sample.gcc
           (Sample.layout (Machine.pipeline false false true) "gcc" Sample.gcc)
           eq_refl))) eq_refl).
Defined.

(** ** Environment tuning *)

Lemma setenv_same (key value : string) (environ : Environ) :
  setenv key value environ key = Some value.
Proof. unfold setenv. now rewrite String.eqb_refl. Qed.

Lemma setenv_other (key value k : string) (environ : Environ) :
  k <> key -> setenv key value environ k = environ k.
Proof.
  intros H. unfold setenv. apply String.eqb_neq in H. now rewrite H.
Qed.

(** The tuning, block by block. *)
Lemma tune_environment_blocks (hp : Helpers) (root : string) (e : Toolchain)
    (environ : Environ) :
  tune_environment hp root e environ
  = (e1 <-- tune_path (is_mingw e) "MINGW_PATH" (verify_mingw_path hp) environ;
     e2 <-- tune_path (is_msys e) "MSYS_PATH" (verify_msys_path hp) e1;
     e3 <-- (if takes_nmake_environment e
             then get_nmake_environment hp (arch e) (vs_version e)
             else inr e2);
     e4 <-- tune_developer_dir (ios_version e) (ios_dev_root hp) e3;
     tune_developer_dir (osx_version e) (osx_dev_root hp)
       (tune_codesign root e e4)).
Proof. reflexivity. Qed.

Lemma bindR_inr {A B : Type} (m : Result A) (k : A -> Result B) (y : B) :
  bindR m k = inr y -> exists x, m = inr x /\ k x = inr y.
Proof.
  destruct m as [x|x]; [discriminate | ]. intros H. now exists x.
Qed.

(** What a tuning that returns went through. *)
Lemma tune_environment_inr (hp : Helpers) (root : string) (e : Toolchain)
    (environ environ' : Environ) :
  tune_environment hp root e environ = inr environ' ->
  exists e1 e2 e3 e4,
    tune_path (is_mingw e) "MINGW_PATH" (verify_mingw_path hp) environ = inr e1
    /\ tune_path (is_msys e) "MSYS_PATH" (verify_msys_path hp) e1 = inr e2
    /\ (if takes_nmake_environment e
        then get_nmake_environment hp (arch e) (vs_version e)
        else inr e2) = inr e3
    /\ tune_developer_dir (ios_version e) (ios_dev_root hp) e3 = inr e4
    /\ tune_developer_dir (osx_version e) (osx_dev_root hp)
         (tune_codesign root e e4) = inr environ'.
Proof.
  rewrite tune_environment_blocks. intros H.
  apply bindR_inr in H. destruct H as (e1 & H1 & H).
  apply bindR_inr in H. destruct H as (e2 & H2 & H).
  apply bindR_inr in H. destruct H as (e3 & H3 & H).
  apply bindR_inr in H. destruct H as (e4 & H4 & H).
  now exists e1, e2, e3, e4.
Qed.

Lemma tune_path_inr (chosen : bool) (var : string)
    (verify : option string -> Result unit) (environ environ' : Environ) :
  tune_path chosen var verify environ = inr environ' ->
  (forall k, k <> "PATH" -> environ' k = environ k)
  /\ (chosen = false -> environ' = environ)
  /\ (chosen = true ->
      verify (environ var) = inr tt
      /\ environ' "PATH"
         = Some (format_opt (environ var) +++ ";"
                 +++ format_opt (environ "PATH"))).
Proof.
  unfold tune_path. destruct chosen.
  - intros H. apply bindR_inr in H. destruct H as ([] & Hv & H).
    injection H as <-. split; [ | split]; [ | discriminate | ].
    + intros k Hk. now apply setenv_other.
    + intros _. split; [exact Hv | apply setenv_same].
  - intros H. injection H as <-. split; [ | split]; [ | | discriminate];
      reflexivity.
Qed.

Lemma tune_developer_dir_inr (version : string)
    (lookup : string -> Result (option string))
    (environ environ' : Environ) :
  tune_developer_dir version lookup environ = inr environ' ->
  (forall k, k <> "DEVELOPER_DIR" -> environ' k = environ k)
  /\ (Py.truthy version = false -> environ' = environ)
  /\ (forall dir,
        Py.truthy version = true -> lookup version = inr (Some dir) ->
        dir <> "" -> environ' "DEVELOPER_DIR" = Some dir)
  /\ (lookup version = inr None \/ lookup version = inr (Some "") ->
      environ' = environ).
Proof.
  unfold tune_developer_dir. destruct (Py.truthy version).
  - intros H. apply bindR_inr in H. destruct H as (r & Hr & H).
    rewrite Hr. destruct r as [dir|].
    + destruct (Py.truthy dir) eqn:Hd; injection H as <-.
      * split; [ | split; [ | split]].
        -- intros k Hk. now apply setenv_other.
        -- discriminate.
        -- intros dir' _ Heq _. injection Heq as <-. apply setenv_same.
        -- intros [Heq|Heq]; [discriminate Heq | ].
           injection Heq as ->. discriminate Hd.
      * split; [ | split; [ | split]]; try reflexivity.
        intros dir' _ Heq Hne. injection Heq as <-.
        apply truthy_true in Hne. congruence.
    + injection H as <-. split; [ | split; [ | split]]; try reflexivity.
      discriminate.
  - intros H. injection H as <-. split; [ | split; [ | split]];
      try reflexivity. discriminate.
Qed.

Lemma tune_codesign_other (root : string) (e : Toolchain) (environ : Environ)
    (k : string) :
  k <> "XCODE_XCCONFIG_FILE" \/ nocodesign e = false ->
  tune_codesign root e environ k = environ k.
Proof.
  unfold tune_codesign. intros [H|H].
  - destruct (nocodesign e); [now apply setenv_other | reflexivity].
  - now rewrite H.
Qed.



(** X11.  After the tuning, [DEVELOPER_DIR] is the root found for the OS X
    version of the toolchain, if it has one and a root is found; failing
    that, the root found for its iOS version: where both are found, the
    OS X one wins. *)
Theorem developer_dir_precedence (hp : Helpers) (root : string)
    (e : Toolchain) (environ environ' : Environ) :
  tune_environment hp root e environ = inr environ' ->
  (forall dir,
     Py.truthy (osx_version e) = true ->
     osx_dev_root hp (osx_version e) = inr (Some dir) -> dir <> "" ->
     environ' "DEVELOPER_DIR" = Some dir)
  /\ (forall dir,
        Py.truthy (ios_version e) = true ->
        ios_dev_root hp (ios_version e) = inr (Some dir) -> dir <> "" ->
        Py.truthy (osx_version e) = false
        \/ osx_dev_root hp (osx_version e) = inr None
        \/ osx_dev_root hp (osx_version e) = inr (Some "") ->
        environ' "DEVELOPER_DIR" = Some dir).
Proof.
  intros H.
  destruct (tune_environment_inr _ _ _ _ _ H)
    as (e1 & e2 & e3 & e4 & _ & _ & _ & H4 & H5).
  destruct (tune_developer_dir_inr _ _ _ _ H4) as (_ & _ & V4 & _).
  destruct (tune_developer_dir_inr _ _ _ _ H5) as (_ & N5 & V5 & M5).
  split.
  - intros dir Ho Hr Hne. now apply V5.
  - intros dir Hi Hr Hne Hosx.
    assert (Heq : environ' = tune_codesign root e e4).
    { destruct Hosx as [Hosx|Hosx]; [now apply N5 | now apply M5]. }
    rewrite Heq, tune_codesign_other by (left; discriminate).
    now apply V4.
Qed.

Lemma developer_dir_precedence_witness :
  exists environ',
    tune_environment Machine.helpers "/opt/polly"
      (Machine.entry "ios" false true "8.1" "10.10") Machine.environ
    = inr environ'
    /\ environ' "DEVELOPER_DIR" = Some "/Xcode-osx-10.10".
Proof.
  eexists. split; [reflexivity | ].
  exact (proj1 (developer_dir_precedence Machine.helpers "/opt/polly"
                  (Machine.entry "ios" false true "8.1" "10.10")
                  Machine.environ _ eq_refl)
           "/Xcode-osx-10.10" eq_refl eq_refl ltac:(discriminate)).
Defined.

(** X13.  For a toolchain that takes a Visual Studio snapshot (NMake, or
    Ninja with a Visual Studio version), the tuned environment is that
    snapshot on every variable but [DEVELOPER_DIR] and
    [XCODE_XCCONFIG_FILE]: nothing of the inherited environment is kept,
    and a [PATH] prefixed earlier for [mingw] or [msys] is lost. *)
Theorem nmake_environment_replaces (hp : Helpers) (root : string)
    (e : Toolchain) (environ environ' : Environ) :
  takes_nmake_environment e = true ->
  tune_environment hp root e environ = inr environ' ->
  exists snapshot,
    get_nmake_environment hp (arch e) (vs_version e) = inr snapshot
    /\ forall k,
         k <> "DEVELOPER_DIR" -> k <> "XCODE_XCCONFIG_FILE" ->
         environ' k = snapshot k.
Proof.
  intros Hn H.
  destruct (tune_environment_inr _ _ _ _ _ H)
    as (e1 & e2 & e3 & e4 & _ & _ & H3 & H4 & H5).
  rewrite Hn in H3. exists e3. split; [exact H3 | ].
  destruct (tune_developer_dir_inr _ _ _ _ H4) as (F4 & _).
  destruct (tune_developer_dir_inr _ _ _ _ H5) as (F5 & _).
  intros k Hd Hx. rewrite F5, tune_codesign_other, F4 by auto. reflexivity.
Qed.

Lemma nmake_environment_replaces_witness :
  exists snapshot,
    get_nmake_environment Machine.helpers "x86" "12" = inr snapshot
    /\ forall k,
         k <> "DEVELOPER_DIR" -> k <> "XCODE_XCCONFIG_FILE" ->
         (fun k : string => if (k =? "PATH")%string then Some "C:\VS12" else None) k
         = snapshot k.
Proof.
  exact (nmake_environment_replaces Machine.helpers "/opt/polly"
           (Machine.entry "mingw" true false "" "") Machine.environ
           (fun k => if (k =? "PATH")%string then Some "C:\VS12" else None)
           eq_refl eq_refl).
Defined.

(** X14.  For the toolchains [mingw] and [mingw-c11] the tuning hands
    [MINGW_PATH] to its verifier and, if that returns, sets [PATH] to the
    value of [MINGW_PATH], a semicolon and the old [PATH]; for [msys]
    likewise with [MSYS_PATH].  A variable that is not set is written as
    [None].  When the verifier raises, so does the tuning. *)
Theorem path_prefixed (hp : Helpers) (root : string) (e : Toolchain)
    (environ : Environ) :
  (is_mingw e = true ->
   (forall x,
      verify_mingw_path hp (environ "MINGW_PATH") = inl x ->
      tune_environment hp root e environ = inl x)
   /\ (forall environ',
         takes_nmake_environment e = false ->
         tune_environment hp root e environ = inr environ' ->
         verify_mingw_path hp (environ "MINGW_PATH") = inr tt
         /\ environ' "PATH"
            = Some (format_opt (environ "MINGW_PATH") +++ ";"
                    +++ format_opt (environ "PATH"))))
  /\ (is_msys e = true ->
      (forall x,
         verify_msys_path hp (environ "MSYS_PATH") = inl x ->
         tune_environment hp root e environ = inl x)
      /\ (forall environ',
            takes_nmake_environment e = false ->
            tune_environment hp root e environ = inr environ' ->
            verify_msys_path hp (environ "MSYS_PATH") = inr tt
            /\ environ' "PATH"
               = Some (format_opt (environ "MSYS_PATH") +++ ";"
                       +++ format_opt (environ "PATH")))).
Proof.
  assert (Hlater : forall environ' e2,
    takes_nmake_environment e = false ->
    (exists e3 e4,
       (if takes_nmake_environment e
        then get_nmake_environment hp (arch e) (vs_version e)
        else inr e2) = inr e3
       /\ tune_developer_dir (ios_version e) (ios_dev_root hp) e3 = inr e4
       /\ tune_developer_dir (osx_version e) (osx_dev_root hp)
            (tune_codesign root e e4) = inr environ') ->
    environ' "PATH" = e2 "PATH").
  { intros environ' e2 Hn (e3 & e4 & H3 & H4 & H5).
    rewrite Hn in H3. injection H3 as <-.
    destruct (tune_developer_dir_inr _ _ _ _ H4) as (F4 & _).
    destruct (tune_developer_dir_inr _ _ _ _ H5) as (F5 & _).
    rewrite F5, tune_codesign_other, F4
      by (discriminate || (left; discriminate)).
    reflexivity. }
  split.
  - intros Hm.
    assert (Hs : is_msys e = false).
    { unfold is_mingw, is_msys in *. apply orb_true_iff in Hm.
      destruct Hm as [Hm|Hm]; apply String.eqb_eq in Hm; now rewrite Hm. }
    split.
    + intros x Hv. rewrite tune_environment_blocks. unfold tune_path at 1.
      now rewrite Hm, Hv.
    + intros environ' Hn H.
      destruct (tune_environment_inr _ _ _ _ _ H)
        as (e1 & e2 & e3 & e4 & H1 & H2 & H345).
      destruct (tune_path_inr _ _ _ _ _ H1) as (_ & _ & V1).
      destruct (tune_path_inr _ _ _ _ _ H2) as (_ & N2 & _).
      destruct (V1 Hm) as (Hv & Hpath). split; [exact Hv | ].
      rewrite (Hlater environ' e2 Hn) by (now exists e3, e4).
      now rewrite (N2 Hs).
  - intros Hs.
    assert (Hm : is_mingw e = false).
    { unfold is_mingw, is_msys in *. apply String.eqb_eq in Hs.
      now rewrite Hs. }
    split.
    + intros x Hv. rewrite tune_environment_blocks.
      unfold tune_path. rewrite Hm. cbn [bindR]. now rewrite Hs, Hv.
    + intros environ' Hn H.
      destruct (tune_environment_inr _ _ _ _ _ H)
        as (e1 & e2 & e3 & e4 & H1 & H2 & H345).
      destruct (tune_path_inr _ _ _ _ _ H1) as (_ & N1 & _).
      destruct (tune_path_inr _ _ _ _ _ H2) as (_ & _ & V2).
      destruct (V2 Hs) as (Hv & Hpath). rewrite (N1 Hm) in Hv, Hpath.
      split; [exact Hv | ].
      now rewrite (Hlater environ' e2 Hn) by (now exists e3, e4).
Qed.

Lemma path_prefixed_witness :
  exists environ',
    tune_environment Machine.helpers "/opt/polly"
      (Machine.entry "mingw" false false "" "") Machine.environ
    = inr environ'
    /\ environ' "PATH" = Some "C:\MinGW;C:\Windows".
Proof.
  eexists. split; [reflexivity | ].
  exact (proj2 (proj2 (proj1 (path_prefixed Machine.helpers "/opt/polly"
                          (Machine.entry "mingw" false false "" "")
                          Machine.environ) eq_refl)
                  _ eq_refl eq_refl)).
Defined.

(** ** The configure command, token by token *)

(** X15.  The configure command is, in this order: [cmake], the source
    directory ([.] unless [--home] names one), the build directory, the
    build type, the generator if the toolchain has one, the XP toolset
    [v<version>0_xp] if it asks for it, the toolchain file, the three debug
    definitions at full verbosity, the definitions of [--ios-multiarch] and
    [--ios-combined], the install prefix in local-install mode, the
    generator of [--pack], and the definitions of [--fwd]. *)
Theorem configure_command_layout (a : Args) (e : Toolchain) (lay : Layout) :
  generate_command a e lay
  = ["cmake"; "-H" +++ home a; lay_build_dir_option lay]
    ++ match args_config a with
       | Some config =>
           opt_tokens (Py.truthy config && negb (multiconfig e))
             ["-DCMAKE_BUILD_TYPE=" +++ config]
       | None => []
       end
    ++ opt_tokens (Py.truthy (generator e)) ["-G" +++ generator e]
    ++ opt_tokens (xp e) ["-Tv" +++ vs_version e +++ "0_xp"]
    ++ opt_tokens (Py.truthy (lay_toolchain_option lay))
         [lay_toolchain_option lay]
    ++ opt_tokens (is_full (verbosity a)) verbose_definitions
    ++ opt_tokens (args_ios_multiarch a)
         ["-DCMAKE_XCODE_ATTRIBUTE_ONLY_ACTIVE_ARCH=NO"]
    ++ opt_tokens (args_ios_combined a) ["-DCMAKE_IOS_INSTALL_COMBINED=YES"]
    ++ opt_tokens (lay_local_install lay) [lay_install_dir_option lay]
    ++ match args_pack a with
       | Some g => opt_tokens (Py.truthy g) ["-DCPACK_GENERATOR=" +++ g]
       | None => []
       end
    ++ map (String.append "-D") (forwarded a)
  /\ (Py.given (args_home a) = false -> home a = ".")
  /\ (forall h, args_home a = Some h -> h <> "" -> home a = h).
Proof.
  split; [ | split].
  - rewrite generate_command_groups. unfold generate_groups.
    cbn [concat]. rewrite app_nil_r, <- !app_assoc. reflexivity.
  - unfold home, Py.given. destruct (args_home a) as [h|]; [ | reflexivity].
    now intros ->.
  - intros h Hh Hne. unfold home. rewrite Hh. apply truthy_true in Hne.
    now rewrite Hne.
Qed.

Lemma configure_command_layout_witness :
  generate_command (Machine.homed "src") Sample.gcc
    (Sample.layout (Machine.homed "src") "gcc" Sample.gcc)
  = ["cmake"; "-Hsrc"; "-B/tmp/proj/_builds/gcc-Release";
     "-DCMAKE_BUILD_TYPE=Release"; "-GUnix Makefiles";
     "-DCMAKE_TOOLCHAIN_FILE=/opt/polly/gcc.cmake";
     "-DCMAKE_VERBOSE_MAKEFILE=ON"; "-DPOLLY_STATUS_DEBUG=ON";
     "-DHUNTER_STATUS_DEBUG=ON";
     "-DCMAKE_INSTALL_PREFIX=/tmp/proj/_install/gcc"; "-DCPACK_GENERATOR=TGZ";
     "-DA=1"; "-DB=2"]
  /\ home (Machine.homed "src") = "src"
  /\ home (Machine.pipeline false false false) = ".".
Proof.
  split; [ | split].
  - exact (eq_trans
             (proj1 (configure_command_layout (Machine.homed "src") Sample.gcc
                       (Sample.layout (Machine.homed "src") "gcc" Sample.gcc)))
             eq_refl).
  - exact (proj2 (proj2 (configure_command_layout (Machine.homed "src")
                           Sample.gcc
                           (Sample.layout (Machine.homed "src") "gcc"
                              Sample.gcc)))
             "src" eq_refl ltac:(discriminate)).
  - exact (proj1 (proj2 (configure_command_layout
                           (Machine.pipeline false false false) Sample.gcc
                           (Sample.layout (Machine.pipeline false false false)
                              "gcc" Sample.gcc))) eq_refl).
Defined.

(** ** One build directory *)

(** X19.  In a run that completes, every stage works on the build
    directory of the layout: it is the third token of the configure
    command, behind [-B], and the third token of the build command; the
    configure step is handed it, with the scratch directory below it; and
    it is the only directory the run changes to. *)
Theorem one_build_directory (w : World) (a : Args) (t : string)
    (e : Toolchain) (tr : list Event) (plan : Plan) :
  run w a t e [] = (tr, inr plan) ->
  nth_error (plan_generate_command plan) 2
  = Some ("-B" +++ lay_build_dir (plan_layout plan))
  /\ (exists rest,
        plan_build_command plan
        = "cmake" :: "--build" :: lay_build_dir (plan_layout plan) :: rest)
  /\ (forall argv bd td rc,
        In (Generate argv bd td rc) tr ->
        bd = lay_build_dir (plan_layout plan)
        /\ td = Py.join bd ["_3rdParty"; "polly"])
  /\ (forall path, In (Chdir path) tr -> path = lay_build_dir (plan_layout plan))
  /\ lay_build_dir (plan_layout plan)
     = Py.join (lay_cdir (plan_layout plan)) ["_builds"; build_tag a e t].
Proof.
  intros H. destruct (completed_trace _ _ _ _ _ _ H) as (Hp & Hg & ->).
  destruct (run_completed _ _ _ _ _ _ H) as (_ & _ & Hb).
  destruct (layout_options _ _ _ _ _ _ Hp) as (_ & Hopt & _).
  split; [ | split; [ | split; [ | split]]].
  - rewrite Hg, generate_command_groups. unfold generate_groups.
    cbn [concat app nth_error]. now rewrite Hopt.
  - rewrite build_command_head in Hb.
    assert (Hhead : forall tokens,
      exists rest,
        Spec.build_head w a (plan_layout plan) ++ tokens
        = "cmake" :: "--build" :: lay_build_dir (plan_layout plan) :: rest).
    { intros tokens. unfold Spec.build_head. eexists. reflexivity. }
    assert (Hnone :
      @inr Raised _ (Spec.build_head w a (plan_layout plan))
      = inr (plan_build_command plan) ->
      exists rest,
        plan_build_command plan
        = "cmake" :: "--build" :: lay_build_dir (plan_layout plan) :: rest).
    { intros Heq. injection Heq as <-. destruct (Hhead []) as (rest & Hr).
      rewrite app_nil_r in Hr. now exists rest. }
    destruct (args_jobs a) as [n|]; [ | now apply Hnone].
    destruct (Py.given_int (Some n)); [ | now apply Hnone].
    unfold append_jobs in Hb.
    destruct (is_xcode e);
      [rewrite append_if_app in Hb; injection Hb as <-; apply Hhead | ].
    destruct (is_make e && negb (is_nmake e));
      [rewrite append_if_app in Hb; injection Hb as <-; apply Hhead | ].
    destruct (is_msvc e); [ | now apply Hnone].
    destruct (Py.int (vs_version e)); [ | discriminate Hb].
    rewrite append_if_app in Hb. injection Hb as <-. apply Hhead.
  - intros argv bd td rc Hin. each_event Hin.
    injection Hin as _ <- <- _. now split.
  - intros path Hin. each_event Hin. now injection Hin.
  - destruct (prepare_inr _ _ _ _ _ _ Hp) as (cd & _ & _ & _ & _ & _ & ->).
    reflexivity.
Qed.

Lemma one_build_directory_witness :
  nth_error
    (generate_command (Machine.pipeline false false false) Sample.gcc
       (Sample.layout (Machine.pipeline false false false) "gcc" Sample.gcc)) 2
  = Some "-B/tmp/proj/_builds/gcc-Release".
Proof.
  exact (proj1 (one_build_directory Sample.world
                  (Machine.pipeline false false false) "gcc" Sample.gcc _
                  {| plan_layout :=
                       Sample.layout (Machine.pipeline false false false)
                         "gcc" Sample.gcc;
                     plan_generate_command :=
                       generate_command (Machine.pipeline false false false)
                         Sample.gcc
                         (Sample.layout (Machine.pipeline false false false)
                            "gcc" Sample.gcc);
                     plan_build_command :=
                       ["cmake"; "--build"; "/tmp/proj/_builds/gcc-Release";
                        "--config"; "Release"; "--target"; "install"; "--"] |}
                  eq_refl)).
Defined.
